(** * Bolson: JSON to Arrow IPC conversion and Pulsar publishing

    A shallow embedding of the parts of the Bolson sources that the
    specification talks about, and the properties proved of them.

    Conventions.
    - [size_t] and [uint64_t] values are [Z] with the wrap-around modulo
      [2^64] written out where the source can overflow.
    - A function that reports failure through [putong::Status] returns a
      [Status]; out-parameters are returned next to it.
    - Calls into libraries that are not part of the repository (Arrow,
      Fletcher, Illex, Pulsar, the operating system) are section variables
      or fields of an environment record: their results are inputs of the
      model.
    - Loops that the source does not bound (busy waiting, polling a
      hardware register) take fuel and return [None] when it runs out. *)

From Stdlib Require Import ZArith List String Ascii Bool Lia.
From Stdlib Require Import DecimalString HexadecimalString.
From stdpp Require Import gmap.
Import ListNotations.

Local Open Scope string_scope.
Local Open Scope Z_scope.
Local Open Scope list_scope.

(** ** Status (bolson/status.h, putong/status.h) *)

Inductive Error :=
| GenericError
| CLIError
| PulsarError
| IllexError
| RapidJSONError
| IOError
| ArrowError
| FletcherError
| OpaeError.

(** [putong::Status<Error>]: either OK, or an error kind with a message. *)
Inductive Status :=
| OK
| Err (e : Error) (msg : string).

Definition ok (s : Status) : bool :=
  match s with OK => true | Err _ _ => false end.

Definition msg (s : Status) : string :=
  match s with OK => "" | Err _ m => m end.

(** [arrow::Result<T>]. *)
Inductive Result (A : Type) :=
| ROk (a : A)
| RErr (message : string).
Arguments ROk {A} a.
Arguments RErr {A} message.

(** Unsigned 64-bit wrap-around. *)
Definition UINT64_MAX : Z := 2 ^ 64 - 1.
Definition wrap64 (z : Z) : Z := z mod 2 ^ 64.
Definition wrap32 (z : Z) : Z := z mod 2 ^ 32.

(** [std::to_string] of an unsigned number: its decimal digits. *)
Definition to_string (z : Z) : string :=
  DecimalString.NilZero.string_of_uint (N.to_uint (Z.to_N z)).

(** [illex::SeqRange]: inclusive range of sequence numbers ([uint64_t]). *)
Record SeqRange := { first : Z; last : Z }.

(** [arrow::Buffer] as far as the converter looks at it: its bytes. *)
Definition Buffer := list Byte.byte.

(** [arrow::Buffer::size()]. *)
Definition size (b : Buffer) : Z := Z.of_nat (length b).

(** ** bolson/convert/serializer.cpp *)

Module Serializer.

Record SerializedBatch := { message : Buffer; sb_seq_range : SeqRange }.

Section Serialize.
(** [arrow::RecordBatch] and [arrow::ipc::IpcWriteOptions] are opaque
    here; [arrow::ipc::SerializeRecordBatch] is Arrow's. *)
Variables RecordBatch IpcWriteOptions : Type.
Variable SerializeRecordBatch : RecordBatch -> IpcWriteOptions -> Result Buffer.

Record ResizedBatch := { batch : RecordBatch; seq_range : SeqRange }.

Record Serializer := { opts : IpcWriteOptions; max_ipc_size : Z }.

(** The [for (const auto& batch : in)] loop, with the local [result]
    as accumulator. [inl] is an early [return Status(...)]. *)
Fixpoint Serialize_loop (s : Serializer) (in_ : list ResizedBatch)
    (result : list SerializedBatch) : Status + list SerializedBatch :=
  match in_ with
  | [] => inr result
  | b :: rest =>
      match SerializeRecordBatch (batch b) (opts s) with
      | RErr m => inl (Err ArrowError ("Could not serialize batch: " ++ m)%string)
      | ROk serialized =>
          if size serialized >? max_ipc_size s
          then inl (Err GenericError
                 "Maximum IPC message size exceeded.Reduce max number of rows per batch.")
          else Serialize_loop s rest
                 (result ++ [{| message := serialized; sb_seq_range := seq_range b |}])
      end
  end.

(** [Serializer::Serialize(in, out)]: the status and the value of [*out]
    after the call ([out] is its value before). *)
Definition Serialize (s : Serializer) (in_ : list ResizedBatch)
    (out : list SerializedBatch) : Status * list SerializedBatch :=
  match Serialize_loop s in_ [] with
  | inl e => (e, out)
  | inr result => (OK, result)
  end.

(** A batch whose serialized payload is larger than the ceiling. *)
Definition oversized (s : Serializer) (b : ResizedBatch) : Prop :=
  exists buf, SerializeRecordBatch (batch b) (opts s) = ROk buf
              /\ max_ipc_size s < size buf.

(** What one output message has to do with the batch it came from. *)
Definition serialized_from (s : Serializer) (b : ResizedBatch)
    (sb : SerializedBatch) : Prop :=
  SerializeRecordBatch (batch b) (opts s) = ROk (message sb)
  /\ size (message sb) <= max_ipc_size s
  /\ sb_seq_range sb = seq_range b.
End Serialize.

Arguments batch {RecordBatch} _.
Arguments seq_range {RecordBatch} _.
Arguments opts {IpcWriteOptions} _.
Arguments max_ipc_size {IpcWriteOptions} _.
Arguments Serialize_loop {RecordBatch IpcWriteOptions} _ _ _ _.
Arguments Serialize {RecordBatch IpcWriteOptions} _ _ _ _.
Arguments oversized {RecordBatch IpcWriteOptions} _ _ _.
Arguments serialized_from {RecordBatch IpcWriteOptions} _ _ _ _.

(** [ByteSizeOf]. *)
Definition ByteSizeOf (batches : list SerializedBatch) : Z :=
  fold_left (fun result b => wrap64 (result + size (message b))) batches 0.

(** [RecordSizeOf]. *)
Definition RecordSizeOf (b : SerializedBatch) : Z :=
  wrap64 (last (sb_seq_range b) - first (sb_seq_range b) + 1).

(** [operator<] on serialized batches. *)
Definition lt_SerializedBatch (a b : SerializedBatch) : bool :=
  first (sb_seq_range a) <? first (sb_seq_range b).

End Serializer.

(** ** bolson/main.cpp *)

(** A C [switch]: control enters at the first case whose label matches and
    runs the bodies in order until one ends in [break]. *)
Module CSwitch.
Inductive Flow := Break | FallThrough.

Record Case (L S : Type) := { label : L; body : S -> S; flow : Flow }.
Arguments label {L S} _.
Arguments body {L S} _ _.
Arguments flow {L S} _.

Fixpoint run_from {L S} (cases : list (Case L S)) (st : S) : S :=
  match cases with
  | [] => st
  | c :: rest =>
      let st' := body c st in
      match flow c with
      | Break => st'
      | FallThrough => run_from rest st'
      end
  end.

Fixpoint switch {L S} (eqb : L -> L -> bool) (v : L)
    (cases : list (Case L S)) (st : S) : S :=
  match cases with
  | [] => st
  | c :: rest =>
      if eqb (label c) v then run_from cases st else switch eqb v rest st
  end.
End CSwitch.

Module Main.
Import CSwitch.

Inductive SubCommand := NONE | FILE | STREAM.

Definition SubCommand_eqb (a b : SubCommand) : bool :=
  match a, b with
  | NONE, NONE | FILE, FILE | STREAM, STREAM => true
  | _, _ => false
  end.

(** What [main] does that can be seen from outside. *)
Inductive Event :=
| StartLogger
| RunProduceFromFile
| RunProduceFromStream
| LogError (line : string).

Section main.
Variables FileOptions StreamOptions : Type.

Record AppOptions :=
  { sub : SubCommand; file : FileOptions; stream : StreamOptions }.

(** [AppOptions::FromArguments] of this version of the command line,
    and the two sub-programs. *)
Variable FromArguments : list string -> Status * AppOptions.
Variable ProduceFromFile : FileOptions -> Status.
Variable ProduceFromStream : StreamOptions -> Status.

(** [AppOptions::name]. *)
Variable name : string.

(** The local [status] and the events so far. *)
Definition MainState : Type := Status * list Event.

Definition sub_programs (opts : AppOptions) : list (Case SubCommand MainState) :=
  [ {| label := NONE; body := fun st => st; flow := Break |};
    {| label := FILE;
       body := fun st => (ProduceFromFile (file opts), snd st ++ [RunProduceFromFile]);
       flow := FallThrough |};
    {| label := STREAM;
       body := fun st => (ProduceFromStream (stream opts), snd st ++ [RunProduceFromStream]);
       flow := FallThrough |} ].

(** [main]: the exit code and the events. *)
Definition main (argv : list string) : Z * list Event :=
  let '(status, opts) := FromArguments argv in
  let st0 : MainState := (status, [StartLogger]) in
  let st1 :=
    if ok (fst st0)
    then switch SubCommand_eqb (sub opts) (sub_programs opts) st0
    else st0 in
  let st2 :=
    if negb (ok (fst st1))
    then (fst st1,
          snd st1 ++ [LogError (name ++ " exiting with errors.")%string;
                      LogError ("  " ++ msg (fst st1))%string])
    else st1 in
  (0, snd st2).
End main.

Arguments sub {FileOptions StreamOptions} _.
Arguments file {FileOptions StreamOptions} _.
Arguments stream {FileOptions StreamOptions} _.
Arguments main {FileOptions StreamOptions} _ _ _ _ _.
End Main.

(** ** bolson/stream.cpp *)

Module Stream.

(** [size_t] printed by [operator<<]: decimal digits. *)
Definition show_size_t (z : Z) : string := to_string z.

(** [std::variant<illex::RawProtocol, illex::ZMQProtocol>]. *)
Inductive Protocol :=
| RawProtocol (port : Z)
| ZMQProtocol (port : Z).

Record PulsarOptions := { url : string; topic : string }.

Record StreamOptions := {
  protocol : Protocol;
  pulsar : PulsarOptions;
  hostname : string;
  seq : Z;
  num_conversion_drones : Z;
  batch_threshold : Z;
  statistics : bool;
  succinct : bool
}.

(** What the supervisor does, in program order. *)
Inductive Event :=
| EvSetupClientProducer (url topic : string)
| EvSpawnConverterThread
| EvSpawnPublishThread
| EvClientCreate
| EvReceiveJSONs
| EvClientClose
| EvLoadPublishCount (n : Z)
| EvStoreShutdown
| EvJoinConverterThread
| EvJoinPublishThread
| EvGetConvStats
| EvGetPubStats
| EvOutputStats (line : string)
| EvLogStats.

(** [StreamThreads::Shutdown]. *)
Definition Shutdown : list Event :=
  [EvStoreShutdown; EvJoinConverterThread; EvJoinPublishThread].

Section WithDouble.
(** [double] and the operations the statistics use. *)
Variable double : Type.
Variable d_zero : double.
Variable d_add : double -> double -> double.
Variable d_div : double -> double -> double.
Variable d_of_size_t : Z -> double.
Variable show_double : double -> string.

(** [ConversionStats]: the counters that [AggrStats] adds up, and the
    status of the conversion (bolson/convert/stats.h). *)
Record ConversionStats := {
  num_jsons : Z;
  num_ipc : Z;
  convert_time : double;
  thread_time : double;
  total_ipc_bytes : Z;
  status : Status
}.

(** [PublishStats]. *)
Record PublishStats := {
  num_published : Z;
  publish_time : double;
  pub_thread_time : double;
  pub_status : Status
}.

(** A default-constructed [ConversionStats]. *)
Definition ConversionStats_default : ConversionStats :=
  {| num_jsons := 0; num_ipc := 0; convert_time := d_zero;
     thread_time := d_zero; total_ipc_bytes := 0; status := OK |}.

(** The body of the loop of [AggrStats]. *)
Definition AggrStats_step (all_conv_stats t : ConversionStats) : ConversionStats :=
  {| num_jsons := wrap64 (num_jsons all_conv_stats + num_jsons t);
     num_ipc := wrap64 (num_ipc all_conv_stats + num_ipc t);
     convert_time := d_add (convert_time all_conv_stats) (convert_time t);
     thread_time := d_add (thread_time all_conv_stats) (thread_time t);
     total_ipc_bytes := wrap64 (total_ipc_bytes all_conv_stats + total_ipc_bytes t);
     status := status all_conv_stats |}.

(** [AggrStats]. *)
Definition AggrStats (conv_stats : list ConversionStats) : ConversionStats :=
  fold_left AggrStats_step conv_stats ConversionStats_default.

(** Streaming a field followed by a comma, and the last field followed
    by [std::endl]. *)
Definition put (output field : string) : string :=
  (output ++ field ++ ",")%string.

Definition put_endl (output field : string) : string :=
  (output ++ field ++ String "010"%char EmptyString)%string.

(** [OutputStats]: [latency_seconds] is [latency_timer.seconds()],
    [received] is [client.received()]; the result is the stream after
    the call. *)
Definition OutputStats (latency_seconds : double) (received : Z)
    (conv_stats : list ConversionStats) (pub_stats : PublishStats)
    (output : string) : string :=
  let all_conv_stats := AggrStats conv_stats in
  let output := put output (show_size_t received) in
  let output := put output (show_size_t (num_jsons all_conv_stats)) in
  let output := put output (show_size_t (total_ipc_bytes all_conv_stats)) in
  let output := put output
    (show_double (d_div (d_of_size_t (total_ipc_bytes all_conv_stats))
                        (d_of_size_t (num_jsons all_conv_stats)))) in
  let output := put output
    (show_double (d_div (convert_time all_conv_stats)
                        (d_of_size_t (num_jsons all_conv_stats)))) in
  let output := put output
    (show_double (d_div (thread_time all_conv_stats)
                        (d_of_size_t (num_jsons all_conv_stats)))) in
  let output := put output (show_size_t (num_published pub_stats)) in
  let output := put output
    (show_double (d_div (publish_time pub_stats)
                        (d_of_size_t (num_published pub_stats)))) in
  let output := put output (show_double (pub_thread_time pub_stats)) in
  put_endl output (show_double latency_seconds).

(** Everything [ProduceFromStream] gets from outside: the results of the
    Pulsar and Illex calls, the values it reads from the atomic counter
    and what the two threads deliver through their futures. *)
Record Env := {
  SetupClientProducer : string -> string -> Status;
  (** The calls of the Illex client, by the number of earlier evaluations
      of the same call. *)
  client_create : nat -> Status;
  client_receive_jsons : nat -> Status;
  client_close : nat -> Status;
  (** [client.received()] once the client is done. *)
  received : Z;
  (** [threads.publish_count.load()], by the number of earlier loads. *)
  publish_count : nat -> Z;
  conv_stats_future : list ConversionStats;
  pub_stats_future : PublishStats;
  latency_timer_seconds : double
}.

(** The busy wait [while (client.received() != publish_count.load())];
    [i] counts the loads done so far. *)
Fixpoint wait_published (fuel : nat) (env : Env) (i : nat) (tr : list Event)
    : option (list Event) :=
  match fuel with
  | O => None
  | S fuel' =>
      let n := publish_count env i in
      let tr := tr ++ [EvLoadPublishCount n] in
      if negb (received env =? n)
      then wait_published fuel' env (S i) tr
      else Some tr
  end.

(** [SHUTDOWN_ON_ERROR(status)] followed by the rest [k]. The macro pastes
    its argument twice: the call [status] is evaluated for the test and,
    when the test fails, once more for the message, after the threads have
    been shut down. [call] is the event of an evaluation. *)
Definition SHUTDOWN_ON_ERROR (call : Event) (status : nat -> Status) (tr : list Event)
    (k : list Event -> option (Status * list Event)) : option (Status * list Event) :=
  let tr := tr ++ [call] in
  if negb (ok (status 0%nat))
  then Some (Err IllexError (msg (status 1%nat)), tr ++ Shutdown ++ [call])
  else k tr.

(** [ProduceFromStream]. [None]: the busy wait is still going on when
    the fuel is used up. *)
Definition ProduceFromStream (fuel : nat) (env : Env) (opt : StreamOptions)
    : option (Status * list Event) :=
  match protocol opt with
  | ZMQProtocol _ => Some (Err GenericError "Not implemented.", [])
  | RawProtocol _ =>
      let tr := [EvSetupClientProducer (url (pulsar opt)) (topic (pulsar opt))] in
      let s := SetupClientProducer env (url (pulsar opt)) (topic (pulsar opt)) in
      if negb (ok s) then Some (s, tr) else
      let tr := tr ++ [EvSpawnConverterThread; EvSpawnPublishThread] in
      SHUTDOWN_ON_ERROR EvClientCreate (client_create env) tr (fun tr =>
      SHUTDOWN_ON_ERROR EvReceiveJSONs (client_receive_jsons env) tr (fun tr =>
      SHUTDOWN_ON_ERROR EvClientClose (client_close env) tr (fun tr =>
      match wait_published fuel env 0 tr with
      | None => None
      | Some tr =>
          let tr := tr ++ Shutdown in
          let conv_stats := conv_stats_future env in
          let tr := tr ++ [EvGetConvStats] in
          let pub_stats := pub_stats_future env in
          let tr := tr ++ [EvGetPubStats] in
          if negb (ok (pub_status pub_stats))
          then Some (pub_status pub_stats, tr)
          else
            let tr :=
              if statistics opt
              then if succinct opt
                   then tr ++ [EvOutputStats
                          (OutputStats (latency_timer_seconds env) (received env)
                                       conv_stats pub_stats "")]
                   else tr ++ [EvLogStats]
              else tr in
            Some (OK, tr)
      end)))
  end.
End WithDouble.

Arguments num_jsons {double} _.
Arguments num_ipc {double} _.
Arguments convert_time {double} _.
Arguments thread_time {double} _.
Arguments total_ipc_bytes {double} _.
Arguments status {double} _.
Arguments num_published {double} _.
Arguments publish_time {double} _.
Arguments pub_thread_time {double} _.
Arguments pub_status {double} _.
Arguments AggrStats_step {double} _ _ _.
Arguments AggrStats {double} _ _ _.
Arguments OutputStats {double} _ _ _ _ _ _ _ _ _ _.
Arguments SetupClientProducer {double} _ _ _.
Arguments client_create {double} _ _.
Arguments client_receive_jsons {double} _ _.
Arguments client_close {double} _ _.
Arguments received {double} _.
Arguments publish_count {double} _ _.
Arguments conv_stats_future {double} _.
Arguments pub_stats_future {double} _.
Arguments latency_timer_seconds {double} _.
Arguments wait_published {double} _ _ _ _.
Arguments ProduceFromStream {double} _ _ _ _ _ _ _ _.
End Stream.

(** ** bolson/buffer/opae_allocator.h, opae_allocator.cpp *)

Module OpaeAllocator.

(** [static constexpr size_t opae_fixed_capacity = 1024 * 1024 * 1024]. *)
Definition opae_fixed_capacity : Z := 1024 * 1024 * 1024.

(** Modelled from the spec: the member [fixed_capacity_] that [Allocate]
    reads is not declared in the header that is at hand; the allocator
    "can currently only allocate exactly one GibiByte", the constant
    above. *)
Definition fixed_capacity_ : Z := opae_fixed_capacity.

(** <sys/mman.h> on Linux. *)
Definition PROT_READ : Z := 1.
Definition PROT_WRITE : Z := 2.
Definition MAP_PRIVATE : Z := 2.
Definition MAP_ANONYMOUS : Z := 32.
Definition MAP_HUGETLB : Z := 262144.

Definition mmap_prot : Z := Z.lor PROT_READ PROT_WRITE.

Definition mmap_flags : Z :=
  Z.lor (Z.lor (Z.lor MAP_PRIVATE MAP_ANONYMOUS) MAP_HUGETLB) (Z.shiftl 30 26).

(** The operating system: [mmap(nullptr, length, prot, flags, -1, 0)]
    gives an address or [MAP_FAILED] ([None]); [errno] and [strerror]. *)
Record OS := {
  mmap : Z -> Z -> Z -> option Z;
  errno : Z;
  strerror : Z -> string
}.

(** The allocator and the memory it touches: the bytes, the regions the
    process has mapped, the member [allocations] and the log. *)
Record State := {
  memory : Z -> Z;
  mapped : gmap Z Z;
  allocations : gmap Z Z;
  log : list string
}.

(** [std::memset(dest, ch, count)]: the memory afterwards, and [dest]. *)
Definition memset (mem : Z -> Z) (dest ch count : Z) : (Z -> Z) * Z :=
  (fun a => if (dest <=? a) && (a <? dest + count) then ch else mem a, dest).

(** [OpaeAllocator::Allocate(size, out)]: the status, [*out] and the
    state afterwards. *)
Definition Allocate (os : OS) (size : Z) (out : option Z) (st : State)
    : Status * option Z * State :=
  let log1 :=
    if negb (size =? fixed_capacity_)
    then log st ++
         [("OpaeAllocator requested to allocate " ++ to_string size ++ " bytes, "
           ++ "but implementation only allows allocating exactly "
           ++ to_string fixed_capacity_ ++ " bytes.")%string]
    else log st in
  let size := fixed_capacity_ in
  match mmap os size mmap_prot mmap_flags with
  | None =>
      (Err OpaeError
         ("OpaeAllocator unable to allocate huge page buffer. " ++ "Errno: "
          ++ to_string (errno os) ++ " : " ++ strerror os (errno os))%string,
       out,
       {| memory := memory st; mapped := mapped st;
          allocations := allocations st; log := log1 |})
  | Some addr =>
      let mapped1 := <[addr := size]> (mapped st) in
      let '(mem1, r) := memset (memory st) addr 0 size in
      if negb (r =? addr)
      then (Err OpaeError "Unable to zero-initialize buffers.", out,
            {| memory := mem1; mapped := mapped1;
               allocations := allocations st; log := log1 |})
      else (OK, Some addr,
            {| memory := mem1; mapped := mapped1;
               allocations := <[addr := size]> (allocations st); log := log1 |})
  end.

(** [OpaeAllocator::Free(buffer)]: only the warning. *)
Definition Free (buffer : Z) (st : State) : Status * State :=
  (OK,
   {| memory := memory st; mapped := mapped st; allocations := allocations st;
      log := log st ++ ["OpaeAllocator free not implemented. Freeing on exit :tm:."] |}).

(** The bytes of the buffer of [n] bytes at [addr] are all zero. *)
Definition zeroed (st : State) (addr n : Z) : Prop :=
  forall a, addr <= a < addr + n -> memory st a = 0.

End OpaeAllocator.

(** ** Arrow record batches, as far as the parsers use them *)

Module Arrow.

Inductive DataType :=
| uint8
| int32
| uint64
| list_ (item_name : string) (item_type : DataType) (item_nullable : bool).

Record Field := { field_name : string; field_type : DataType; nullable : bool }.

(** [arrow::KeyValueMetadata]: keys and values, in order. *)
Definition KeyValueMetadata : Type := list (string * string).

Record Schema := { fields : list Field; metadata : KeyValueMetadata }.

(** Arrays by their values, and arrays that wrap memory of the host:
    [Buffer::Wrap(address, bytes)] with a type and a length. *)
Inductive Array :=
| UInt64Array (values : list Z)
| ListArray (offsets : list Z) (values : list Z)
| PrimitiveArray (type : DataType) (length : Z) (address bytes : Z)
| WrappedListArray (type : DataType) (length : Z) (address bytes : Z)
    (values : Array).

Definition array_length (a : Array) : Z :=
  match a with
  | UInt64Array values => Z.of_nat (length values)
  | ListArray offsets _ => Z.of_nat (length offsets) - 1
  | PrimitiveArray _ n _ _ => n
  | WrappedListArray _ n _ _ _ => n
  end.

Definition array_type (a : Array) : DataType :=
  match a with
  | UInt64Array _ => uint64
  | ListArray _ _ => list_ "item" uint64 true
  | PrimitiveArray t _ _ _ => t
  | WrappedListArray t _ _ _ _ => t
  end.

Record RecordBatch := { schema : Schema; num_rows : Z; columns : list Array }.

Definition insert_at {A} (i : nat) (x : A) (l : list A) : list A :=
  firstn i l ++ x :: skipn i l.

(** [RecordBatch::AddColumn(i, field_name, column)]: the column must be
    as long as the batch and [i] must be an index of the schema or one
    past its end; the new field is nullable and has the column's type. *)
Definition AddColumn (b : RecordBatch) (i : Z) (name : string) (column : Array)
    : Result RecordBatch :=
  if negb (array_length column =? num_rows b)
  then RErr "Added column's length must match record batch's length."
  else if (i <? 0) || (Z.of_nat (length (fields (schema b))) <? i)
  then RErr "Invalid column index to add field."
  else ROk {| schema :=
                {| fields := insert_at (Z.to_nat i)
                               {| field_name := name; field_type := array_type column;
                                  nullable := true |}
                               (fields (schema b));
                   metadata := metadata (schema b) |};
              num_rows := num_rows b;
              columns := insert_at (Z.to_nat i) column (columns b) |}.

(** [ListArray::FromArrays(offsets, values)]. *)
Definition FromArrays (offsets values : list Z) : Result Array :=
  if (length offsets =? 0)%nat
  then RErr "List offsets must have non-zero length"
  else ROk (ListArray offsets values).

(** Setting a key of the metadata: the first entry with that key is
    replaced, a new key goes to the end. *)
Fixpoint kv_set (k v : string) (m : KeyValueMetadata) : KeyValueMetadata :=
  match m with
  | [] => [(k, v)]
  | (k', v') :: rest =>
      if String.eqb k' k then (k, v) :: rest else (k', v') :: kv_set k v rest
  end.

Fixpoint kv_get (k : string) (m : KeyValueMetadata) : option string :=
  match m with
  | [] => None
  | (k', v') :: rest => if String.eqb k' k then Some v' else kv_get k rest
  end.

(** The numbers [0, 1, ..., n-1]. *)
Definition zrange (n : Z) : list Z := map Z.of_nat (seq 0 (Z.to_nat n)).

End Arrow.

(** [fletcher::Mode]. *)
Inductive FletcherMode := READ | WRITE.

(** Modelled from the spec: [AddSeqAsSchemaMeta] is declared in
    bolson/parse/parser.h, which is not at hand. "Schema metadata always
    carries [bolson_seq_first] and [bolson_seq_last] string-encoded decimals
    covering the batch's range"; the batch is otherwise the same. *)
Definition AddSeqAsSchemaMeta (b : Arrow.RecordBatch) (r : SeqRange) : Arrow.RecordBatch :=
  {| Arrow.schema :=
       {| Arrow.fields := Arrow.fields (Arrow.schema b);
          Arrow.metadata :=
            Arrow.kv_set "bolson_seq_last" (to_string (last r))
              (Arrow.kv_set "bolson_seq_first" (to_string (first r))
                 (Arrow.metadata (Arrow.schema b))) |};
     Arrow.num_rows := Arrow.num_rows b;
     Arrow.columns := Arrow.columns b |}.

(** [illex::JSONBuffer]: where the bytes are, how many, and the sequence
    numbers of the JSONs in it. *)
Record JSONBuffer := {
  data : Z;
  buf_size : Z;
  capacity : Z;
  range : SeqRange
}.

(** [bolson::parse::ParsedBatch]. *)
Record ParsedBatch := { batch : Arrow.RecordBatch; seq_range : SeqRange }.

(** [dau_t]: a 64-bit device address and its two 32-bit halves. *)
Definition dau_lo (full : Z) : Z := wrap32 full.
Definition dau_hi (full : Z) : Z := wrap32 (Z.shiftr full 32).
Definition dau_full (lo hi : Z) : Z := Z.lor (wrap32 lo) (Z.shiftl (wrap32 hi) 32).

(** Conversion of a [uint64_t] to [int32_t] and to [int64_t]. *)
Definition to_int32 (z : Z) : Z := (z + 2 ^ 31) mod 2 ^ 32 - 2 ^ 31.
Definition to_int64 (z : Z) : Z := (z + 2 ^ 63) mod 2 ^ 64 - 2 ^ 63.

(** [BOLSON_ROE(s)]: return [s] from the enclosing function when it is
    not OK. The enclosing function returns [option (Status + A)]: [None]
    when it does not return, [inl] a failure, [inr] the value it hands
    out together with [Status::OK()]. *)
Definition roe {A} (s : Status) (k : option (Status + A)) : option (Status + A) :=
  if negb (ok s) then Some (inl s) else k.

Notation "'BOLSON_ROE' s ;; k" := (roe s k)
  (at level 100, s at next level, k at level 200, right associativity).

(** ** bolson/parse/fpga/battery.cpp *)

Module Fpga.
Import Arrow.

Record BatteryOptions := {
  num_parsers : Z;
  seq_column : bool;
  out_offset_buffer_capacity : Z;
  out_values_buffer_capacity : Z
}.

(** The members of [BatteryParser] that the code at hand reads. *)
Record BatteryParser := {
  idx_ : Z;
  p_num_parsers : Z;
  raw_out_offsets : Z;
  raw_out_values : Z;
  p_seq_column : bool
}.

(** The FPGA behind [fletcher::Platform] and the host memory it writes
    to. [ReadMMIO] depends on how often the status register has been
    polled before. *)
Record Platform := {
  WriteMMIO : Z -> Z -> Status;
  ReadMMIO : nat -> Z -> Z;
  host_int32 : Z -> Z -> Z;
  host_uint64 : Z -> Z -> Z
}.

(** [arrow::UInt64Builder]: whether [Reserve] and [Finish] work out. *)
Record Builder := {
  Reserve : Z -> Status;
  Finish : Status
}.

(** The Fletcher run-time, the buffer allocation of the base class
    [ParserContext] and the helpers of bolson/parse/parser.h and
    bolson/utils.h. *)
Record Runtime := {
  Platform_Make : Status;
  Platform_Init : Status;
  AllocateBuffers : Z -> Z -> Status * list JSONBuffer;
  DivideCeil : Z -> Z -> Z;
  Context_Make : Status;
  Allocate : nat -> Z -> Status * Z;
  QueueRecordBatch : RecordBatch -> Status;
  Context_Enable : Status;
  WithSeqField : Schema -> Status * Schema
}.

Record BatteryParserContext := {
  num_parsers_ : Z;
  ctx_seq_column : bool;
  buffers_ : list JSONBuffer;
  batches_in : list RecordBatch;
  batches_out : list RecordBatch;
  raw_out_offsets_ : list Z;
  raw_out_values_ : list Z;
  parsers_ : list BatteryParser;
  input_schema_ : Schema;
  output_schema_ : Schema
}.

Section Battery.
(** Register layout and control bits of bolson/parse/fpga/battery.h. *)
Variables default_regs range_regs_per_inst : Z.
Variables in_addr_regs_per_inst out_addr_regs_per_inst : Z.
Variables ctrl_reset ctrl_start stat_done : Z.
(** [fletcher::WithMetaRequired] and the input schema of
    bolson/parse/fpga/common.h. *)
Variable WithMetaRequired : Schema -> string -> FletcherMode -> Schema.
Variable raw_json_input_schema : Schema.

Definition voltage_type : DataType := list_ "item" uint64 false.

(** [BatteryParser::output_schema]. *)
Definition output_schema : Schema :=
  WithMetaRequired
    {| fields := [{| field_name := "voltage"; field_type := voltage_type;
                     nullable := false |}];
       metadata := [] |}
    "output" WRITE.

(** [FLETCHER_ROE] turns a Fletcher status into a Bolson one. *)
Definition of_fletcher (s : Status) : Status :=
  match s with
  | OK => OK
  | Err _ m => Err FletcherError ("Fletcher: " ++ m)%string
  end.

(** [ARROW_ROE] turns an Arrow status into a Bolson one. *)
Definition of_arrow (s : Status) : Status :=
  match s with
  | OK => OK
  | Err _ m => Err ArrowError m
  end.

Definition base_offset (idx : Z) : Z :=
  Z.land (wrap64 (idx * 4096)) 1048575 / 4.

Definition custom_regs_offset (idx : Z) : Z :=
  base_offset idx + default_regs + range_regs_per_inst + in_addr_regs_per_inst
  + out_addr_regs_per_inst.

Definition ctrl_offset (idx : Z) : Z := custom_regs_offset idx.
Definition status_offset (idx : Z) : Z := custom_regs_offset idx + 1.
Definition result_rows_offset_lo (idx : Z) : Z := custom_regs_offset idx + 2.
Definition result_rows_offset_hi (idx : Z) : Z := custom_regs_offset idx + 3.
Definition input_firstidx_offset (idx : Z) : Z := base_offset idx + default_regs.
Definition input_lastidx_offset (idx : Z) : Z := input_firstidx_offset idx + 1.
Definition input_values_lo_offset (idx : Z) : Z :=
  base_offset idx + default_regs + range_regs_per_inst.
Definition input_values_hi_offset (idx : Z) : Z := input_values_lo_offset idx + 1.
Definition output_voltage_offsets_lo_offset (idx : Z) : Z :=
  base_offset idx + default_regs + range_regs_per_inst + in_addr_regs_per_inst.
Definition output_voltage_offsets_hi_offset (idx : Z) : Z :=
  output_voltage_offsets_lo_offset idx + 1.
Definition output_voltage_values_lo_offset (idx : Z) : Z :=
  output_voltage_offsets_lo_offset idx + 2.
Definition output_voltage_values_hi_offset (idx : Z) : Z :=
  output_voltage_offsets_lo_offset idx + 3.

(** [BatteryParser::Init]. *)
Definition Init (p : Platform) (self : BatteryParser) : Status :=
  if idx_ self >=? 256
  then Err FletcherError "Hardware does not allow more than 256 parser instances."
  else
    let voltage_offsets := raw_out_offsets self in
    let voltage_values := raw_out_values self in
    let s := WriteMMIO p (output_voltage_offsets_lo_offset (idx_ self))
               (dau_lo voltage_offsets) in
    if negb (ok s) then s else
    let s := WriteMMIO p (output_voltage_offsets_hi_offset (idx_ self))
               (dau_hi voltage_offsets) in
    if negb (ok s) then s else
    let s := WriteMMIO p (output_voltage_values_lo_offset (idx_ self))
               (dau_lo voltage_values) in
    if negb (ok s) then s else
    let s := WriteMMIO p (output_voltage_values_hi_offset (idx_ self))
               (dau_hi voltage_values) in
    if negb (ok s) then s else
    OK.

(** [WrapOutput]: [None] when [ValueOrDie] ends the process. *)
Definition WrapOutput (p : Platform) (num_rows : Z) (offsets values : Z)
    (schema : Schema) : option RecordBatch :=
  let num_offsets := num_rows + 1 in
  let num_values := host_int32 p offsets num_rows in
  let value_array := map (host_uint64 p values) (zrange num_values) in
  let offsets_array := map (host_int32 p offsets) (zrange num_offsets) in
  match FromArrays offsets_array value_array with
  | RErr _ => None
  | ROk list_array =>
      Some {| schema := schema; num_rows := num_rows; columns := [list_array] |}
  end.

(** [for (uint64_t s = first; s <= last; s++) builder.UnsafeAppend(s)]:
    the values appended, [None] while the loop is still running. *)
Fixpoint append_seq (fuel : nat) (s last_ : Z) (values : list Z) : option (list Z) :=
  match fuel with
  | O => None
  | S fuel' =>
      if s <=? last_
      then append_seq fuel' (wrap64 (s + 1)) last_ (values ++ [s])
      else Some values
  end.

(** The sequence number column prepared while the FPGA is busy: the null
    pointer ([None]) unless [seq_column] is set. *)
Definition prepare_seq (fuel : nat) (bld : Builder) (self : BatteryParser)
    (in_ : JSONBuffer) : option (Status + option Array) :=
  if p_seq_column self
  then
    BOLSON_ROE of_arrow
      (Reserve bld (to_int64 (wrap64 (last (range in_) - first (range in_) + 1)))) ;;
    match append_seq fuel (first (range in_)) (last (range in_)) [] with
    | None => None
    | Some values =>
        BOLSON_ROE of_arrow (Finish bld) ;;
        Some (inr (Some (UInt64Array values)))
    end
  else Some (inr None).

(** The [do ... while (!done)] loop: the number of times the status
    register was read, [None] while the loop is still running. *)
Fixpoint poll_until_done (fuel : nat) (p : Platform) (idx : Z) (reads : nat)
    : option nat :=
  match fuel with
  | O => None
  | S fuel' =>
      let status := ReadMMIO p reads (status_offset idx) in
      let done := Z.land status stat_done =? stat_done in
      if negb done then poll_until_done fuel' p idx (S reads) else Some (S reads)
  end.

(** [BatteryParser::ParseOne]. *)
Definition ParseOne (fuel : nat) (p : Platform) (bld : Builder)
    (self : BatteryParser) (in_ : JSONBuffer) : option (Status + ParsedBatch) :=
  let idx := idx_ self in
  BOLSON_ROE WriteMMIO p (ctrl_offset idx) ctrl_reset ;;
  BOLSON_ROE WriteMMIO p (ctrl_offset idx) 0 ;;
  BOLSON_ROE WriteMMIO p (input_lastidx_offset idx) (wrap32 (buf_size in_)) ;;
  let input_addr := data in_ in
  BOLSON_ROE WriteMMIO p (input_values_lo_offset idx) (dau_lo input_addr) ;;
  BOLSON_ROE WriteMMIO p (input_values_hi_offset idx) (dau_hi input_addr) ;;
  BOLSON_ROE WriteMMIO p (ctrl_offset idx) ctrl_start ;;
  BOLSON_ROE WriteMMIO p (ctrl_offset idx) 0 ;;
  match prepare_seq fuel bld self in_ with
  | None => None
  | Some (inl e) => Some (inl e)
  | Some (inr seq) =>
      match poll_until_done fuel p idx 0 with
      | None => None
      | Some reads =>
          let num_rows :=
            dau_full (ReadMMIO p reads (result_rows_offset_lo idx))
                     (ReadMMIO p reads (result_rows_offset_hi idx)) in
          match WrapOutput p (to_int32 num_rows) (raw_out_offsets self)
                  (raw_out_values self) output_schema with
          | None => None
          | Some out_batch =>
              if p_seq_column self
              then
                match seq with
                | None => None
                | Some seq =>
                    match AddColumn out_batch 0 "bolson_seq" seq with
                    | RErr m => Some (inl (Err ArrowError m))
                    | ROk final_batch =>
                        Some (inr {| batch := final_batch; seq_range := range in_ |})
                    end
                end
              else
                Some (inr {| batch := AddSeqAsSchemaMeta out_batch (range in_);
                             seq_range := range in_ |})
          end
      end
  end.

(** [BatteryParser::Parse]. *)
Fixpoint Parse (fuel : nat) (p : Platform) (bld : Builder) (self : BatteryParser)
    (in_ : list JSONBuffer) (out : list ParsedBatch)
    : option (Status * list ParsedBatch) :=
  match in_ with
  | [] => Some (OK, out)
  | buf :: rest =>
      match ParseOne fuel p bld self buf with
      | None => None
      | Some (inl e) => Some (e, out)
      | Some (inr b) => Parse fuel p bld self rest (out ++ [b])
      end
  end.
(** [BatteryParserContext::PrepareInputBatches]. *)
Definition PrepareInputBatches (buffers : list JSONBuffer) : Status * list RecordBatch :=
  (OK,
   map (fun buf =>
          {| schema := raw_json_input_schema; num_rows := capacity buf;
             columns := [PrimitiveArray uint8 (capacity buf) (data buf) (capacity buf)] |})
       buffers).

(** What [PrepareOutputBatches] appends to: [raw_out_offsets],
    [raw_out_values] and [batches_out]. *)
Definition Outputs : Type := list Z * list Z * list RecordBatch.

(** The loop of [PrepareOutputBatches] over the parser indices [is_];
    [calls] counts the allocations made so far. *)
Fixpoint PrepareOutputBatches_loop (rt : Runtime) (offsets_cap values_cap : Z)
    (is_ : list nat) (calls : nat) (acc : Outputs) : Status * Outputs :=
  match is_ with
  | [] => (OK, acc)
  | _ :: rest =>
      let '(s, offsets) := Allocate rt calls offsets_cap in
      if negb (ok s) then (s, acc) else
      let '(s, values) := Allocate rt (S calls) values_cap in
      if negb (ok s) then (s, acc) else
      let values_array := PrimitiveArray uint64 0 values values_cap in
      let list_array := WrappedListArray voltage_type 0 offsets offsets_cap values_array in
      let '(raw_offsets, raw_values, batches) := acc in
      PrepareOutputBatches_loop rt offsets_cap values_cap rest (S (S calls))
        (raw_offsets ++ [offsets], raw_values ++ [values],
         batches ++ [{| schema := output_schema; num_rows := 0;
                        columns := [list_array] |}])
  end.

Definition PrepareOutputBatches (rt : Runtime) (num_parsers_ : Z)
    (offsets_cap values_cap : Z) : Status * Outputs :=
  PrepareOutputBatches_loop rt offsets_cap values_cap
    (seq 0 (Z.to_nat num_parsers_)) 0%nat ([], [], []).

(** The loop of [PrepareParsers]: a parser per index, each initialised
    with the status of [Init] dropped. *)
Fixpoint PrepareParsers_loop (p : Platform) (num_parsers_ : Z) (seq_col : bool)
    (raw_offsets raw_values : list Z) (is_ : list nat) (parsers : list BatteryParser)
    : Status * list BatteryParser :=
  match is_ with
  | [] => (OK, parsers)
  | i :: rest =>
      let parser :=
        {| idx_ := Z.of_nat i; p_num_parsers := num_parsers_;
           raw_out_offsets := nth i raw_offsets 0;
           raw_out_values := nth i raw_values 0;
           p_seq_column := seq_col |} in
      let _ := Init p parser in
      PrepareParsers_loop p num_parsers_ seq_col raw_offsets raw_values rest
        (parsers ++ [parser])
  end.

Definition PrepareParsers (p : Platform) (num_parsers_ : Z) (seq_col : bool)
    (raw_offsets raw_values : list Z) : Status * list BatteryParser :=
  PrepareParsers_loop p num_parsers_ seq_col raw_offsets raw_values
    (seq 0 (Z.to_nat num_parsers_)) [].

(** The two loops of [Make] that queue the record batches. *)
Fixpoint QueueRecordBatches (rt : Runtime) (batches : list RecordBatch) : Status :=
  match batches with
  | [] => OK
  | b :: rest =>
      let s := of_fletcher (QueueRecordBatch rt b) in
      if negb (ok s) then s else QueueRecordBatches rt rest
  end.

(** [BatteryParserContext::Make(opts, input_size, out)]: the status, the
    value of [*out] afterwards and the parsers constructed on the way. *)
Definition Make (rt : Runtime) (p : Platform) (opts : BatteryOptions) (input_size : Z)
    (out : option BatteryParserContext)
    : Status * option BatteryParserContext * list BatteryParser :=
  if num_parsers opts >? 256
  then (Err FletcherError "Hardware does not allow more than 256 parser instances.",
        out, [])
  else
    let n := num_parsers opts in
    let s := of_fletcher (Platform_Make rt) in
    if negb (ok s) then (s, out, []) else
    let s := of_fletcher (Platform_Init rt) in
    if negb (ok s) then (s, out, []) else
    let '(s, buffers) := AllocateBuffers rt n (DivideCeil rt input_size n) in
    if negb (ok s) then (s, out, []) else
    let s := of_fletcher (Context_Make rt) in
    if negb (ok s) then (s, out, []) else
    let '(s, b_in) := PrepareInputBatches buffers in
    if negb (ok s) then (s, out, []) else
    let '(s, outputs) :=
      PrepareOutputBatches rt n (out_offset_buffer_capacity opts)
        (out_values_buffer_capacity opts) in
    if negb (ok s) then (s, out, []) else
    let '(raw_offsets, raw_values, b_out) := outputs in
    let s := QueueRecordBatches rt b_in in
    if negb (ok s) then (s, out, []) else
    let s := QueueRecordBatches rt b_out in
    if negb (ok s) then (s, out, []) else
    let s := of_fletcher (Context_Enable rt) in
    if negb (ok s) then (s, out, []) else
    let '(s, parsers) := PrepareParsers p n (seq_column opts) raw_offsets raw_values in
    if negb (ok s) then (s, out, parsers) else
    let result out_schema :=
      {| num_parsers_ := n; ctx_seq_column := seq_column opts; buffers_ := buffers;
         batches_in := b_in; batches_out := b_out;
         raw_out_offsets_ := raw_offsets; raw_out_values_ := raw_values;
         parsers_ := parsers; input_schema_ := output_schema;
         output_schema_ := out_schema |} in
    if seq_column opts
    then
      let '(s, with_seq) := WithSeqField rt output_schema in
      if negb (ok s) then (s, out, parsers) else
      (OK, Some (result with_seq), parsers)
    else (OK, Some (result output_schema), parsers).

(** [BatteryParserContext::CheckThreadCount] and [CheckBufferCount]. *)
Definition CheckThreadCount (c : BatteryParserContext) (num_threads : Z) : Z :=
  Z.of_nat (length (parsers_ c)).

Definition CheckBufferCount (c : BatteryParserContext) (num_buffers : Z) : Z :=
  Z.of_nat (length (parsers_ c)).
End Battery.
End Fpga.

(** ** bolson/parse/opae/battery.cpp *)

Module Opae.

Record BatteryOptions := { afu_id : string; num_parsers : Z }.

(** The members of the OPAE [BatteryParser] set by its constructor. *)
Record BatteryParser := {
  idx_ : Z;
  p_num_parsers : Z;
  raw_out_offsets : Z;
  raw_out_values : Z
}.

Record BatteryParserContext := {
  opts_ : BatteryOptions;
  num_parsers_ : Z;
  parsers_ : list BatteryParser
}.

(** [fletcher::Platform::Make("opae", ...)] and [platform->Init()]. *)
Record Runtime := {
  Platform_Make : Status;
  Platform_Init : Status
}.

(** [FLETCHER_ROE]. *)
Definition of_fletcher (s : Status) : Status :=
  match s with
  | OK => OK
  | Err _ m => Err OpaeError ("Fletcher: " ++ m)%string
  end.

(** [ss << std::setw(2) << std::setfill('0') << std::hex << n]. *)
Definition hex_width2 (n : Z) : string :=
  let digits := HexadecimalString.NilZero.string_of_uint (N.to_hex_uint (Z.to_N n)) in
  if (String.length digits <? 2)%nat then ("0" ++ digits)%string else digits.

(** A default-constructed context. *)
Definition BatteryParserContext_default : BatteryParserContext :=
  {| opts_ := {| afu_id := ""; num_parsers := 0 |}; num_parsers_ := 0; parsers_ := [] |}.

(** [BatteryParserContext::Make(opts, out)]: the status, the value of
    [*out] afterwards and the parsers constructed on the way. *)
Definition Make (rt : Runtime) (opts : BatteryOptions)
    (out : option BatteryParserContext)
    : Status * option BatteryParserContext * list BatteryParser :=
  let derived :=
    if String.eqb (afu_id opts) ""
    then
      if num_parsers opts >? 255
      then inl (Err OpaeError
             "Auto-deriving AFU ID for number of parsers larger than 255 is not supported.")
      else inr ("9ca43fb0-c340-4908-b79b-5c89b4ef5e" ++ hex_width2 (num_parsers opts))%string
    else inr (afu_id opts) in
  match derived with
  | inl e => (e, out, [])
  | inr afu_id_str =>
      let result :=
        {| opts_ := opts; num_parsers_ := num_parsers opts;
           parsers_ := parsers_ BatteryParserContext_default |} in
      let s := of_fletcher (Platform_Make rt) in
      if negb (ok s) then (s, out, []) else
      let result :=
        {| opts_ := {| afu_id := afu_id_str; num_parsers := num_parsers (opts_ result) |};
           num_parsers_ := num_parsers_ result; parsers_ := parsers_ result |} in
      let s := of_fletcher (Platform_Init rt) in
      if negb (ok s) then (s, out, []) else
      (OK, Some result, [])
  end.

(** [BatteryParserContext::PrepareParsers], which [Init] calls. *)
Definition PrepareParsers (c : BatteryParserContext) (raw_offsets raw_values : list Z)
    : Status * BatteryParserContext :=
  (OK,
   {| opts_ := opts_ c; num_parsers_ := num_parsers_ c;
      parsers_ :=
        parsers_ c ++
        map (fun i => {| idx_ := Z.of_nat i; p_num_parsers := num_parsers_ c;
                         raw_out_offsets := nth i raw_offsets 0;
                         raw_out_values := nth i raw_values 0 |})
            (seq 0 (Z.to_nat (num_parsers_ c))) |}).
End Opae.


(** ** bolson/convert/serializer.cpp: the mock serializer *)

Module SerializerMock.
Import Serializer.

Section Mock.
Variable RecordBatch : Type.
(** [arrow::BufferBuilder::Finish] on the builder [bb], by the number of
    earlier calls. Nothing is ever appended to [bb], so a buffer it
    finishes is empty. *)
Variable Finish : nat -> Status.

(** [ARROW_ROE]. *)
Definition of_arrow (s : Status) : Status :=
  match s with
  | OK => OK
  | Err _ m => Err ArrowError m
  end.

(** The loop of [SerializerMock::Serialize]: every message is pushed to
    [*out] directly; [calls] counts the calls of [Finish] so far. *)
Fixpoint Serialize_loop (in_ : list (ResizedBatch RecordBatch)) (calls : nat)
    (out : list SerializedBatch) : Status * list SerializedBatch :=
  match in_ with
  | [] => (OK, out)
  | b :: rest =>
      let s := of_arrow (Finish calls) in
      if negb (ok s) then (s, out)
      else Serialize_loop rest (S calls)
             (out ++ [{| message := []; sb_seq_range := seq_range b |}])
  end.

(** [SerializerMock::Serialize(in, out)]. *)
Definition Serialize (in_ : list (ResizedBatch RecordBatch))
    (out : list SerializedBatch) : Status * list SerializedBatch :=
  Serialize_loop in_ 0 out.
End Mock.

Arguments Serialize_loop {RecordBatch} _ _ _ _.
Arguments Serialize {RecordBatch} _ _ _.
End SerializerMock.

(** ** tweetgen/stream.cpp *)

Module Tweetgen.

Record StreamProtocol := { port : Z; eos_marker : string }.

(** What the server does with its socket. *)
Inductive Event :=
| Bind (endpoint : string)
| Send (message : string).

Section Server.
Variable GenerateOptions : Type.

Record StreamOptions := {
  protocol : StreamProtocol;
  num_messages : Z;
  gen : GenerateOptions
}.

(** [GenerateTweets(opts.gen)] written out by the RapidJSON writer: the
    text of the message, by the number of messages generated before. *)
Variable GenerateTweets : GenerateOptions -> nat -> string.

(** The loop [for (size_t m = 0; m < opts.num_messages; m++)] from [m] on,
    with [remaining] rounds to go. *)
Fixpoint StreamServer_loop (opts : StreamOptions) (remaining m : nat)
    (tr : list Event) : list Event :=
  match remaining with
  | O => tr
  | S remaining' =>
      StreamServer_loop opts remaining' (S m)
        (tr ++ [Send (GenerateTweets (gen opts) m)])
  end.

(** [StreamServer]: the value returned and what went through the socket. *)
Definition StreamServer (opts : StreamOptions) : Z * list Event :=
  let endpoint := ("tcp://*:" ++ to_string (port (protocol opts)))%string in
  let tr := [Bind endpoint] in
  let tr := StreamServer_loop opts (Z.to_nat (num_messages opts)) 0 tr in
  let tr := tr ++ [Send (eos_marker (protocol opts))] in
  (0, tr).
End Server.

Arguments protocol {GenerateOptions} _.
Arguments num_messages {GenerateOptions} _.
Arguments gen {GenerateOptions} _.
Arguments StreamServer_loop {GenerateOptions} _ _ _ _ _.
Arguments StreamServer {GenerateOptions} _ _.
End Tweetgen.

(** ** bolson/cli.cpp *)

Module Cli.

(** What [app.parse(argc, argv)] of CLI11 does: it throws
    [CLI::CallForHelp], throws another [CLI::Error] with a name and a
    text, or returns. *)
Inductive ParseOutcome :=
| CallForHelp
| CLI_Error (name what : string)
| Returned.

Inductive Event :=
| Cout (text : string)
| Cerr (text : string)
| StreamConverterParseInput
| BenchConvertParseInput.

Section FromArguments.
(** The enumerations of bolson/cli.h and bolson/bench.h, of which the code
    names these values. *)
Variables SubCommand Bench : Type.
Variables STREAM BENCH : SubCommand.
Variables CLIENT CONVERT PULSAR QUEUE : Bench.
(** The members of [AppOptions] that the options of the command line are
    bound to ([out->stream...], [out->bench.client], [out->bench.convert],
    [out->bench.queue], [out->bench.pulsar]). *)
Variable Bound : Type.

(** What the code asks CLI11 and the options after parsing. [parse] may
    assign the bound members, also before it throws; the two calls of
    [ParseInput] work on the converter options among them. Which
    sub-commands were parsed is asked after [parse] has returned. *)
Record CLI := {
  parse : list string -> Bound -> ParseOutcome * Bound;
  help : string;
  stream_parsed : bool;
  bench_parsed : bool;
  bench_client_parsed : bool;
  bench_convert_parsed : bool;
  bench_pulsar_parsed : bool;
  bench_queue_parsed : bool;
  stream_converter_ParseInput : Bound -> Status * Bound;
  bench_convert_ParseInput : Bound -> Status * Bound
}.

(** [AppOptions]: [sub] and [bench.bench], which [FromArguments] itself
    assigns, and the members bound to options. *)
Record AppOptions := { sub : SubCommand; bench : Bench; bound : Bound }.

Definition endl : string := String "010"%char EmptyString.

(** [AppOptions::FromArguments(argc, argv, out)]: the status, [*out]
    afterwards and what was printed and called. *)
Definition FromArguments (cli : CLI) (argv : list string) (out : AppOptions)
    : Status * AppOptions * list Event :=
  let '(outcome, b) := parse cli argv (bound out) in
  let out := {| sub := sub out; bench := bench out; bound := b |} in
  match outcome with
  | CallForHelp => (OK, out, [Cout (help cli ++ endl)%string])
  | CLI_Error name what =>
      (Err CLIError ("CLI Error: " ++ name ++ ":" ++ what)%string, out,
       [Cerr (help cli ++ endl)%string])
  | Returned =>
      if stream_parsed cli
      then
        let out := {| sub := STREAM; bench := bench out; bound := bound out |} in
        let '(_, b) := stream_converter_ParseInput cli (bound out) in
        (OK, {| sub := sub out; bench := bench out; bound := b |},
         [StreamConverterParseInput])
      else if bench_parsed cli
      then
        let out := {| sub := BENCH; bench := bench out; bound := bound out |} in
        if bench_client_parsed cli
        then (OK, {| sub := sub out; bench := CLIENT; bound := bound out |}, [])
        else if bench_convert_parsed cli
        then
          let out := {| sub := sub out; bench := CONVERT; bound := bound out |} in
          let '(s, b) := bench_convert_ParseInput cli (bound out) in
          let out := {| sub := sub out; bench := bench out; bound := b |} in
          if negb (ok s) then (s, out, [BenchConvertParseInput])
          else (OK, out, [BenchConvertParseInput])
        else if bench_pulsar_parsed cli
        then (OK, {| sub := sub out; bench := PULSAR; bound := bound out |}, [])
        else if bench_queue_parsed cli
        then (OK, {| sub := sub out; bench := QUEUE; bound := bound out |}, [])
        else (OK, out, [])
      else (OK, out, [])
  end.
End FromArguments.

Arguments parse {Bound} _ _ _.
Arguments help {Bound} _.
Arguments stream_parsed {Bound} _.
Arguments bench_parsed {Bound} _.
Arguments bench_client_parsed {Bound} _.
Arguments bench_convert_parsed {Bound} _.
Arguments bench_pulsar_parsed {Bound} _.
Arguments bench_queue_parsed {Bound} _.
Arguments stream_converter_ParseInput {Bound} _ _.
Arguments bench_convert_ParseInput {Bound} _ _.
Arguments sub {SubCommand Bench Bound} _.
Arguments bench {SubCommand Bench Bound} _.
Arguments bound {SubCommand Bench Bound} _.
Arguments FromArguments {SubCommand Bench} _ _ _ _ _ _ {Bound} _ _ _.
End Cli.

(** ** bolson/parse/opae/opae.cpp *)

Module OpaeAddr.

(** [fletcher::Context::device_buffer(i)]: the host address and the device
    address of a buffer. *)
Record DeviceBuffer := { host_address : Z; device_address : Z }.

(** The loop [for (i = 0; i < context->num_buffers(); i++) result[ha] = da]
    on the map [result]. *)
Fixpoint ExtractAddrMap_loop (buffers : list DeviceBuffer) (result : gmap Z Z)
    : gmap Z Z :=
  match buffers with
  | [] => result
  | b :: rest =>
      ExtractAddrMap_loop rest (<[host_address b := device_address b]> result)
  end.

(** [ExtractAddrMap(context)], the context being its device buffers. *)
Definition ExtractAddrMap (context : list DeviceBuffer) : gmap Z Z :=
  ExtractAddrMap_loop context ∅.

End OpaeAddr.

(** ** bolson/parse/opae/battery.cpp: setting up the context *)

Module OpaeBattery.
Import Arrow.

(** The members of the OPAE [BatteryParserContext] that [Init] works on,
    the allocator among them. *)
Record BatteryParserContext := {
  opts_ : Opae.BatteryOptions;
  num_parsers_ : Z;
  parsers_ : list Opae.BatteryParser;
  batches_in : list RecordBatch;
  batches_out : list RecordBatch;
  raw_out_offsets : list Z;
  raw_out_values : list Z;
  h2d_addr_map : gmap Z Z;
  allocator : OpaeAllocator.State
}.

(** The context that [Make] hands out, as [std::make_shared] and [Make]
    leave it: the other members are empty. *)
Definition of_Make (c : Opae.BatteryParserContext) (alloc : OpaeAllocator.State)
    : BatteryParserContext :=
  {| opts_ := Opae.opts_ c; num_parsers_ := Opae.num_parsers_ c;
     parsers_ := Opae.parsers_ c;
     batches_in := []; batches_out := []; raw_out_offsets := []; raw_out_values := [];
     h2d_addr_map := ∅; allocator := alloc |}.

(** The Fletcher context and kernel, and the operating system as the
    allocator meets it at each of its allocations. *)
Record Runtime := {
  Context_Make : Status;
  QueueRecordBatch : RecordBatch -> Status;
  Context_Enable : Status;
  WriteMetaData : Status;
  device_buffers : list OpaeAddr.DeviceBuffer;
  os : nat -> OpaeAllocator.OS
}.

Definition set_batches_in (v : list RecordBatch) (c : BatteryParserContext)
    : BatteryParserContext :=
  {| opts_ := opts_ c; num_parsers_ := num_parsers_ c; parsers_ := parsers_ c;
     batches_in := v; batches_out := batches_out c;
     raw_out_offsets := raw_out_offsets c; raw_out_values := raw_out_values c;
     h2d_addr_map := h2d_addr_map c; allocator := allocator c |}.

Definition set_allocator (v : OpaeAllocator.State) (c : BatteryParserContext)
    : BatteryParserContext :=
  {| opts_ := opts_ c; num_parsers_ := num_parsers_ c; parsers_ := parsers_ c;
     batches_in := batches_in c; batches_out := batches_out c;
     raw_out_offsets := raw_out_offsets c; raw_out_values := raw_out_values c;
     h2d_addr_map := h2d_addr_map c; allocator := v |}.

(** The three [push_back]s at the end of a round of
    [PrepareOutputBatches]. *)
Definition push_output (offsets values : Z) (b : RecordBatch) (c : BatteryParserContext)
    : BatteryParserContext :=
  {| opts_ := opts_ c; num_parsers_ := num_parsers_ c; parsers_ := parsers_ c;
     batches_in := batches_in c; batches_out := batches_out c ++ [b];
     raw_out_offsets := raw_out_offsets c ++ [offsets];
     raw_out_values := raw_out_values c ++ [values];
     h2d_addr_map := h2d_addr_map c; allocator := allocator c |}.

Definition set_h2d_addr_map (v : gmap Z Z) (c : BatteryParserContext)
    : BatteryParserContext :=
  {| opts_ := opts_ c; num_parsers_ := num_parsers_ c; parsers_ := parsers_ c;
     batches_in := batches_in c; batches_out := batches_out c;
     raw_out_offsets := raw_out_offsets c; raw_out_values := raw_out_values c;
     h2d_addr_map := v; allocator := allocator c |}.

Definition set_parsers (v : list Opae.BatteryParser) (c : BatteryParserContext)
    : BatteryParserContext :=
  {| opts_ := opts_ c; num_parsers_ := num_parsers_ c; parsers_ := v;
     batches_in := batches_in c; batches_out := batches_out c;
     raw_out_offsets := raw_out_offsets c; raw_out_values := raw_out_values c;
     h2d_addr_map := h2d_addr_map c; allocator := allocator c |}.

(** A null pointer counts as address 0. *)
Definition address (ptr : option Z) : Z :=
  match ptr with
  | Some a => a
  | None => 0
  end.

Section Context.
(** [fletcher::WithMetaRequired]. *)
Variable WithMetaRequired : Schema -> string -> FletcherMode -> Schema.

(** [opae::input_schema]. *)
Definition input_schema : Schema :=
  WithMetaRequired
    {| fields := [{| field_name := "input"; field_type := uint8; nullable := false |}];
       metadata := [] |}
    "input" READ.

(** [BatteryParser::output_type] and [BatteryParser::output_schema]. *)
Definition output_type : DataType := list_ "item" uint64 false.

Definition output_schema : Schema :=
  WithMetaRequired
    {| fields := [{| field_name := "voltage"; field_type := output_type;
                     nullable := false |}];
       metadata := [] |}
    "output" WRITE.

(** [BatteryParserContext::schema]. *)
Definition schema_ (c : BatteryParserContext) : Schema := output_schema.

(** [BatteryParserContext::PrepareInputBatches]. *)
Definition PrepareInputBatches (c : BatteryParserContext) (buffers : list JSONBuffer)
    : Status * BatteryParserContext :=
  (OK,
   set_batches_in
     (batches_in c ++
      map (fun buf =>
             {| schema := input_schema; num_rows := capacity buf;
                columns := [PrimitiveArray uint8 (capacity buf) (data buf) (capacity buf)] |})
          buffers)
     c).

(** The loop of [PrepareOutputBatches] over the parser indices [is_];
    [calls] counts the allocations made before. Both output buffers of a
    parser come from the allocator, asked for its fixed capacity. *)
Fixpoint PrepareOutputBatches_loop (rt : Runtime) (is_ : list nat) (calls : nat)
    (c : BatteryParserContext) : Status * BatteryParserContext :=
  match is_ with
  | [] => (OK, c)
  | _ :: rest =>
      let '(s, offsets, st) :=
        OpaeAllocator.Allocate (os rt calls) OpaeAllocator.fixed_capacity_ None
          (allocator c) in
      let c := set_allocator st c in
      if negb (ok s) then (s, c) else
      let '(s, values, st) :=
        OpaeAllocator.Allocate (os rt (S calls)) OpaeAllocator.fixed_capacity_ None
          (allocator c) in
      let c := set_allocator st c in
      if negb (ok s) then (s, c) else
      let values_array :=
        PrimitiveArray uint64 0 (address values) OpaeAllocator.fixed_capacity_ in
      let list_array :=
        WrappedListArray output_type 0 (address offsets) OpaeAllocator.fixed_capacity_
          values_array in
      PrepareOutputBatches_loop rt rest (S (S calls))
        (push_output (address offsets) (address values)
           {| schema := output_schema; num_rows := 0; columns := [list_array] |} c)
  end.

(** [BatteryParserContext::PrepareOutputBatches]. *)
Definition PrepareOutputBatches (rt : Runtime) (c : BatteryParserContext)
    : Status * BatteryParserContext :=
  PrepareOutputBatches_loop rt (seq 0 (Z.to_nat (num_parsers_ c))) 0 c.

(** [BatteryParserContext::PrepareParsers]. *)
Definition PrepareParsers (c : BatteryParserContext) : Status * BatteryParserContext :=
  (OK,
   set_parsers
     (parsers_ c ++
      map (fun i => {| Opae.idx_ := Z.of_nat i; Opae.p_num_parsers := num_parsers_ c;
                       Opae.raw_out_offsets := nth i (raw_out_offsets c) 0;
                       Opae.raw_out_values := nth i (raw_out_values c) 0 |})
          (seq 0 (Z.to_nat (num_parsers_ c))))
     c).

(** The two loops of [Init] that queue the record batches. *)
Fixpoint QueueRecordBatches (rt : Runtime) (batches : list RecordBatch) : Status :=
  match batches with
  | [] => OK
  | b :: rest =>
      let s := Opae.of_fletcher (QueueRecordBatch rt b) in
      if negb (ok s) then s else QueueRecordBatches rt rest
  end.

(** [BatteryParserContext::Init(buffers)]: the status and the context
    afterwards. *)
Definition Init (rt : Runtime) (c : BatteryParserContext) (buffers : list JSONBuffer)
    : Status * BatteryParserContext :=
  if negb (length (parsers_ c) =? length buffers)%nat
  then (Err OpaeError
          "BatteryParser implementation requires number of buffers and parsers to be equal.",
        c)
  else
    let s := Opae.of_fletcher (Context_Make rt) in
    if negb (ok s) then (s, c) else
    let '(s, c) := PrepareInputBatches c buffers in
    if negb (ok s) then (s, c) else
    let '(s, c) := PrepareOutputBatches rt c in
    if negb (ok s) then (s, c) else
    let s := QueueRecordBatches rt (batches_in c) in
    if negb (ok s) then (s, c) else
    let s := QueueRecordBatches rt (batches_out c) in
    if negb (ok s) then (s, c) else
    let s := Opae.of_fletcher (Context_Enable rt) in
    if negb (ok s) then (s, c) else
    let s := Opae.of_fletcher (WriteMetaData rt) in
    if negb (ok s) then (s, c) else
    let c :=
      set_h2d_addr_map
        (OpaeAddr.ExtractAddrMap_loop (device_buffers rt) (h2d_addr_map c)) c in
    let '(s, c) := PrepareParsers c in
    if negb (ok s) then (s, c) else
    (OK, c).

(** [BatteryParserContext::CheckThreadCount] and [CheckBufferCount]. *)
Definition CheckThreadCount (c : BatteryParserContext) (num_threads : Z) : Z :=
  Z.of_nat (length (parsers_ c)).

Definition CheckBufferCount (c : BatteryParserContext) (num_buffers : Z) : Z :=
  Z.of_nat (length (parsers_ c)).
End Context.
End OpaeBattery.

(** ** bolson/parse/opae_battery_impl.cpp: the single-instance parser *)

Module OpaeBatteryParser.
Import Arrow.

Record OpaeBatteryOptions := {
  afu_id : string;
  output_capacity_off : Z;
  output_capacity_val : Z
}.

(** The members of [OpaeBatteryParser] that [Make] sets; a pointer that is
    still null is [None]. *)
Record Parser := {
  opts_ : OpaeBatteryOptions;
  allocator : OpaeAllocator.State;
  out_offsets : option Z;
  out_values : option Z;
  batch_out : option RecordBatch
}.

(** [fletcher::Platform::Make("opae", ...)], [platform->Init()] and the
    operating system at each allocation. *)
Record Runtime := {
  Platform_Make : Status;
  Platform_Init : Status;
  os : nat -> OpaeAllocator.OS
}.

Section Make.
Variable WithMetaRequired : Schema -> string -> FletcherMode -> Schema.

Definition output_type : DataType := list_ "item" uint64 false.

Definition output_schema : Schema :=
  WithMetaRequired
    {| fields := [{| field_name := "voltage"; field_type := output_type;
                     nullable := false |}];
       metadata := [] |}
    "output" WRITE.

(** [OpaeBatteryParser::PrepareOutputBatch]. *)
Definition PrepareOutputBatch (rt : Runtime) (self : Parser)
    (offsets_capacity values_capacity : Z) : Status * Parser :=
  let '(s, offsets, st) :=
    OpaeAllocator.Allocate (os rt 0%nat) offsets_capacity (out_offsets self)
      (allocator self) in
  let self := {| opts_ := opts_ self; allocator := st; out_offsets := offsets;
                 out_values := out_values self; batch_out := batch_out self |} in
  if negb (ok s) then (s, self) else
  let '(s, values, st) :=
    OpaeAllocator.Allocate (os rt 1%nat) values_capacity (out_values self)
      (allocator self) in
  let self := {| opts_ := opts_ self; allocator := st; out_offsets := out_offsets self;
                 out_values := values; batch_out := batch_out self |} in
  if negb (ok s) then (s, self) else
  let values_array :=
    PrimitiveArray uint64 0 (OpaeBattery.address (out_values self)) values_capacity in
  let list_array :=
    WrappedListArray output_type 0 (OpaeBattery.address (out_offsets self))
      offsets_capacity values_array in
  (OK,
   {| opts_ := opts_ self; allocator := allocator self; out_offsets := out_offsets self;
      out_values := out_values self;
      batch_out := Some {| schema := output_schema; num_rows := 0;
                           columns := [list_array] |} |}).

(** [OpaeBatteryParser::Make(opts, out)]; [alloc] is the allocator of the
    new parser. The status of [PrepareOutputBatch] is dropped. *)
Definition Make (rt : Runtime) (alloc : OpaeAllocator.State) (opts : OpaeBatteryOptions)
    (out : option Parser) : Status * option Parser :=
  let result :=
    {| opts_ := opts; allocator := alloc; out_offsets := None; out_values := None;
       batch_out := None |} in
  let '(_, result) :=
    PrepareOutputBatch rt result (output_capacity_off opts) (output_capacity_val opts) in
  let s := Opae.of_fletcher (Platform_Make rt) in
  if negb (ok s) then (s, out) else
  let s := Opae.of_fletcher (Platform_Init rt) in
  if negb (ok s) then (s, out) else
  (OK, Some result).
End Make.
End OpaeBatteryParser.

(** ** bolson/parse/opae/battery.cpp: parsing a buffer *)

Module OpaeParse.
Import Arrow.

(** What [ParseOne] does with the platform mutex. *)
Inductive MutexEvent := Lock | Unlock.

(** How a call of [ParseOne] ends: it returns a status or hands out a
    batch, or [h2d_addr_map->at] throws [std::out_of_range]. *)
Inductive Outcome :=
| Returns (r : Status + ParsedBatch)
| Throws_out_of_range.

Section ParseOne.
(** Register layout and control bits of bolson/parse/opae/battery.h. *)
Variables ctrl_offset input_lastidx_offset : Z -> Z.
Variables input_values_lo_offset input_values_hi_offset : Z -> Z.
Variables status_offset result_rows_offset_lo result_rows_offset_hi : Z -> Z.
Variables ctrl_reset ctrl_start stat_done : Z.
Variable WithMetaRequired : Schema -> string -> FletcherMode -> Schema.

(** [BOLSON_ROE(s)] in a function that has locked and unlocked the mutex
    as in [tr]. *)
Definition roe (s : Status) (tr : list MutexEvent)
    (k : option (Outcome * list MutexEvent)) : option (Outcome * list MutexEvent) :=
  if negb (ok s) then Some (Returns (inl s), tr) else k.

(** The [do ... while (!done)] loop: the status register is read, the
    mutex is unlocked for the time of the sleep and locked again. The
    result is the number of times the status register was read, [None]
    while the loop is still running. *)
Fixpoint poll_until_done (fuel : nat) (p : Fpga.Platform) (idx : Z) (reads : nat)
    (tr : list MutexEvent) : option (nat * list MutexEvent) :=
  match fuel with
  | O => None
  | S fuel' =>
      let status := Fpga.ReadMMIO p reads (status_offset idx) in
      let done := Z.land status stat_done =? stat_done in
      let tr := tr ++ [Unlock; Lock] in
      if negb done then poll_until_done fuel' p idx (S reads) tr else Some (S reads, tr)
  end.

(** [BatteryParser::ParseOne(in, out)]: how it ends and what it did with
    the mutex, [None] when it does not return. *)
Definition ParseOne (fuel : nat) (p : Fpga.Platform) (h2d_addr_map : gmap Z Z)
    (self : Opae.BatteryParser) (in_ : JSONBuffer)
    : option (Outcome * list MutexEvent) :=
  let idx := Opae.idx_ self in
  let tr := [Lock] in
  roe (Fpga.WriteMMIO p (ctrl_offset idx) ctrl_reset) tr (
  roe (Fpga.WriteMMIO p (ctrl_offset idx) 0) tr (
  roe (Fpga.WriteMMIO p (input_lastidx_offset idx) (wrap32 (buf_size in_))) tr (
  match h2d_addr_map !! data in_ with
  | None => Some (Throws_out_of_range, tr)
  | Some input_addr =>
      roe (Fpga.WriteMMIO p (input_values_lo_offset idx) (dau_lo input_addr)) tr (
      roe (Fpga.WriteMMIO p (input_values_hi_offset idx) (dau_hi input_addr)) tr (
      roe (Fpga.WriteMMIO p (ctrl_offset idx) ctrl_start) tr (
      roe (Fpga.WriteMMIO p (ctrl_offset idx) 0) tr (
      match poll_until_done fuel p idx 0 tr with
      | None => None
      | Some (reads, tr) =>
          let num_rows :=
            dau_full (Fpga.ReadMMIO p reads (result_rows_offset_lo idx))
                     (Fpga.ReadMMIO p reads (result_rows_offset_hi idx)) in
          let tr := tr ++ [Unlock] in
          match Fpga.WrapOutput p (to_int32 num_rows) (Opae.raw_out_offsets self)
                  (Opae.raw_out_values self)
                  (OpaeBattery.output_schema WithMetaRequired) with
          | None => None
          | Some out_batch =>
              Some (Returns (inr {| batch := out_batch; seq_range := range in_ |}), tr)
          end
      end))))
  end))).

(** [BatteryParser::Parse(in, out)]: the status returned, or [None] when
    [std::out_of_range] comes out of it; [*out] afterwards; and what was
    done with the mutex, after the events [tr] before the call. *)
Fixpoint Parse (fuel : nat) (p : Fpga.Platform) (h2d_addr_map : gmap Z Z)
    (self : Opae.BatteryParser) (in_ : list JSONBuffer) (out : list ParsedBatch)
    (tr : list MutexEvent) : option (option Status * list ParsedBatch * list MutexEvent) :=
  match in_ with
  | [] => Some (Some OK, out, tr)
  | buf :: rest =>
      match ParseOne fuel p h2d_addr_map self buf with
      | None => None
      | Some (Throws_out_of_range, tr1) => Some (None, out, tr ++ tr1)
      | Some (Returns (inl e), tr1) => Some (Some e, out, tr ++ tr1)
      | Some (Returns (inr b), tr1) =>
          Parse fuel p h2d_addr_map self rest (out ++ [b]) (tr ++ tr1)
      end
  end.
End ParseOne.
End OpaeParse.

(** ** bolson/stream.cpp: the statistics in the log *)

Module StreamLog.
Import Stream.

Section LogStats.
(** [double] and the operations the statistics use. *)
Variable double : Type.
Variable d_zero : double.
Variable d_add d_mul d_div : double -> double -> double.
Variable d_of_size_t : Z -> double.
(** The literal [1E6]. *)
Variable d_1E6 : double.
(** How spdlog formats a [double] for a [{}]. *)
Variable fmt_double : double -> string.
(** [putong::Timer<>::steady()] and [putong::Timer<>::resolution_us()] as
    spdlog formats them. *)
Variables timer_steady timer_resolution_us : string.

(** [LogStats]: the lines given to [spdlog::info], in order. *)
Definition LogStats (latency_seconds : double) (received : Z)
    (conv_stats : list (ConversionStats double)) (pub_stats : PublishStats double)
    : list string :=
  let all_conv_stats := AggrStats d_zero d_add conv_stats in
  [ ("Received " ++ to_string received ++ " JSONs over TCP.")%string;
    "Conversion stats:";
    ("  JSONs converted     : " ++ to_string (num_jsons all_conv_stats))%string;
    ("  IPC msgs generated  : " ++ to_string (num_ipc all_conv_stats))%string;
    ("  Total IPC bytes     : " ++ to_string (total_ipc_bytes all_conv_stats))%string;
    ("  Avg. bytes/msg      : "
     ++ fmt_double (d_div (d_of_size_t (total_ipc_bytes all_conv_stats))
                          (d_of_size_t (num_jsons all_conv_stats))))%string;
    ("  Avg. conv. time     : "
     ++ fmt_double (d_div (d_mul d_1E6 (convert_time all_conv_stats))
                          (d_of_size_t (num_jsons all_conv_stats)))
     ++ " us.")%string;
    ("  Avg. thread time    : "
     ++ fmt_double (d_div (thread_time all_conv_stats)
                          (d_of_size_t (num_jsons all_conv_stats)))
     ++ " s.")%string;
    "Publish stats:";
    ("  IPC messages        : " ++ to_string (num_published pub_stats))%string;
    ("  Avg. publish time   : "
     ++ fmt_double (d_div (d_mul d_1E6 (publish_time pub_stats))
                          (d_of_size_t (num_published pub_stats)))
     ++ " us.")%string;
    ("  Publish thread time : " ++ fmt_double (pub_thread_time pub_stats) ++ " s")%string;
    "Latency stats:";
    ("  First latency       : " ++ fmt_double (d_mul d_1E6 latency_seconds)
     ++ " us")%string;
    ("Timer steady?         : " ++ timer_steady)%string;
    ("Timer resoluion       : " ++ timer_resolution_us ++ " us")%string ].
End LogStats.

Arguments LogStats {double} _ _ _ _ _ _ _ _ _ _ _ _ _.
End StreamLog.
(** * Vocabulary of the properties *)

Module Props.

(** The lines that [main] logs for a status that is not OK. *)
Definition error_lines (name : string) (s : Status) : list Main.Event :=
  if ok s then []
  else [Main.LogError (name ++ " exiting with errors.")%string;
        Main.LogError ("  " ++ msg s)%string].

(** The supervisor's discipline on shutting down: reading the trace of
    [ProduceFromStream] from the left, [drained] says whether the latest
    load of the publish counter was equal to the number of JSONs received.
    Storing the shutdown flag and joining a thread are allowed only then.
    [None]: the trace breaks the discipline. *)
Fixpoint scan_shutdown (received : Z) (drained : bool) (tr : list Stream.Event)
    : option bool :=
  match tr with
  | [] => Some drained
  | Stream.EvLoadPublishCount n :: rest => scan_shutdown received (received =? n) rest
  | Stream.EvStoreShutdown :: rest
  | Stream.EvJoinConverterThread :: rest
  | Stream.EvJoinPublishThread :: rest =>
      if drained then scan_shutdown received drained rest else None
  | _ :: rest => scan_shutdown received drained rest
  end.

Definition shutdown_only_when_drained (received : Z) (tr : list Stream.Event) : bool :=
  match scan_shutdown received false tr with
  | Some _ => true
  | None => false
  end.

(** The run got as far as collecting the statistics of both threads. *)
Definition completed (tr : list Stream.Event) : Prop :=
  In Stream.EvGetPubStats tr.

(** Every stage reported OK: each conversion worker and the publisher. *)
Definition all_stages_ok {double} (conv_stats : list (Stream.ConversionStats double))
    (pub_stats : Stream.PublishStats double) : bool :=
  forallb (fun t => ok (Stream.status t)) conv_stats && ok (Stream.pub_status pub_stats).

(** Sum of [size_t] counters, in [size_t]. *)
Definition sum_size_t (l : list Z) : Z := wrap64 (fold_right Z.add 0 l).

(** Sum of [double]s, added up from the left starting at zero. *)
Definition sum_double {double} (d_zero : double) (d_add : double -> double -> double)
    (l : list double) : double :=
  fold_left d_add l d_zero.

(** A line of comma-separated fields, ended by a newline. *)
Definition csv_line (fields : list string) : string :=
  (String.concat "," fields ++ String "010"%char EmptyString)%string.

(** The sequence numbers [first, first+1, ..., last]. *)
Definition range_values (r : SeqRange) : list Z :=
  map (fun i => first r + i) (Arrow.zrange (last r - first r + 1)).

(** The field that [AddColumn] makes for the sequence numbers. *)
Definition bolson_seq_field : Arrow.Field :=
  {| Arrow.field_name := "bolson_seq"; Arrow.field_type := Arrow.uint64;
     Arrow.nullable := true |}.

(** How a parsed batch carries the sequence range [r] of its buffer: with
    [seq_column], in a first column [bolson_seq] of type [uint64] that
    holds [first r, ..., last r], in front of the columns parsed by the
    hardware (one, [voltage]); without, in the metadata of the schema only,
    the fields and columns being those parsed by the hardware. *)
Definition carries_seq_range (seq_column : bool) (output_schema : Arrow.Schema)
    (r : SeqRange) (pb : ParsedBatch) : Prop :=
  seq_range pb = r
  /\ exists voltage : Arrow.Array,
       if seq_column
       then Arrow.fields (Arrow.schema (batch pb))
            = bolson_seq_field :: Arrow.fields output_schema
            /\ Arrow.columns (batch pb) = [Arrow.UInt64Array (range_values r); voltage]
       else Arrow.fields (Arrow.schema (batch pb)) = Arrow.fields output_schema
            /\ Arrow.columns (batch pb) = [voltage]
            /\ Arrow.kv_get "bolson_seq_first" (Arrow.metadata (Arrow.schema (batch pb)))
               = Some (to_string (first r))
            /\ Arrow.kv_get "bolson_seq_last" (Arrow.metadata (Arrow.schema (batch pb)))
               = Some (to_string (last r)).

(** A [uint64_t] value. *)
Definition is_uint64 (z : Z) : Prop := 0 <= z <= UINT64_MAX.

End Props.

(** * More vocabulary *)

Module MoreProps.

(** A batch that serializes, to no more than the ceiling. *)
Definition fits {RecordBatch IpcWriteOptions : Type}
    (SerializeRecordBatch : RecordBatch -> IpcWriteOptions -> Result Buffer)
    (s : Serializer.Serializer IpcWriteOptions)
    (b : Serializer.ResizedBatch RecordBatch) : Prop :=
  exists buf, SerializeRecordBatch (Serializer.batch b) (Serializer.opts s) = ROk buf
              /\ size buf <= Serializer.max_ipc_size s.

(** The message the mock serializer makes for a batch. *)
Definition mock_message {RecordBatch : Type} (b : Serializer.ResizedBatch RecordBatch)
    : Serializer.SerializedBatch :=
  {| Serializer.message := []; Serializer.sb_seq_range := Serializer.seq_range b |}.

(** Kinds of events of the supervisor. *)
Definition is_spawn_converter (e : Stream.Event) : bool :=
  match e with Stream.EvSpawnConverterThread => true | _ => false end.
Definition is_spawn_publish (e : Stream.Event) : bool :=
  match e with Stream.EvSpawnPublishThread => true | _ => false end.
Definition is_store_shutdown (e : Stream.Event) : bool :=
  match e with Stream.EvStoreShutdown => true | _ => false end.
Definition is_join_converter (e : Stream.Event) : bool :=
  match e with Stream.EvJoinConverterThread => true | _ => false end.
Definition is_join_publish (e : Stream.Event) : bool :=
  match e with Stream.EvJoinPublishThread => true | _ => false end.
Definition is_load (e : Stream.Event) : bool :=
  match e with Stream.EvLoadPublishCount _ => true | _ => false end.
Definition is_statistics (e : Stream.Event) : bool :=
  match e with Stream.EvOutputStats _ | Stream.EvLogStats => true | _ => false end.

(** How often events of a kind occur in a trace. *)
Definition occurrences (kind : Stream.Event -> bool) (tr : list Stream.Event) : nat :=
  length (List.filter kind tr).

(** The kinds of events that the busy wait does not produce. *)
Definition not_a_load (kind : Stream.Event -> bool) : Prop :=
  forall n, kind (Stream.EvLoadPublishCount n) = false.

(** A buffer of the OPAE allocator in good order: recorded with the fixed
    capacity, and all zero. *)
Definition allocated_zeroed (st : OpaeAllocator.State) (addr : Z) : Prop :=
  OpaeAllocator.allocations st !! addr = Some OpaeAllocator.opae_fixed_capacity
  /\ OpaeAllocator.zeroed st addr OpaeAllocator.opae_fixed_capacity.

(** Whether the mutex is held after the events [tr], when it was held or
    not before; [None] when a held mutex is locked again or one that is
    not held is unlocked. *)
Fixpoint mutex_after (held : bool) (tr : list OpaeParse.MutexEvent) : option bool :=
  match tr with
  | [] => Some held
  | OpaeParse.Lock :: rest => if held then None else mutex_after true rest
  | OpaeParse.Unlock :: rest => if held then mutex_after false rest else None
  end.

(** The call handed out a batch. *)
Definition hands_out_batch (o : OpaeParse.Outcome) : bool :=
  match o with
  | OpaeParse.Returns (inr _) => true
  | _ => false
  end.

End MoreProps.

(** * Concrete inputs

    Small environments and inputs on which the definitions above are run. *)

Module Inputs.

(** A stand-in for Arrow's IPC writer: eight bytes for every row. *)
Definition rows_serializer (rows : list Z) (_ : unit) : Result Buffer :=
  ROk (repeat Byte.x00 (8 * length rows)).

Definition serializer_64 : Serializer.Serializer unit :=
  {| Serializer.opts := tt; Serializer.max_ipc_size := 64 |}.

Definition small_batch : Serializer.ResizedBatch (list Z) :=
  {| Serializer.batch := [1; 2; 3];
     Serializer.seq_range := {| first := 10; last := 12 |} |}.

Definition big_batch : Serializer.ResizedBatch (list Z) :=
  {| Serializer.batch := [1; 2; 3; 4; 5; 6; 7; 8; 9];
     Serializer.seq_range := {| first := 13; last := 21 |} |}.

(** A command line that selects the file sub-command, and one that the
    command-line parser rejects. *)
Definition parse_file_command (argv : list string) : Status * Main.AppOptions unit unit :=
  (OK, {| Main.sub := Main.FILE; Main.file := tt; Main.stream := tt |}).

Definition parse_rejected (argv : list string) : Status * Main.AppOptions unit unit :=
  (Err CLIError "CLI Error: RequiredError:A subcommand is required",
   {| Main.sub := Main.NONE; Main.file := tt; Main.stream := tt |}).

Definition parse_stream_command (argv : list string) : Status * Main.AppOptions unit unit :=
  (OK, {| Main.sub := Main.STREAM; Main.file := tt; Main.stream := tt |}).

Definition file_ok (_ : unit) : Status := OK.
Definition file_fails (_ : unit) : Status := Err IOError "Could not open file.".
Definition stream_ok (_ : unit) : Status := OK.
Definition stream_fails (_ : unit) : Status := Err PulsarError "Pulsar producer failed.".

(** Times in whole microseconds stand in for [double]. *)
Definition stats_of (jsons ipc bytes : Z) (st : Status) : Stream.ConversionStats Z :=
  {| Stream.num_jsons := jsons; Stream.num_ipc := ipc; Stream.convert_time := 40;
     Stream.thread_time := 90; Stream.total_ipc_bytes := bytes; Stream.status := st |}.

Definition pub_stats_ok : Stream.PublishStats Z :=
  {| Stream.num_published := 5; Stream.publish_time := 70; Stream.pub_thread_time := 120;
     Stream.pub_status := OK |}.

(** The publish counter reaches 5 at the fourth load. *)
Definition counter (i : nat) : Z :=
  match i with
  | O => 0
  | 1%nat => 2
  | 2%nat => 4
  | _ => 5
  end.

(** Everything works: five JSONs received, converted by two workers and
    published. *)
Definition env_ok : Stream.Env Z :=
  {| Stream.SetupClientProducer := fun _ _ => OK;
     Stream.client_create := fun _ => OK;
     Stream.client_receive_jsons := fun _ => OK;
     Stream.client_close := fun _ => OK;
     Stream.received := 5;
     Stream.publish_count := counter;
     Stream.conv_stats_future := [stats_of 3 1 300 OK; stats_of 2 1 200 OK];
     Stream.pub_stats_future := pub_stats_ok;
     Stream.latency_timer_seconds := 7 |}.

(** The second conversion worker failed; the publisher did not. *)
Definition env_converter_failed : Stream.Env Z :=
  {| Stream.SetupClientProducer := fun _ _ => OK;
     Stream.client_create := fun _ => OK;
     Stream.client_receive_jsons := fun _ => OK;
     Stream.client_close := fun _ => OK;
     Stream.received := 5;
     Stream.publish_count := counter;
     Stream.conv_stats_future :=
       [stats_of 3 1 300 OK;
        stats_of 2 1 200
          (Err GenericError
             "Maximum IPC message size exceeded.Reduce max number of rows per batch.")];
     Stream.pub_stats_future := pub_stats_ok;
     Stream.latency_timer_seconds := 7 |}.

(** The connection breaks after five JSONs, three of them published. *)
Definition env_receive_failed : Stream.Env Z :=
  {| Stream.SetupClientProducer := fun _ _ => OK;
     Stream.client_create := fun _ => OK;
     Stream.client_receive_jsons := fun _ => Err GenericError "Server disconnected.";
     Stream.client_close := fun _ => OK;
     Stream.received := 5;
     Stream.publish_count := fun _ => 3;
     Stream.conv_stats_future := [stats_of 3 1 300 OK];
     Stream.pub_stats_future := pub_stats_ok;
     Stream.latency_timer_seconds := 7 |}.

Definition stream_options (pr : Stream.Protocol) (stats succ : bool) : Stream.StreamOptions :=
  {| Stream.protocol := pr;
     Stream.pulsar := {| Stream.url := "pulsar://localhost:6650/";
                         Stream.topic := "bolson" |};
     Stream.hostname := "localhost"; Stream.seq := 0;
     Stream.num_conversion_drones := 2; Stream.batch_threshold := 5242880;
     Stream.statistics := stats; Stream.succinct := succ |}.

(** [ProduceFromStream] over the stand-in for [double]. *)
Definition run_stream (fuel : nat) (env : Stream.Env Z) (opt : Stream.StreamOptions)
    : option (Status * list Stream.Event) :=
  Stream.ProduceFromStream 0 Z.add Z.div (fun z => z) to_string fuel env opt.

(** An operating system that maps one GiB of huge pages at a fixed
    address and nothing else. *)
Definition os_huge_pages : OpaeAllocator.OS :=
  {| OpaeAllocator.mmap := fun len _ _ =>
       if len =? 1073741824 then Some 70368744177664 else None;
     OpaeAllocator.errno := 12;
     OpaeAllocator.strerror := fun _ => "Cannot allocate memory" |}.

(** An allocator that has not allocated yet, in memory full of ones. *)
Definition fresh_allocator : OpaeAllocator.State :=
  {| OpaeAllocator.memory := fun _ => 255;
     OpaeAllocator.mapped := ∅;
     OpaeAllocator.allocations := ∅;
     OpaeAllocator.log := [] |}.

(** Stand-ins for the register layout of the FPGA parser: four default
    registers, two range registers, two input and four output address
    registers for each instance; bit 2 of the status register is "done". *)
Definition default_regs : Z := 4.
Definition range_regs_per_inst : Z := 2.
Definition in_addr_regs_per_inst : Z := 2.
Definition out_addr_regs_per_inst : Z := 4.
Definition ctrl_reset : Z := 4.
Definition ctrl_start : Z := 1.
Definition stat_done : Z := 4.

(** Fletcher puts the name and the mode of a schema in its metadata. *)
Definition WithMetaRequired (s : Arrow.Schema) (name : string) (mode : FletcherMode)
    : Arrow.Schema :=
  {| Arrow.fields := Arrow.fields s;
     Arrow.metadata :=
       Arrow.kv_set "fletcher_mode"
         (match mode with READ => "read" | WRITE => "write" end)
         (Arrow.kv_set "fletcher_name" name (Arrow.metadata s)) |}.

Definition raw_json_input_schema : Arrow.Schema :=
  WithMetaRequired
    {| Arrow.fields := [{| Arrow.field_name := "input"; Arrow.field_type := Arrow.uint8;
                           Arrow.nullable := false |}];
       Arrow.metadata := [] |}
    "input" READ.

(** A parser instance 0 that is done at the third poll and reports four
    rows of three voltages each. Register 13 is its status register,
    registers 14 and 15 hold the number of rows. *)
Definition fpga_platform : Fpga.Platform :=
  {| Fpga.WriteMMIO := fun _ _ => OK;
     Fpga.ReadMMIO := fun reads offset =>
       if offset =? 13 then (if (2 <=? reads)%nat then 4 else 0)
       else if offset =? 14 then 4 else 0;
     Fpga.host_int32 := fun _ i => 3 * i;
     Fpga.host_uint64 := fun _ i => 3300 + i |}.

Definition builder_ok : Fpga.Builder :=
  {| Fpga.Reserve := fun _ => OK; Fpga.Finish := OK |}.

Definition fpga_parser (seq_col : bool) : Fpga.BatteryParser :=
  {| Fpga.idx_ := 0; Fpga.p_num_parsers := 1;
     Fpga.raw_out_offsets := 4096; Fpga.raw_out_values := 8192;
     Fpga.p_seq_column := seq_col |}.

(** A buffer with the four JSONs number 10 to 13. *)
Definition json_buffer : JSONBuffer :=
  {| data := 65536; buf_size := 120; capacity := 1024;
     range := {| first := 10; last := 13 |} |}.

Definition fpga_ParseOne (fuel : nat) (seq_col : bool) (in_ : JSONBuffer)
    : option (Status + ParsedBatch) :=
  Fpga.ParseOne default_regs range_regs_per_inst in_addr_regs_per_inst
    out_addr_regs_per_inst ctrl_reset ctrl_start stat_done WithMetaRequired
    fuel fpga_platform builder_ok (fpga_parser seq_col) in_.

(** A run-time in which everything works; buffers and allocations are
    handed out at consecutive addresses. *)
Definition fpga_runtime : Fpga.Runtime :=
  {| Fpga.Platform_Make := OK;
     Fpga.Platform_Init := OK;
     Fpga.AllocateBuffers := fun n cap =>
       (OK, map (fun i => {| data := 65536 + i * cap; buf_size := 0; capacity := cap;
                             range := {| first := 0; last := 0 |} |})
                (Arrow.zrange n));
     Fpga.DivideCeil := fun a b => (a + b - 1) / b;
     Fpga.Context_Make := OK;
     Fpga.Allocate := fun calls n => (OK, 1048576 + Z.of_nat calls * 4096);
     Fpga.QueueRecordBatch := fun _ => OK;
     Fpga.Context_Enable := OK;
     Fpga.WithSeqField := fun s => (OK, s) |}.

Definition fpga_options (n : Z) : Fpga.BatteryOptions :=
  {| Fpga.num_parsers := n; Fpga.seq_column := false;
     Fpga.out_offset_buffer_capacity := 4096;
     Fpga.out_values_buffer_capacity := 4096 |}.

Definition fpga_Make (n : Z) :=
  Fpga.Make default_regs range_regs_per_inst in_addr_regs_per_inst WithMetaRequired
    raw_json_input_schema fpga_runtime fpga_platform (fpga_options n) 4096 None.

Definition opae_runtime : Opae.Runtime :=
  {| Opae.Platform_Make := OK; Opae.Platform_Init := OK |}.

End Inputs.

(** * More concrete inputs *)

Module MoreInputs.

(** Five JSONs received, the publisher stuck at three. *)
Definition env_stuck : Stream.Env Z :=
  {| Stream.SetupClientProducer := fun _ _ => OK;
     Stream.client_create := fun _ => OK;
     Stream.client_receive_jsons := fun _ => OK;
     Stream.client_close := fun _ => OK;
     Stream.received := 5;
     Stream.publish_count := fun _ => 3;
     Stream.conv_stats_future := [Inputs.stats_of 3 1 300 OK];
     Stream.pub_stats_future := Inputs.pub_stats_ok;
     Stream.latency_timer_seconds := 7 |}.

Definition raw_options : Stream.StreamOptions :=
  Inputs.stream_options (Stream.RawProtocol 10197) true true.


(** A buffer with the three JSONs number 14 to 16. *)
Definition short_buffer : JSONBuffer :=
  {| data := 131072; buf_size := 90; capacity := 1024;
     range := {| first := 14; last := 16 |} |}.

(** An operating system that maps one GiB of huge pages at a new address
    for each allocation. *)
Definition os_by_calls (calls : nat) : OpaeAllocator.OS :=
  {| OpaeAllocator.mmap := fun len _ _ =>
       if len =? 1073741824
       then Some (70368744177664 + Z.of_nat calls * 1073741824)
       else None;
     OpaeAllocator.errno := 12;
     OpaeAllocator.strerror := fun _ => "Cannot allocate memory" |}.

(** An operating system without huge pages. *)
Definition os_no_huge_pages : OpaeAllocator.OS :=
  {| OpaeAllocator.mmap := fun _ _ _ => None;
     OpaeAllocator.errno := 12;
     OpaeAllocator.strerror := fun _ => "Cannot allocate memory" |}.

(** Fletcher working, with two device buffers. *)
Definition opae_battery_runtime : OpaeBattery.Runtime :=
  {| OpaeBattery.Context_Make := OK;
     OpaeBattery.QueueRecordBatch := fun _ => OK;
     OpaeBattery.Context_Enable := OK;
     OpaeBattery.WriteMetaData := OK;
     OpaeBattery.device_buffers :=
       [{| OpaeAddr.host_address := 70368744177664; OpaeAddr.device_address := 0 |};
        {| OpaeAddr.host_address := 70369817919488;
           OpaeAddr.device_address := 1073741824 |}];
     OpaeBattery.os := os_by_calls |}.

Definition opae_options (n : Z) : Opae.BatteryOptions :=
  {| Opae.afu_id := ""; Opae.num_parsers := n |}.

(** The context that [Make] hands out for two parsers, with an allocator
    that has not allocated yet. *)
Definition opae_context : OpaeBattery.BatteryParserContext :=
  OpaeBattery.of_Make
    {| Opae.opts_ := {| Opae.afu_id := "9ca43fb0-c340-4908-b79b-5c89b4ef5e02";
                        Opae.num_parsers := 2 |};
       Opae.num_parsers_ := 2; Opae.parsers_ := [] |}
    Inputs.fresh_allocator.

(** The platform works, the operating system has no huge pages. *)
Definition opae_parser_runtime : OpaeBatteryParser.Runtime :=
  {| OpaeBatteryParser.Platform_Make := OK;
     OpaeBatteryParser.Platform_Init := OK;
     OpaeBatteryParser.os := fun _ => os_no_huge_pages |}.

Definition opae_parser_options : OpaeBatteryParser.OpaeBatteryOptions :=
  {| OpaeBatteryParser.afu_id := "9ca43fb0-c340-4908-b79b-5c89b4ef5e01";
     OpaeBatteryParser.output_capacity_off := 1073741824;
     OpaeBatteryParser.output_capacity_val := 1073741824 |}.

(** The sub-commands of bolson and of its benchmarks. *)
Inductive SubCommand := NONE | STREAM | BENCH.
Inductive Bench := CLIENT | CONVERT | PULSAR | QUEUE.

(** "bolson bench convert --input <file>": CLI11 stores the name of the
    file, and [ParseInput] answers with [parse_input]. The name of the
    input file stands for the members bound to options. *)
Definition cli_bench_convert (parse_input : Status) : Cli.CLI string :=
  {| Cli.parse := fun _ _ => (Cli.Returned, "battery.json");
     Cli.help := "bolson : A JSON to Arrow IPC converter and Pulsar publishing tool.";
     Cli.stream_parsed := false;
     Cli.bench_parsed := true;
     Cli.bench_client_parsed := false;
     Cli.bench_convert_parsed := true;
     Cli.bench_pulsar_parsed := false;
     Cli.bench_queue_parsed := false;
     Cli.stream_converter_ParseInput := fun b => (OK, b);
     Cli.bench_convert_ParseInput := fun b => (parse_input, b) |}.

(** "bolson stream --input <file> --nonsense": CLI11 stores the name of the
    file and then throws. *)
Definition cli_extras_error : Cli.CLI string :=
  {| Cli.parse := fun _ _ =>
       (Cli.CLI_Error "ExtrasError"
          "The following argument was not expected: --nonsense",
        "battery.json");
     Cli.help := "bolson : A JSON to Arrow IPC converter and Pulsar publishing tool.";
     Cli.stream_parsed := false;
     Cli.bench_parsed := false;
     Cli.bench_client_parsed := false;
     Cli.bench_convert_parsed := false;
     Cli.bench_pulsar_parsed := false;
     Cli.bench_queue_parsed := false;
     Cli.stream_converter_ParseInput := fun b => (OK, b);
     Cli.bench_convert_ParseInput := fun b => (OK, b) |}.

(** A stand-in for [double]: decimal numbers with six places, held as the
    number of millionths. *)
Definition fx_of_size_t (n : Z) : Z := n * 1000000.
Definition fx_mul (a b : Z) : Z := a * b / 1000000.
Definition fx_div (a b : Z) : Z := a * 1000000 / b.
Definition fx_1E6 : Z := 1000000 * 1000000.
Definition fx_show (a : Z) : string :=
  (to_string (a / 1000000) ++ "."
   ++ String.substring 1 6 (to_string (1000000 + a mod 1000000)))%string.

(** Two workers: three JSONs converted in 3 ms and two JSONs converted in
    2 ms, 50 ms and 40 ms in their threads. *)
Definition conv_stats_ms : list (Stream.ConversionStats Z) :=
  [ {| Stream.num_jsons := 3; Stream.num_ipc := 1; Stream.convert_time := 3000;
       Stream.thread_time := 50000; Stream.total_ipc_bytes := 300;
       Stream.status := OK |};
    {| Stream.num_jsons := 2; Stream.num_ipc := 1; Stream.convert_time := 2000;
       Stream.thread_time := 40000; Stream.total_ipc_bytes := 200;
       Stream.status := OK |} ].

(** Two messages published in 4 ms, 120 ms in the publish thread. *)
Definition pub_stats_ms : Stream.PublishStats Z :=
  {| Stream.num_published := 2; Stream.publish_time := 4000;
     Stream.pub_thread_time := 120000; Stream.pub_status := OK |}.

(** [OutputStats] and [LogStats] over the stand-in, after a first latency
    of 7 s and five JSONs received. *)
Definition csv_stats : string :=
  Stream.OutputStats 0 Z.add fx_div fx_of_size_t fx_show 7000000 5 conv_stats_ms
    pub_stats_ms "".

Definition log_stats : list string :=
  StreamLog.LogStats 0 Z.add fx_mul fx_div fx_of_size_t fx_1E6 fx_show "true" "0.001"
    7000000 5 conv_stats_ms pub_stats_ms.

(** A buffer builder whose second [Finish] fails. *)
Definition finish_fails_second (calls : nat) : Status :=
  if (calls =? 1)%nat then Err GenericError "Out of memory" else OK.

(** A platform on which starting the kernel fails. *)
Definition fpga_platform_no_start : Fpga.Platform :=
  {| Fpga.WriteMMIO := fun _ value =>
       if value =? Inputs.ctrl_start then Err OpaeError "FPGA_EXCEPTION" else OK;
     Fpga.ReadMMIO := Fpga.ReadMMIO Inputs.fpga_platform;
     Fpga.host_int32 := Fpga.host_int32 Inputs.fpga_platform;
     Fpga.host_uint64 := Fpga.host_uint64 Inputs.fpga_platform |}.

Definition opae_parser : Opae.BatteryParser :=
  {| Opae.idx_ := 0; Opae.p_num_parsers := 1;
     Opae.raw_out_offsets := 4096; Opae.raw_out_values := 8192 |}.

(** [ParseOne] of the OPAE parser with the stand-ins for the register
    layout; the buffer at host address 65536 has device address 0. *)
Definition opae_ParseOne (fuel : nat) (p : Fpga.Platform) (in_ : JSONBuffer) :=
  OpaeParse.ParseOne
    (Fpga.ctrl_offset Inputs.default_regs Inputs.range_regs_per_inst
       Inputs.in_addr_regs_per_inst Inputs.out_addr_regs_per_inst)
    (Fpga.input_lastidx_offset Inputs.default_regs)
    (Fpga.input_values_lo_offset Inputs.default_regs Inputs.range_regs_per_inst)
    (Fpga.input_values_hi_offset Inputs.default_regs Inputs.range_regs_per_inst)
    (Fpga.status_offset Inputs.default_regs Inputs.range_regs_per_inst
       Inputs.in_addr_regs_per_inst Inputs.out_addr_regs_per_inst)
    (Fpga.result_rows_offset_lo Inputs.default_regs Inputs.range_regs_per_inst
       Inputs.in_addr_regs_per_inst Inputs.out_addr_regs_per_inst)
    (Fpga.result_rows_offset_hi Inputs.default_regs Inputs.range_regs_per_inst
       Inputs.in_addr_regs_per_inst Inputs.out_addr_regs_per_inst)
    Inputs.ctrl_reset Inputs.ctrl_start Inputs.stat_done Inputs.WithMetaRequired
    fuel p (<[65536 := 0]> ∅) opae_parser in_.

(** [Parse] of the OPAE parser in the same setting, the mutex not yet
    touched. *)
Definition opae_Parse (fuel : nat) (p : Fpga.Platform) (in_ : list JSONBuffer) :=
  OpaeParse.Parse
    (Fpga.ctrl_offset Inputs.default_regs Inputs.range_regs_per_inst
       Inputs.in_addr_regs_per_inst Inputs.out_addr_regs_per_inst)
    (Fpga.input_lastidx_offset Inputs.default_regs)
    (Fpga.input_values_lo_offset Inputs.default_regs Inputs.range_regs_per_inst)
    (Fpga.input_values_hi_offset Inputs.default_regs Inputs.range_regs_per_inst)
    (Fpga.status_offset Inputs.default_regs Inputs.range_regs_per_inst
       Inputs.in_addr_regs_per_inst Inputs.out_addr_regs_per_inst)
    (Fpga.result_rows_offset_lo Inputs.default_regs Inputs.range_regs_per_inst
       Inputs.in_addr_regs_per_inst Inputs.out_addr_regs_per_inst)
    (Fpga.result_rows_offset_hi Inputs.default_regs Inputs.range_regs_per_inst
       Inputs.in_addr_regs_per_inst Inputs.out_addr_regs_per_inst)
    Inputs.ctrl_reset Inputs.ctrl_start Inputs.stat_done Inputs.WithMetaRequired
    fuel p (<[65536 := 0]> ∅) opae_parser in_ [] [].

End MoreInputs.

(** * Properties *)

(** ** Serializer *)

Section SerializerFacts.
Import Serializer.
Context {RecordBatch IpcWriteOptions : Type}.
Variable SerializeRecordBatch : RecordBatch -> IpcWriteOptions -> Result Buffer.

Local Abbreviation Serialize_loop := (Serializer.Serialize_loop SerializeRecordBatch).
Local Abbreviation Serialize := (Serializer.Serialize SerializeRecordBatch).
Local Abbreviation oversized := (Serializer.oversized SerializeRecordBatch).
Local Abbreviation serialized_from := (Serializer.serialized_from SerializeRecordBatch).

Lemma Serialize_loop_oversized s in_ result :
  Exists (oversized s) in_ -> exists e, Serialize_loop s in_ result = inl e /\ ok e = false.
Proof.
  intros Hex. revert result.
  induction Hex as [b rest (buf & Hser & Hbig) | b rest _ IH]; intros result; simpl.
  - rewrite Hser.
    assert ((size buf >? max_ipc_size s) = true) as -> by (apply Z.gtb_lt; lia).
    eauto.
  - destruct (SerializeRecordBatch (batch b) (opts s)) as [buf | m]; [| eauto].
    destruct (size buf >? max_ipc_size s); eauto.
Qed.

Lemma Serialize_loop_ok s in_ : forall result out,
  Serialize_loop s in_ result = inr out ->
  exists new, out = result ++ new /\ Forall2 (serialized_from s) in_ new.
Proof.
  induction in_ as [| b rest IH]; intros result out; simpl.
  - intros [= <-]. exists []. split; [now rewrite app_nil_r | constructor].
  - destruct (SerializeRecordBatch (batch b) (opts s)) as [buf | m] eqn:Hser;
      [| discriminate].
    destruct (size buf >? max_ipc_size s) eqn:Hcmp; [discriminate |].
    intros Hloop. apply IH in Hloop as (new & -> & Hall).
    exists ({| message := buf; sb_seq_range := seq_range b |} :: new).
    split; [now rewrite <- app_assoc |].
    constructor; [| exact Hall].
    repeat split; simpl; auto.
    rewrite Z.gtb_ltb in Hcmp. now apply Z.ltb_ge in Hcmp.
Qed.

(** The early returns of the loop are failures. *)
Lemma Serialize_loop_inl_not_ok s in_ : forall result e,
  Serialize_loop s in_ result = inl e -> ok e = false.
Proof.
  induction in_ as [| b rest IH]; intros result e; simpl; [discriminate |].
  destruct (SerializeRecordBatch (batch b) (opts s)) as [buf | m].
  - destruct (size buf >? max_ipc_size s); [now intros [= <-] | apply IH].
  - now intros [= <-].
Qed.

(** A failing call leaves [*out] as it was. *)
Lemma Serialize_failure_keeps_out s in_ out :
  ok (fst (Serialize s in_ out)) = false -> snd (Serialize s in_ out) = out.
Proof.
  unfold Serializer.Serialize.
  destruct (Serialize_loop s in_ []); simpl; [reflexivity | discriminate].
Qed.

(** C1. [Serializer::Serialize] returns a status that is not OK when one
    of the batches serializes to more than [max_ipc_size] bytes; when it
    returns OK, the output holds one message for every input batch, in
    order, each the serialization of its batch, at most [max_ipc_size]
    bytes long and with the sequence range of its batch. *)
Theorem Serialize_enforces_max_ipc_size s in_ out :
  (Exists (oversized s) in_ -> ok (fst (Serialize s in_ out)) = false)
  /\ (ok (fst (Serialize s in_ out)) = true ->
      Forall2 (serialized_from s) in_ (snd (Serialize s in_ out))).
Proof.
  unfold Serializer.Serialize. split.
  - intros Hex.
    destruct (Serialize_loop_oversized s in_ [] Hex) as (e & -> & He). exact He.
  - destruct (Serialize_loop s in_ []) as [e | result] eqn:Hloop; simpl.
    + rewrite (Serialize_loop_inl_not_ok _ _ _ _ Hloop). discriminate.
    + intros _. apply Serialize_loop_ok in Hloop as (new & -> & Hall). exact Hall.
Qed.
End SerializerFacts.

Lemma Serialize_enforces_max_ipc_size_witness :
  ok (fst (Serializer.Serialize Inputs.rows_serializer Inputs.serializer_64
             [Inputs.small_batch; Inputs.big_batch] [])) = false
  /\ Forall2 (Serializer.serialized_from Inputs.rows_serializer Inputs.serializer_64)
       [Inputs.small_batch]
       (snd (Serializer.Serialize Inputs.rows_serializer Inputs.serializer_64
               [Inputs.small_batch] [])).
Proof.
  split.
  - apply (proj1 (Serialize_enforces_max_ipc_size Inputs.rows_serializer
                    Inputs.serializer_64 [Inputs.small_batch; Inputs.big_batch] [])).
    apply Exists_cons_tl, Exists_cons_hd.
    exists (repeat Byte.x00 72). split; [reflexivity | vm_compute; reflexivity].
  - apply (proj2 (Serialize_enforces_max_ipc_size Inputs.rows_serializer
                    Inputs.serializer_64 [Inputs.small_batch] [])).
    reflexivity.
Defined.

(** ** main *)

Section MainFacts.
Import Main.
Context {FileOptions StreamOptions : Type}.
Variable FromArguments : list string -> Status * AppOptions FileOptions StreamOptions.
Variable ProduceFromFile : FileOptions -> Status.
Variable ProduceFromStream : StreamOptions -> Status.
Variable name : string.

Local Abbreviation main := (Main.main FromArguments ProduceFromFile ProduceFromStream name).

Local Abbreviation error_lines := (Props.error_lines name).

(** The exit code does not depend on anything. *)
Lemma main_exit_code argv : fst (main argv) = 0.
Proof. unfold Main.main. now destruct (FromArguments argv). Qed.

(** Rejected arguments: nothing runs, the error is logged. *)
Lemma main_rejected argv e m opts :
  FromArguments argv = (Err e m, opts) ->
  main argv = (0, StartLogger :: error_lines (Err e m)).
Proof. intros H. unfold Main.main. rewrite H. reflexivity. Qed.

(** The stream sub-command runs [ProduceFromStream] only. *)
Lemma main_stream argv opts :
  FromArguments argv = (OK, opts) -> sub opts = STREAM ->
  main argv = (0, [StartLogger; RunProduceFromStream]
                  ++ error_lines (ProduceFromStream (stream opts))).
Proof.
  intros H Hsub. unfold Main.main. rewrite H. simpl. rewrite Hsub. simpl.
  unfold Props.error_lines. now destruct (ProduceFromStream (stream opts)).
Qed.

(** The file sub-command falls through into the stream sub-command: both
    run, and the status of [ProduceFromFile] is overwritten. *)
Lemma main_file argv opts :
  FromArguments argv = (OK, opts) -> sub opts = FILE ->
  main argv = (0, [StartLogger; RunProduceFromFile; RunProduceFromStream]
                  ++ error_lines (ProduceFromStream (stream opts))).
Proof.
  intros H Hsub. unfold Main.main. rewrite H. simpl. rewrite Hsub. simpl.
  unfold Props.error_lines. now destruct (ProduceFromStream (stream opts)).
Qed.

(** No sub-command: nothing runs. *)
Lemma main_none argv opts :
  FromArguments argv = (OK, opts) -> sub opts = NONE ->
  main argv = (0, [StartLogger]).
Proof.
  intros H Hsub. unfold Main.main. rewrite H. simpl. rewrite Hsub. reflexivity.
Qed.
End MainFacts.

(** C2. The exit code of [main] is 0 also when a stage reports a fatal
    error: here for a command line that the parser rejects (a
    configuration error) and for a stream whose publisher fails. The error
    is logged, the process still exits with 0. *)
Theorem main_returns_zero_on_fatal_error :
  Main.main Inputs.parse_rejected Inputs.file_ok Inputs.stream_ok "bolson" ["bolson"]
  = (0, [Main.StartLogger;
         Main.LogError "bolson exiting with errors.";
         Main.LogError "  CLI Error: RequiredError:A subcommand is required"])
  /\ Main.main Inputs.parse_stream_command Inputs.file_ok Inputs.stream_fails "bolson"
       ["bolson"; "stream"]
     = (0, [Main.StartLogger; Main.RunProduceFromStream;
            Main.LogError "bolson exiting with errors.";
            Main.LogError "  Pulsar producer failed."]).
Proof. split; reflexivity. Qed.

(** C3. With the file sub-command selected, [main] runs [ProduceFromFile]
    and then, falling through the [switch], [ProduceFromStream] as well;
    a failure of [ProduceFromFile] is overwritten by the status of the
    stream and is not even logged. *)
Theorem main_file_falls_through_to_stream :
  Main.main Inputs.parse_file_command Inputs.file_ok Inputs.stream_ok "bolson"
    ["bolson"; "file"]
  = (0, [Main.StartLogger; Main.RunProduceFromFile; Main.RunProduceFromStream])
  /\ Main.main Inputs.parse_file_command Inputs.file_fails Inputs.stream_ok "bolson"
       ["bolson"; "file"]
     = (0, [Main.StartLogger; Main.RunProduceFromFile; Main.RunProduceFromStream]).
Proof. split; reflexivity. Qed.

(** ** ProduceFromStream *)

Lemma string_app_assoc (a b c : string) : ((a ++ b) ++ c = a ++ (b ++ c))%string.
Proof.
  induction a as [| ch a IH]; [reflexivity |].
  change (String ch ((a ++ b) ++ c) = String ch (a ++ (b ++ c)))%string.
  now f_equal.
Qed.

Section StreamFacts.
Import Stream Props.
Context {double : Type}.
Variable d_zero : double.
Variable d_add : double -> double -> double.
Variable d_div : double -> double -> double.
Variable d_of_size_t : Z -> double.
Variable show_double : double -> string.

Local Abbreviation ProduceFromStream :=
  (Stream.ProduceFromStream d_zero d_add d_div d_of_size_t show_double).
Local Abbreviation OutputStats :=
  (Stream.OutputStats d_zero d_add d_div d_of_size_t show_double).
Local Abbreviation AggrStats := (Stream.AggrStats d_zero d_add).
Local Abbreviation AggrStats_step := (Stream.AggrStats_step d_add).

(** *** Aggregation *)

Lemma wrap64_idem z : wrap64 (wrap64 z) = wrap64 z.
Proof. unfold wrap64. now rewrite Zmod_mod. Qed.

Lemma wrap64_add_l a b : wrap64 (wrap64 a + b) = wrap64 (a + b).
Proof. unfold wrap64. now rewrite Zplus_mod_idemp_l. Qed.

(** A counter that the loop of [AggrStats] adds up with wrap-around. *)
Lemma fold_counter (proj : ConversionStats double -> Z) :
  (forall acc t, proj (AggrStats_step acc t) = wrap64 (proj acc + proj t)) ->
  forall l acc, wrap64 (proj acc) = proj acc ->
    proj (fold_left AggrStats_step l acc)
    = wrap64 (proj acc + fold_right Z.add 0 (map proj l)).
Proof.
  intros Hstep l. induction l as [| t l IH]; intros acc Hacc; simpl.
  - now rewrite Z.add_0_r.
  - rewrite IH by (rewrite Hstep; apply wrap64_idem).
    rewrite Hstep, wrap64_add_l. f_equal. lia.
Qed.

(** A time that the loop of [AggrStats] adds up. *)
Lemma fold_time (proj : ConversionStats double -> double) :
  (forall acc t, proj (AggrStats_step acc t) = d_add (proj acc) (proj t)) ->
  forall l acc,
    proj (fold_left AggrStats_step l acc) = fold_left d_add (map proj l) (proj acc).
Proof.
  intros Hstep l. induction l as [| t l IH]; intros acc; simpl; [reflexivity |].
  now rewrite IH, Hstep.
Qed.

Lemma AggrStats_num_jsons l : num_jsons (AggrStats l) = sum_size_t (map num_jsons l).
Proof. unfold Stream.AggrStats. now rewrite (fold_counter num_jsons). Qed.

Lemma AggrStats_num_ipc l : num_ipc (AggrStats l) = sum_size_t (map num_ipc l).
Proof. unfold Stream.AggrStats. now rewrite (fold_counter num_ipc). Qed.

Lemma AggrStats_total_ipc_bytes l :
  total_ipc_bytes (AggrStats l) = sum_size_t (map total_ipc_bytes l).
Proof. unfold Stream.AggrStats. now rewrite (fold_counter total_ipc_bytes). Qed.

Lemma AggrStats_convert_time l :
  convert_time (AggrStats l) = sum_double d_zero d_add (map convert_time l).
Proof. unfold Stream.AggrStats. now rewrite (fold_time convert_time). Qed.

Lemma AggrStats_thread_time l :
  thread_time (AggrStats l) = sum_double d_zero d_add (map thread_time l).
Proof. unfold Stream.AggrStats. now rewrite (fold_time thread_time). Qed.

(** When the true sum fits in a [size_t], it is the sum. *)
Lemma sum_size_t_exact l :
  0 <= fold_right Z.add 0 l < 2 ^ 64 -> sum_size_t l = fold_right Z.add 0 l.
Proof. intros H. unfold sum_size_t, wrap64. now apply Z.mod_small. Qed.

(** The succinct statistics are one line of ten comma-separated
    fields, in this order: the number of JSONs received, the JSONs
    converted, the IPC bytes, the IPC bytes divided by the JSONs, the
    conversion time divided by the JSONs, the thread time divided by the
    JSONs, the messages published, the publish time divided by the
    messages, the thread time of the publisher and the latency timer. The
    conversion counters and times are the sums over the statistics of all
    workers ([size_t] sums are modulo [2^64]). The times are in seconds,
    as the timers give them: none is scaled. *)
Lemma OutputStats_csv_line latency_seconds received conv_stats pub_stats output :
  let jsons := sum_size_t (map num_jsons conv_stats) in
  let bytes := sum_size_t (map total_ipc_bytes conv_stats) in
  let conv_time := sum_double d_zero d_add (map convert_time conv_stats) in
  let thr_time := sum_double d_zero d_add (map thread_time conv_stats) in
  OutputStats latency_seconds received conv_stats pub_stats output
  = (output ++ csv_line
       [ show_size_t received;
         show_size_t jsons;
         show_size_t bytes;
         show_double (d_div (d_of_size_t bytes) (d_of_size_t jsons));
         show_double (d_div conv_time (d_of_size_t jsons));
         show_double (d_div thr_time (d_of_size_t jsons));
         show_size_t (num_published pub_stats);
         show_double (d_div (publish_time pub_stats)
                            (d_of_size_t (num_published pub_stats)));
         show_double (pub_thread_time pub_stats);
         show_double latency_seconds ])%string.
Proof.
  intros jsons bytes conv_time thr_time.
  unfold Stream.OutputStats, put, put_endl, csv_line.
  rewrite AggrStats_num_jsons, AggrStats_total_ipc_bytes,
    AggrStats_convert_time, AggrStats_thread_time.
  fold jsons bytes conv_time thr_time. cbn [String.concat].
  now rewrite !string_app_assoc.
Qed.

(** C8. The two averages of the succinct line are not in microseconds.
    For two workers that converted three JSONs in 3 ms and two JSONs in
    2 ms, and two messages published in 4 ms, the fifth field of the line
    is 0.001 and the eighth is 0.002, the averages in seconds, while
    [LogStats] reports the same averages, multiplied by [1E6], as 1000 us
    and 2000 us. The other fields are as the specification names them. *)
Theorem OutputStats_averages_not_in_microseconds :
  MoreInputs.csv_stats
  = csv_line ["5"; "5"; "500"; "100.000000"; "0.001000"; "0.018000"; "2";
              "0.002000"; "0.120000"; "7.000000"]
  /\ nth 6 MoreInputs.log_stats "" = "  Avg. conv. time     : 1000.000000 us."
  /\ nth 10 MoreInputs.log_stats "" = "  Avg. publish time   : 2000.000000 us.".
Proof. repeat split; vm_compute; reflexivity. Qed.

(** *** The zmq protocol *)

(** C7. With the zmq protocol selected, [ProduceFromStream] does nothing
    (no Pulsar producer, no threads, no client) and returns the error
    "Not implemented.". *)
Theorem ProduceFromStream_zmq_not_implemented fuel env opt port :
  protocol opt = ZMQProtocol port ->
  ProduceFromStream fuel env opt = Some (Err GenericError "Not implemented.", []).
Proof. intros H. unfold Stream.ProduceFromStream. now rewrite H. Qed.

(** *** Shutting down *)

Lemma scan_shutdown_app received tr1 : forall tr2 d,
  scan_shutdown received d (tr1 ++ tr2)
  = match scan_shutdown received d tr1 with
    | Some d' => scan_shutdown received d' tr2
    | None => None
    end.
Proof.
  induction tr1 as [| e tr1 IH]; intros tr2 d; [reflexivity |].
  destruct e; simpl; try apply IH; destruct d; auto.
Qed.

(** The busy wait ends once the counter has caught up, and the last value
    it loaded is the number of JSONs received. *)
Lemma wait_published_drains (env : Env double) : forall j fuel i tr,
  publish_count env (i + j)%nat = received env -> (j < fuel)%nat ->
  exists loads,
    wait_published fuel env i tr = Some (tr ++ loads)
    /\ forall d, scan_shutdown (received env) d loads = Some true.
Proof.
  induction j as [| j IH]; intros fuel i tr Heq Hfuel;
    (destruct fuel as [| fuel]; [lia |]); simpl.
  - rewrite Nat.add_0_r in Heq. rewrite Heq, Z.eqb_refl. simpl.
    eexists; split; [reflexivity |]. intros d. simpl. now rewrite Z.eqb_refl.
  - destruct (received env =? publish_count env i) eqn:Hcmp; simpl.
    + eexists; split; [reflexivity |]. intros d. simpl. now rewrite Hcmp.
    + destruct (IH fuel (S i) (tr ++ [EvLoadPublishCount (publish_count env i)]))
        as (loads & -> & Hscan); [now rewrite <- Heq, Nat.add_succ_r | lia |].
      exists (EvLoadPublishCount (publish_count env i) :: loads).
      split; [now rewrite <- app_assoc |]. intros d. simpl. apply Hscan.
Qed.

(** When receiving fails, the threads are shut down at once, without a
    look at the publish counter, and the call is evaluated once more for
    its message. *)
Lemma shutdown_on_receive_error fuel env opt port :
  protocol opt = RawProtocol port ->
  ok (SetupClientProducer env (url (pulsar opt)) (topic (pulsar opt))) = true ->
  ok (client_create env 0%nat) = true ->
  ok (client_receive_jsons env 0%nat) = false ->
  ProduceFromStream fuel env opt
  = Some (Err IllexError (msg (client_receive_jsons env 1%nat)),
          [EvSetupClientProducer (url (pulsar opt)) (topic (pulsar opt));
           EvSpawnConverterThread; EvSpawnPublishThread; EvClientCreate;
           EvReceiveJSONs; EvStoreShutdown; EvJoinConverterThread;
           EvJoinPublishThread; EvReceiveJSONs]).
Proof.
  intros Hp Hs Hc Hr. unfold Stream.ProduceFromStream, SHUTDOWN_ON_ERROR.
  now rewrite Hp, Hs, Hc, Hr.
Qed.

(** C6, amended. When the Illex client reports no error, the supervisor
    returns as soon as the publish counter has caught up, and in its run
    the shutdown flag is stored and the threads are joined only after a
    load of the publish counter that was equal to the number of JSONs
    received. *)
Theorem shutdown_waits_until_all_published env opt k fuel :
  ok (client_create env 0%nat) = true ->
  ok (client_receive_jsons env 0%nat) = true ->
  ok (client_close env 0%nat) = true ->
  publish_count env k = received env ->
  (k < fuel)%nat ->
  exists st tr,
    ProduceFromStream fuel env opt = Some (st, tr)
    /\ shutdown_only_when_drained (received env) tr = true.
Proof.
  intros Hc Hr Hcl Hk Hfuel.
  unfold Stream.ProduceFromStream, SHUTDOWN_ON_ERROR, shutdown_only_when_drained.
  destruct (protocol opt) as [port | port]; [| eexists _, _; split; reflexivity].
  destruct (ok (SetupClientProducer env _ _)); simpl;
    [| eexists _, _; split; reflexivity].
  rewrite Hc, Hr, Hcl. simpl.
  match goal with
  | |- context [wait_published fuel env 0 ?tr0] =>
      destruct (wait_published_drains env k fuel 0%nat tr0) as (loads & -> & Hscan);
        [exact Hk | exact Hfuel |]
  end.
  destruct (ok (pub_status (pub_stats_future env)));
    [destruct (statistics opt); [destruct (succinct opt) |] |];
    simpl; eexists _, _; (split; [reflexivity |]);
    rewrite <- ?app_assoc; simpl; rewrite scan_shutdown_app, Hscan; reflexivity.
Qed.

(** *** The status of a completed run *)

(** A run that got as far as collecting the statistics returns the status
    of the publisher; the statuses of the conversion workers play no part. *)
Lemma ProduceFromStream_completed_status fuel env opt st tr :
  ProduceFromStream fuel env opt = Some (st, tr) ->
  completed tr ->
  st = pub_status (pub_stats_future env).
Proof.
  unfold Stream.ProduceFromStream, SHUTDOWN_ON_ERROR, completed.
  destruct (protocol opt) as [port | port]; [| now intros [= <- <-] []].
  destruct (ok (SetupClientProducer env _ _)); simpl;
    [| intros [= <- <-]; simpl; intuition discriminate].
  destruct (ok (client_create env 0%nat)); simpl;
    [| intros [= <- <-]; simpl; intuition discriminate].
  destruct (ok (client_receive_jsons env 0%nat)); simpl;
    [| intros [= <- <-]; simpl; intuition discriminate].
  destruct (ok (client_close env 0%nat)); simpl;
    [| intros [= <- <-]; simpl; intuition discriminate].
  destruct (wait_published fuel env 0 _) as [tr' |]; [| discriminate].
  destruct (pub_status (pub_stats_future env)) as [| e m] eqn:Hpub; simpl.
  - now intros [= <- _].
  - now intros [= <- _].
Qed.
End StreamFacts.

Lemma ProduceFromStream_zmq_not_implemented_witness :
  Inputs.run_stream 0 Inputs.env_ok (Inputs.stream_options (Stream.ZMQProtocol 5555) true true)
  = Some (Err GenericError "Not implemented.", []).
Proof.
  apply (ProduceFromStream_zmq_not_implemented 0 Z.add Z.div (fun z => z) to_string
           0%nat Inputs.env_ok
           (Inputs.stream_options (Stream.ZMQProtocol 5555) true true) 5555).
  reflexivity.
Defined.

Lemma shutdown_waits_until_all_published_witness :
  exists st tr,
    Inputs.run_stream 4 Inputs.env_ok
      (Inputs.stream_options (Stream.RawProtocol 10197) true true) = Some (st, tr)
    /\ Props.shutdown_only_when_drained 5 tr = true.
Proof.
  apply (shutdown_waits_until_all_published 0 Z.add Z.div (fun z => z) to_string
           Inputs.env_ok (Inputs.stream_options (Stream.RawProtocol 10197) true true)
           3%nat 4%nat); [reflexivity | reflexivity | reflexivity | reflexivity | lia].
Defined.

(** C6 as stated fails: the connection breaks after five JSONs of which
    three are published, and the supervisor stores the shutdown flag and
    joins the threads without having loaded the publish counter at all. *)
Lemma shutdown_before_all_published :
  exists st tr,
    Inputs.run_stream 1 Inputs.env_receive_failed
      (Inputs.stream_options (Stream.RawProtocol 10197) true true) = Some (st, tr)
    /\ In Stream.EvStoreShutdown tr
    /\ Props.shutdown_only_when_drained (Stream.received Inputs.env_receive_failed) tr
       = false.
Proof.
  eexists _, _. split; [reflexivity |]. split; [simpl; tauto | reflexivity].
Qed.

(** C4. A run in which the second conversion worker reports a failure
    through its statistics and the publisher reports OK completes and
    returns OK. *)
Theorem ProduceFromStream_ok_with_failed_converter :
  exists tr,
    Inputs.run_stream 4 Inputs.env_converter_failed
      (Inputs.stream_options (Stream.RawProtocol 10197) true true) = Some (OK, tr)
    /\ In Stream.EvGetPubStats tr
    /\ Props.all_stages_ok (Stream.conv_stats_future Inputs.env_converter_failed)
         (Stream.pub_stats_future Inputs.env_converter_failed) = false.
Proof.
  eexists. split; [reflexivity |]. split; [simpl; tauto | reflexivity].
Qed.

(** The line for five JSONs converted by two workers into 500 bytes. *)
Example OutputStats_line :
  Stream.OutputStats 0 Z.add Z.div (fun z => z) to_string 7 5
    (Stream.conv_stats_future Inputs.env_ok) Inputs.pub_stats_ok ""
  = Props.csv_line ["5"; "5"; "500"; "100"; "16"; "36"; "5"; "14"; "120"; "7"].
Proof. reflexivity. Qed.

(** ** OpaeAllocator *)

Section OpaeAllocatorFacts.
Import OpaeAllocator.

Lemma opae_fixed_capacity_is_one_GiB : opae_fixed_capacity = 2 ^ 30.
Proof. reflexivity. Qed.

(** The huge-page flag asks for pages of [2^30] bytes. *)
Lemma mmap_flags_page_size : Z.shiftr mmap_flags 26 = 30.
Proof. reflexivity. Qed.

Lemma memset_zeroes mem dest count a :
  dest <= a < dest + count -> fst (memset mem dest 0 count) a = 0.
Proof.
  intros [Hlo Hhi]. unfold memset. simpl.
  apply Z.leb_le in Hlo. apply Z.ltb_lt in Hhi. now rewrite Hlo, Hhi.
Qed.

Lemma memset_elsewhere mem dest ch count a :
  a < dest \/ dest + count <= a -> fst (memset mem dest ch count) a = mem a.
Proof.
  intros H. unfold memset. simpl.
  destruct (dest <=? a) eqn:Hlo; [| reflexivity].
  destruct (a <? dest + count) eqn:Hhi; [| reflexivity].
  apply Z.leb_le in Hlo. apply Z.ltb_lt in Hhi. lia.
Qed.

(** What [Allocate] does when [mmap] succeeds. *)
Lemma Allocate_success os size out st addr :
  mmap os fixed_capacity_ mmap_prot mmap_flags = Some addr ->
  exists st',
    Allocate os size out st = (OK, Some addr, st')
    /\ memory st' = fst (memset (memory st) addr 0 fixed_capacity_)
    /\ mapped st' = <[addr := fixed_capacity_]> (mapped st)
    /\ allocations st' = <[addr := fixed_capacity_]> (allocations st).
Proof.
  intros Hmap. unfold Allocate. rewrite Hmap. unfold memset at 1.
  rewrite Z.eqb_refl. simpl. eexists. split; [reflexivity |]. simpl. auto.
Qed.

(** What [Allocate] does when [mmap] fails: an error, [*out] untouched,
    nothing recorded. *)
Lemma Allocate_failure os size out st :
  mmap os fixed_capacity_ mmap_prot mmap_flags = None ->
  exists st',
    fst (Allocate os size out st) = (Err OpaeError
      ("OpaeAllocator unable to allocate huge page buffer. " ++ "Errno: "
       ++ to_string (errno os) ++ " : " ++ strerror os (errno os))%string, out)
    /\ snd (Allocate os size out st) = st'
    /\ allocations st' = allocations st /\ memory st' = memory st.
Proof.
  intros Hmap. unfold Allocate. rewrite Hmap. simpl. eauto.
Qed.

(** C10. Whatever size is asked for, a successful [Allocate] hands out a
    buffer of [opae_fixed_capacity] bytes, one GiB: that much is mapped and
    recorded for the address handed out, and all its bytes are zero.
    [Free] returns OK for every buffer and leaves the mapping, the
    recorded allocations and the memory as they are. *)
Theorem Allocate_fixed_capacity_Free_keeps :
  (forall os size out st addr,
      mmap os opae_fixed_capacity mmap_prot mmap_flags = Some addr ->
      exists st',
        Allocate os size out st = (OK, Some addr, st')
        /\ mapped st' !! addr = Some opae_fixed_capacity
        /\ allocations st' !! addr = Some opae_fixed_capacity
        /\ zeroed st' addr opae_fixed_capacity
        /\ opae_fixed_capacity = 1073741824)
  /\ (forall buffer st,
        fst (Free buffer st) = OK
        /\ mapped (snd (Free buffer st)) = mapped st
        /\ allocations (snd (Free buffer st)) = allocations st
        /\ memory (snd (Free buffer st)) = memory st).
Proof.
  split.
  - intros os size out st addr Hmap.
    destruct (Allocate_success os size out st addr Hmap)
      as (st' & Hrun & Hmem & Hmapped & Halloc).
    exists st'. split; [exact Hrun |].
    rewrite Hmapped, Halloc. rewrite !lookup_insert_eq.
    repeat split; try reflexivity.
    intros a Ha. rewrite Hmem. now apply memset_zeroes.
  - intros buffer st. unfold Free. simpl. auto.
Qed.
End OpaeAllocatorFacts.

Lemma Allocate_fixed_capacity_Free_keeps_witness :
  exists st',
    OpaeAllocator.Allocate Inputs.os_huge_pages 4096 None Inputs.fresh_allocator
    = (OK, Some 70368744177664, st')
    /\ OpaeAllocator.allocations st' !! 70368744177664 = Some 1073741824
    /\ OpaeAllocator.zeroed st' 70368744177664 1073741824.
Proof.
  destruct (proj1 Allocate_fixed_capacity_Free_keeps Inputs.os_huge_pages 4096 None
              Inputs.fresh_allocator 70368744177664 eq_refl)
    as (st' & Hrun & _ & Halloc & Hzero & _).
  exists st'. repeat split; assumption.
Defined.

(** ** Arrow *)

Section ArrowFacts.
Import Arrow Props.

Lemma zrange_length n : 0 <= n -> Z.of_nat (length (zrange n)) = n.
Proof. intros H. unfold zrange. rewrite length_map, length_seq. lia. Qed.

Lemma zrange_nonpositive n : n <= 0 -> zrange n = [].
Proof.
  intros H. unfold zrange. replace (Z.to_nat n) with 0%nat by lia. reflexivity.
Qed.

Lemma zrange_succ n : 0 <= n -> zrange (n + 1) = 0 :: map Z.succ (zrange n).
Proof.
  intros H. unfold zrange.
  replace (Z.to_nat (n + 1)) with (S (Z.to_nat n)) by lia.
  simpl. f_equal. rewrite <- seq_shift, !map_map.
  apply map_ext. intros i. lia.
Qed.

Lemma range_values_empty r : last r < first r -> range_values r = [].
Proof. intros H. unfold range_values. now rewrite zrange_nonpositive by lia. Qed.

Lemma range_values_cons s l :
  s <= l ->
  range_values {| first := s; last := l |}
  = s :: range_values {| first := s + 1; last := l |}.
Proof.
  intros H. unfold range_values. simpl.
  replace (l - s + 1) with (l - (s + 1) + 1 + 1) by lia.
  rewrite zrange_succ by lia. simpl. f_equal; [lia |].
  rewrite map_map. apply map_ext. intros i. lia.
Qed.

Lemma range_values_length r :
  first r <= last r -> Z.of_nat (length (range_values r)) = last r - first r + 1.
Proof. intros H. unfold range_values. rewrite length_map. apply zrange_length. lia. Qed.

(** A column added in front. *)
Lemma AddColumn_front b name column b' :
  AddColumn b 0 name column = ROk b' ->
  array_length column = num_rows b
  /\ fields (schema b')
     = {| field_name := name; field_type := array_type column; nullable := true |}
       :: fields (schema b)
  /\ metadata (schema b') = metadata (schema b)
  /\ columns b' = column :: columns b
  /\ num_rows b' = num_rows b.
Proof.
  unfold AddColumn.
  destruct (array_length column =? num_rows b) eqn:Hlen; simpl; [| discriminate].
  destruct (Z.of_nat (length (fields (schema b))) <? 0); simpl; [discriminate |].
  intros [= <-]. simpl. apply Z.eqb_eq in Hlen. auto.
Qed.

Lemma AddColumn_front_ok b name column :
  array_length column = num_rows b ->
  exists b', AddColumn b 0 name column = ROk b'.
Proof.
  intros Hlen. unfold AddColumn. rewrite Hlen, Z.eqb_refl. simpl.
  assert ((Z.of_nat (length (fields (schema b))) <? 0) = false) as ->
    by (apply Z.ltb_ge; lia).
  eauto.
Qed.

Lemma kv_get_set_eq k v m : kv_get k (kv_set k v m) = Some v.
Proof.
  induction m as [| [k' v'] m IH]; simpl.
  - now rewrite String.eqb_refl.
  - destruct (String.eqb k' k) eqn:Hk; simpl.
    + now rewrite String.eqb_refl.
    + now rewrite Hk.
Qed.

Lemma kv_get_set_ne k k' v m : k <> k' -> kv_get k' (kv_set k v m) = kv_get k' m.
Proof.
  intros Hne. induction m as [| [k0 v0] m IH]; simpl.
  - destruct (String.eqb k k') eqn:Hk; [apply String.eqb_eq in Hk; contradiction |].
    reflexivity.
  - destruct (String.eqb k0 k) eqn:Hk0; simpl.
    + apply String.eqb_eq in Hk0. subst k0.
      destruct (String.eqb k k') eqn:Hk; [apply String.eqb_eq in Hk; contradiction |].
      reflexivity.
    + now rewrite IH.
Qed.

(** The sequence range in the metadata, and nothing else changed. *)
Lemma AddSeqAsSchemaMeta_spec b r :
  fields (schema (AddSeqAsSchemaMeta b r)) = fields (schema b)
  /\ columns (AddSeqAsSchemaMeta b r) = columns b
  /\ num_rows (AddSeqAsSchemaMeta b r) = num_rows b
  /\ kv_get "bolson_seq_first" (metadata (schema (AddSeqAsSchemaMeta b r)))
     = Some (to_string (first r))
  /\ kv_get "bolson_seq_last" (metadata (schema (AddSeqAsSchemaMeta b r)))
     = Some (to_string (last r)).
Proof.
  unfold AddSeqAsSchemaMeta. simpl. repeat split.
  - rewrite kv_get_set_ne by discriminate. apply kv_get_set_eq.
  - apply kv_get_set_eq.
Qed.
End ArrowFacts.

(** ** The FPGA battery parser *)

Section FpgaFacts.
Import Arrow Fpga Props.
Variables default_regs range_regs_per_inst : Z.
Variables in_addr_regs_per_inst out_addr_regs_per_inst : Z.
Variables ctrl_reset ctrl_start stat_done : Z.
Variable WithMetaRequired : Schema -> string -> FletcherMode -> Schema.
Variable raw_json_input_schema : Schema.

Local Abbreviation custom_regs_offset :=
  (Fpga.custom_regs_offset default_regs range_regs_per_inst in_addr_regs_per_inst
     out_addr_regs_per_inst).
Local Abbreviation status_offset := (fun idx => custom_regs_offset idx + 1).
Local Abbreviation result_rows_offset_lo := (fun idx => custom_regs_offset idx + 2).
Local Abbreviation result_rows_offset_hi := (fun idx => custom_regs_offset idx + 3).
Local Abbreviation output_schema := (Fpga.output_schema WithMetaRequired).
Local Abbreviation poll_until_done :=
  (Fpga.poll_until_done default_regs range_regs_per_inst in_addr_regs_per_inst
     out_addr_regs_per_inst stat_done).
Local Abbreviation ParseOne :=
  (Fpga.ParseOne default_regs range_regs_per_inst in_addr_regs_per_inst
     out_addr_regs_per_inst ctrl_reset ctrl_start stat_done WithMetaRequired).
Local Abbreviation Init :=
  (Fpga.Init default_regs range_regs_per_inst in_addr_regs_per_inst).
Local Abbreviation Make :=
  (Fpga.Make default_regs range_regs_per_inst in_addr_regs_per_inst WithMetaRequired
     raw_json_input_schema).

(** *** The sequence number loop *)

Lemma wrap64_small z : 0 <= z <= UINT64_MAX -> wrap64 z = z.
Proof. unfold wrap64, UINT64_MAX. intros H. apply Z.mod_small. lia. Qed.

Lemma wrap64_range z : is_uint64 (wrap64 z).
Proof.
  unfold is_uint64, wrap64, UINT64_MAX.
  pose proof (Z.mod_pos_bound z (2 ^ 64)). lia.
Qed.

(** With the largest sequence number as upper end the loop condition is
    always true. *)
Lemma append_seq_max_never_ends fuel : forall s values,
  is_uint64 s -> append_seq fuel s UINT64_MAX values = None.
Proof.
  induction fuel as [| fuel IH]; intros s values Hs; simpl; [reflexivity |].
  assert ((s <=? UINT64_MAX) = true) as -> by (apply Z.leb_le; apply Hs).
  apply IH, wrap64_range.
Qed.

(** If the loop ends, it has appended [s, s+1, ..., last_]. *)
Lemma append_seq_result fuel : forall s last_ values r,
  is_uint64 s -> is_uint64 last_ ->
  append_seq fuel s last_ values = Some r ->
  r = values ++ range_values {| first := s; last := last_ |}.
Proof.
  induction fuel as [| fuel IH]; intros s last_ values r Hs Hl; simpl; [discriminate |].
  destruct (s <=? last_) eqn:Hcmp.
  - apply Z.leb_le in Hcmp. intros Hrun.
    destruct (Z.eq_dec last_ UINT64_MAX) as [-> | Hne].
    + rewrite append_seq_max_never_ends in Hrun by apply wrap64_range. discriminate.
    + rewrite wrap64_small in Hrun by (unfold is_uint64 in *; lia).
      apply IH in Hrun; [| unfold is_uint64 in *; lia | exact Hl].
      rewrite Hrun, <- app_assoc. simpl. now rewrite (range_values_cons s last_).
  - apply Z.leb_gt in Hcmp. intros [= <-].
    rewrite range_values_empty by (simpl; lia). now rewrite app_nil_r.
Qed.

(** Below the largest sequence number the loop ends after one test more
    than there are numbers in the range. *)
Lemma append_seq_ends last_ : forall n s values fuel,
  0 <= s -> last_ < UINT64_MAX -> Z.of_nat n = last_ - s + 1 -> (n < fuel)%nat ->
  append_seq fuel s last_ values
  = Some (values ++ range_values {| first := s; last := last_ |}).
Proof.
  induction n as [| n IH]; intros s values fuel Hs Hl Hn Hfuel;
    (destruct fuel as [| fuel]; [lia |]); simpl.
  - assert ((s <=? last_) = false) as -> by (apply Z.leb_gt; lia).
    rewrite range_values_empty by (simpl; lia). now rewrite app_nil_r.
  - assert ((s <=? last_) = true) as -> by (apply Z.leb_le; lia).
    rewrite wrap64_small by lia.
    rewrite IH by lia. rewrite <- app_assoc. simpl.
    now rewrite (range_values_cons s last_) by lia.
Qed.

(** *** Polling *)

Lemma poll_until_done_ends p idx : forall j fuel reads,
  Z.land (ReadMMIO p (reads + j)%nat (status_offset idx)) stat_done = stat_done ->
  (j < fuel)%nat ->
  exists reads', poll_until_done fuel p idx reads = Some reads'.
Proof.
  induction j as [| j IH]; intros fuel reads Hdone Hfuel;
    (destruct fuel as [| fuel]; [lia |]); simpl; unfold Fpga.status_offset.
  - rewrite Nat.add_0_r in Hdone. rewrite Hdone, Z.eqb_refl. simpl. eauto.
  - destruct (Z.land _ stat_done =? stat_done); simpl; [eauto |].
    apply IH; [now rewrite Nat.add_succ_l, <- Nat.add_succ_r | lia].
Qed.

(** *** WrapOutput *)

Lemma WrapOutput_result p num_rows offsets values schema_ b :
  WrapOutput p num_rows offsets values schema_ = Some b ->
  schema b = schema_ /\ Arrow.num_rows b = num_rows
  /\ exists voltage, columns b = [voltage].
Proof.
  unfold WrapOutput. destruct (FromArrays _ _) as [a | m]; [| discriminate].
  intros [= <-]. simpl. eauto.
Qed.

Lemma WrapOutput_ok p num_rows offsets values schema_ :
  0 <= num_rows -> exists b, WrapOutput p num_rows offsets values schema_ = Some b.
Proof.
  intros H. unfold WrapOutput, FromArrays.
  rewrite length_map. rewrite zrange_succ by exact H. simpl. eauto.
Qed.

(** *** ParseOne *)

Lemma prepare_seq_result fuel bld self in_ seq :
  is_uint64 (first (range in_)) -> is_uint64 (last (range in_)) ->
  prepare_seq fuel bld self in_ = Some (inr seq) ->
  seq = if p_seq_column self
        then Some (UInt64Array (range_values (range in_)))
        else None.
Proof.
  intros Hf Hl. unfold prepare_seq, roe.
  destruct (p_seq_column self); [| now intros [= <-]].
  destruct (ok (of_arrow (Reserve bld _))); simpl; [| discriminate].
  destruct (append_seq _ _ _ _) as [values |] eqn:Hloop; [| discriminate].
  destruct (ok (of_arrow (Finish bld))); simpl; [| discriminate].
  intros [= <-]. apply append_seq_result in Hloop; [| assumption ..].
  rewrite Hloop. simpl. now destruct (range in_).
Qed.

(** Whenever [ParseOne] hands out a batch, the batch carries the sequence
    range of the buffer in the way [seq_column] asks for. *)
Lemma ParseOne_result fuel p bld self in_ pb :
  is_uint64 (first (range in_)) -> is_uint64 (last (range in_)) ->
  ParseOne fuel p bld self in_ = Some (inr pb) ->
  carries_seq_range (p_seq_column self) output_schema (range in_) pb.
Proof.
  intros Hf Hl. unfold Fpga.ParseOne, roe.
  repeat match goal with
         | |- context [negb (ok (WriteMMIO p ?o ?v))] =>
             destruct (ok (WriteMMIO p o v)); simpl; [| discriminate]
         end.
  destruct (prepare_seq fuel bld self in_) as [[e | seq] |] eqn:Hseq;
    [discriminate | | discriminate].
  apply prepare_seq_result in Hseq; [| assumption ..].
  destruct (Fpga.poll_until_done _ _ _ _ _ _ _ _ _) as [reads |]; [| discriminate].
  destruct (WrapOutput _ _ _ _ _) as [out_batch |] eqn:Hwrap; [| discriminate].
  apply WrapOutput_result in Hwrap as (Hschema & _ & voltage & Hcols).
  destruct (p_seq_column self).
  - subst seq.
    destruct (AddColumn out_batch 0 "bolson_seq" _) as [final_batch | m] eqn:Hadd;
      [| discriminate].
    intros [= <-]. apply AddColumn_front in Hadd as (_ & Hfields & _ & Hcolumns & _).
    split; [reflexivity |]. exists voltage. simpl.
    rewrite Hfields, Hcolumns, Hschema, Hcols. split; reflexivity.
  - intros [= <-].
    destruct (AddSeqAsSchemaMeta_spec out_batch (range in_))
      as (Hfields & Hcolumns & _ & Hfirst & Hlast).
    split; [reflexivity |]. exists voltage. cbn [batch].
    rewrite Hfields, Hcolumns, Hschema, Hcols. auto.
Qed.

(** [ParseOne] does hand out a batch when the hardware plays along: the
    register writes work, the status register shows "done" at some poll,
    the number of rows reported is the number of JSONs in the buffer, the
    builder has room, and the range ends below the largest [uint64_t]. *)
Lemma ParseOne_returns fuel p bld self in_ k :
  0 <= first (range in_) -> first (range in_) <= last (range in_) ->
  last (range in_) < UINT64_MAX ->
  (forall offset value, WriteMMIO p offset value = OK) ->
  (forall n, Reserve bld n = OK) -> Finish bld = OK ->
  Z.land (ReadMMIO p k (status_offset (idx_ self))) stat_done = stat_done ->
  (forall reads,
      to_int32 (dau_full (ReadMMIO p reads (result_rows_offset_lo (idx_ self)))
                         (ReadMMIO p reads (result_rows_offset_hi (idx_ self))))
      = last (range in_) - first (range in_) + 1) ->
  (k < fuel)%nat ->
  (Z.to_nat (last (range in_) - first (range in_) + 1) < fuel)%nat ->
  exists pb, ParseOne fuel p bld self in_ = Some (inr pb).
Proof.
  intros Hf Hfl Hl Hw Hres Hfin Hdone Hrows Hk Hfuel.
  unfold Fpga.ParseOne, roe. rewrite !Hw. simpl.
  assert (exists seq, prepare_seq fuel bld self in_ = Some (inr seq)
                      /\ (p_seq_column self = true ->
                          seq = Some (UInt64Array (range_values (range in_)))))
    as (seq & -> & Hseq).
  { unfold prepare_seq, roe.
    destruct (p_seq_column self); [| eexists; split; [reflexivity | discriminate]].
    rewrite Hres, Hfin. simpl.
    rewrite (append_seq_ends (last (range in_))
               (Z.to_nat (last (range in_) - first (range in_) + 1)))
      by lia.
    simpl. eexists. split; [reflexivity |]. intros _. now destruct (range in_). }
  destruct (poll_until_done_ends p (idx_ self) k fuel 0%nat Hdone Hk) as (reads & ->).
  unfold Fpga.result_rows_offset_lo, Fpga.result_rows_offset_hi. rewrite Hrows.
  destruct (WrapOutput_ok p (last (range in_) - first (range in_) + 1)
              (raw_out_offsets self) (raw_out_values self) output_schema)
    as (out_batch & Hwrap); [lia |].
  rewrite Hwrap. apply WrapOutput_result in Hwrap as (_ & Hrows' & _).
  destruct (p_seq_column self); [| eauto].
  rewrite (Hseq eq_refl).
  destruct (AddColumn_front_ok out_batch "bolson_seq"
              (UInt64Array (range_values (range in_)))) as (final_batch & ->).
  { simpl. rewrite range_values_length by lia. now rewrite Hrows'. }
  eauto.
Qed.

(** At the largest sequence number the loop over the range never ends:
    with [seq_column], a buffer whose range ends at [2^64 - 1] gets no
    batch. *)
Lemma ParseOne_max_sequence_number fuel p bld self in_ pb :
  p_seq_column self = true ->
  is_uint64 (first (range in_)) -> last (range in_) = UINT64_MAX ->
  ParseOne fuel p bld self in_ <> Some (inr pb).
Proof.
  intros Hcol Hf Hl. unfold Fpga.ParseOne, roe.
  repeat match goal with
         | |- context [negb (ok (WriteMMIO p ?o ?v))] =>
             destruct (ok (WriteMMIO p o v)); simpl; [| discriminate]
         end.
  unfold prepare_seq, roe. rewrite Hcol, Hl.
  destruct (ok (of_arrow (Reserve bld _))); simpl; [| discriminate].
  rewrite append_seq_max_never_ends by exact Hf. discriminate.
Qed.

(** C5. The batch that [ParseOne] hands out for a buffer with sequence
    range [first, last]: with [seq_column] its first column is
    [bolson_seq], of type [uint64], with the values [first, first+1, ...,
    last] in this order, in front of the parsed column; without
    [seq_column] it has the parsed column only and the range is in the
    metadata of the schema ([bolson_seq_first], [bolson_seq_last]). This
    holds for every batch handed out, and a batch is handed out whenever
    the hardware and the builder do their part and [last] is below the
    largest [uint64_t]. *)
Theorem ParseOne_sequence_numbers p bld self in_ :
  is_uint64 (first (range in_)) -> is_uint64 (last (range in_)) ->
  (forall fuel pb,
      ParseOne fuel p bld self in_ = Some (inr pb) ->
      carries_seq_range (p_seq_column self) output_schema (range in_) pb)
  /\ (forall k fuel,
        first (range in_) <= last (range in_) ->
        last (range in_) < UINT64_MAX ->
        (forall offset value, WriteMMIO p offset value = OK) ->
        (forall n, Reserve bld n = OK) -> Finish bld = OK ->
        Z.land (ReadMMIO p k (status_offset (idx_ self))) stat_done = stat_done ->
        (forall reads,
            to_int32 (dau_full (ReadMMIO p reads (result_rows_offset_lo (idx_ self)))
                               (ReadMMIO p reads (result_rows_offset_hi (idx_ self))))
            = last (range in_) - first (range in_) + 1) ->
        (k < fuel)%nat ->
        (Z.to_nat (last (range in_) - first (range in_) + 1) < fuel)%nat ->
        exists pb, ParseOne fuel p bld self in_ = Some (inr pb)).
Proof.
  intros Hf Hl. split.
  - intros fuel pb. now apply ParseOne_result.
  - intros k fuel Hfl Hmax Hw Hres Hfin Hdone Hrows Hk Hfuel.
    apply (ParseOne_returns fuel p bld self in_ k); try assumption. apply Hf.
Qed.

(** *** Init and Make *)

Lemma Init_rejects_index p self :
  256 <= idx_ self ->
  Init p self = Err FletcherError "Hardware does not allow more than 256 parser instances.".
Proof.
  intros H. unfold Fpga.Init.
  assert ((idx_ self >=? 256) = true) as -> by (apply Z.geb_le; lia). reflexivity.
Qed.

Lemma Make_rejects rt p opts input_size out :
  256 < num_parsers opts ->
  Make rt p opts input_size out
  = (Err FletcherError "Hardware does not allow more than 256 parser instances.",
     out, []).
Proof.
  intros H. unfold Fpga.Make.
  assert ((num_parsers opts >? 256) = true) as -> by (apply Z.gtb_lt; lia). reflexivity.
Qed.

(** The parser that [PrepareParsers] makes for index [i]. *)
Local Abbreviation parser_at := (fun n seq_col raw_offsets raw_values (i : nat) =>
  {| idx_ := Z.of_nat i; p_num_parsers := n;
     raw_out_offsets := nth i raw_offsets 0;
     raw_out_values := nth i raw_values 0;
     p_seq_column := seq_col |}).

Lemma PrepareParsers_loop_spec p n seq_col raw_offsets raw_values :
  forall is_ parsers,
    Fpga.PrepareParsers_loop default_regs range_regs_per_inst in_addr_regs_per_inst
      p n seq_col raw_offsets raw_values is_ parsers
    = (OK, parsers ++ map (parser_at n seq_col raw_offsets raw_values) is_).
Proof.
  induction is_ as [| i is_ IH]; intros parsers; simpl.
  - now rewrite app_nil_r.
  - rewrite IH, <- app_assoc. reflexivity.
Qed.

Lemma PrepareOutputBatches_loop_ok rt offsets_cap values_cap :
  (forall calls n, fst (Allocate rt calls n) = OK) ->
  forall is_ calls acc,
    fst (Fpga.PrepareOutputBatches_loop WithMetaRequired rt offsets_cap values_cap
           is_ calls acc) = OK.
Proof.
  intros Hal. induction is_ as [| i is_ IH]; intros calls acc; simpl; [reflexivity |].
  pose proof (Hal calls offsets_cap) as H1.
  destruct (Allocate rt calls offsets_cap) as [s1 offsets]. simpl in H1. subst s1.
  pose proof (Hal (S calls) values_cap) as H2.
  destruct (Allocate rt (S calls) values_cap) as [s2 values]. simpl in H2. subst s2.
  simpl. destruct acc as [[raw_offsets raw_values] batches]. apply IH.
Qed.

Lemma QueueRecordBatches_ok rt batches :
  (forall b, QueueRecordBatch rt b = OK) -> Fpga.QueueRecordBatches rt batches = OK.
Proof.
  intros Hq. induction batches as [| b rest IH]; simpl; [reflexivity |].
  now rewrite Hq.
Qed.

(** With at most 256 parsers asked for and the platform, the allocations
    and Fletcher working, [Make] hands out a context with one parser for
    each of the indices [0, ..., num_parsers - 1]; these are all the
    parsers it constructs. *)
Lemma Make_constructs rt p opts input_size out :
  0 <= num_parsers opts <= 256 ->
  Platform_Make rt = OK -> Platform_Init rt = OK ->
  (forall n c, fst (AllocateBuffers rt n c) = OK) ->
  Context_Make rt = OK ->
  (forall calls n, fst (Allocate rt calls n) = OK) ->
  (forall b, QueueRecordBatch rt b = OK) ->
  Context_Enable rt = OK ->
  (forall s, fst (WithSeqField rt s) = OK) ->
  exists ctx,
    Make rt p opts input_size out = (OK, Some ctx, parsers_ ctx)
    /\ num_parsers_ ctx = num_parsers opts
    /\ map idx_ (parsers_ ctx) = zrange (num_parsers opts)
    /\ Z.of_nat (length (parsers_ ctx)) = num_parsers opts.
Proof.
  intros Hn HPm HPi Hbuf HCm Hal Hq Hen Hws. unfold Fpga.Make.
  assert ((num_parsers opts >? 256) = false) as ->
    by (rewrite Z.gtb_ltb; apply Z.ltb_ge; lia).
  rewrite HPm, HPi, HCm, Hen. simpl.
  pose proof (Hbuf (num_parsers opts)
                (DivideCeil rt input_size (num_parsers opts))) as Hb.
  destruct (AllocateBuffers rt _ _) as [s buffers]. simpl in Hb. subst s. simpl.
  unfold Fpga.PrepareOutputBatches.
  pose proof (PrepareOutputBatches_loop_ok rt (out_offset_buffer_capacity opts)
                (out_values_buffer_capacity opts) Hal
                (seq 0 (Z.to_nat (num_parsers opts))) 0%nat ([], [], [])) as Ho.
  destruct (Fpga.PrepareOutputBatches_loop _ _ _ _ _ _ _)
    as [s [[raw_offsets raw_values] b_out]].
  simpl in Ho. subst s. simpl.
  rewrite !QueueRecordBatches_ok by exact Hq. simpl.
  unfold Fpga.PrepareParsers. rewrite PrepareParsers_loop_spec. simpl.
  destruct (seq_column opts).
  - pose proof (Hws output_schema) as Hw.
    destruct (WithSeqField rt _) as [s with_seq]. simpl in Hw. subst s. simpl.
    match goal with |- exists ctx, (_, Some ?c, _) = _ /\ _ => exists c end.
    simpl. rewrite map_map, length_map, length_seq. simpl.
    repeat split. lia.
  - match goal with |- exists ctx, (_, Some ?c, _) = _ /\ _ => exists c end.
    simpl. rewrite map_map, length_map, length_seq. simpl.
    repeat split. lia.
Qed.
End FpgaFacts.

Lemma ParseOne_sequence_numbers_witness :
  exists pb,
    Inputs.fpga_ParseOne 10 true Inputs.json_buffer = Some (inr pb)
    /\ Props.carries_seq_range true (Fpga.output_schema Inputs.WithMetaRequired)
         {| first := 10; last := 13 |} pb.
Proof.
  assert (Props.is_uint64 10) as H10 by (vm_compute; split; discriminate).
  assert (Props.is_uint64 13) as H13 by (vm_compute; split; discriminate).
  destruct (ParseOne_sequence_numbers Inputs.default_regs Inputs.range_regs_per_inst
              Inputs.in_addr_regs_per_inst Inputs.out_addr_regs_per_inst
              Inputs.ctrl_reset Inputs.ctrl_start Inputs.stat_done
              Inputs.WithMetaRequired Inputs.fpga_platform Inputs.builder_ok
              (Inputs.fpga_parser true) Inputs.json_buffer H10 H13)
    as [Hshape Hreturns].
  destruct (Hreturns 2%nat 10%nat) as [pb Hpb];
    [ vm_compute; discriminate | reflexivity | reflexivity | reflexivity | reflexivity
    | reflexivity | reflexivity | lia | vm_compute; lia | ].
  exists pb. split; [exact Hpb |]. exact (Hshape 10%nat pb Hpb).
Defined.

(** The columns for the JSONs number 10 to 13, with and without the
    sequence number column. *)
Example ParseOne_columns_with_seq_column :
  option_map (fun r => match r with
                       | inl _ => []
                       | inr pb => Arrow.columns (batch pb)
                       end)
    (Inputs.fpga_ParseOne 10 true Inputs.json_buffer)
  = Some [Arrow.UInt64Array [10; 11; 12; 13];
          Arrow.ListArray [0; 3; 6; 9; 12]
            [3300; 3301; 3302; 3303; 3304; 3305; 3306; 3307; 3308; 3309; 3310; 3311]].
Proof. reflexivity. Qed.

Example ParseOne_metadata_without_seq_column :
  option_map (fun r => match r with
                       | inl _ => []
                       | inr pb => Arrow.metadata (Arrow.schema (batch pb))
                       end)
    (Inputs.fpga_ParseOne 10 false Inputs.json_buffer)
  = Some [("fletcher_name", "output"); ("fletcher_mode", "write");
          ("bolson_seq_first", "10"); ("bolson_seq_last", "13")].
Proof. reflexivity. Qed.

(** ** The OPAE battery parser context *)

Section OpaeFacts.
Import Opae.

(** Without an AFU ID, more than 255 parsers are refused. *)
Lemma Make_refuses_to_derive rt opts out :
  afu_id opts = "" -> 255 < num_parsers opts ->
  Make rt opts out
  = (Err OpaeError
       "Auto-deriving AFU ID for number of parsers larger than 255 is not supported.",
     out, []).
Proof.
  intros Hid Hn. unfold Make. rewrite Hid. simpl.
  assert ((num_parsers opts >? 255) = true) as -> by (apply Z.gtb_lt; lia).
  reflexivity.
Qed.

(** With an AFU ID the number of parsers is not looked at. *)
Lemma Make_with_afu_id rt opts out :
  afu_id opts <> "" -> Platform_Make rt = OK -> Platform_Init rt = OK ->
  Make rt opts out
  = (OK, Some {| opts_ := opts; num_parsers_ := num_parsers opts; parsers_ := [] |}, []).
Proof.
  intros Hid HPm HPi. unfold Make.
  destruct (String.eqb (afu_id opts) "") eqn:Heq;
    [apply String.eqb_eq in Heq; contradiction |].
  rewrite HPm, HPi. simpl. now destruct opts.
Qed.

(** The two Fletcher calls of [Make], each of which may fail. *)
Ltac platform_cases rt :=
  destruct (of_fletcher (Platform_Make rt)); simpl;
    [| split; [reflexivity | discriminate]];
  destruct (of_fletcher (Platform_Init rt)); simpl;
    [| split; [reflexivity | discriminate]];
  split; [reflexivity | intros _; eexists; repeat split].

(** [Make] constructs no parsers, and the context it hands out has none. *)
Lemma Make_constructs_no_parsers rt opts out :
  snd (Make rt opts out) = []
  /\ (ok (fst (fst (Make rt opts out))) = true ->
      exists ctx, snd (fst (Make rt opts out)) = Some ctx
                  /\ parsers_ ctx = [] /\ num_parsers_ ctx = num_parsers opts).
Proof.
  unfold Make.
  destruct (String.eqb (afu_id opts) ""); [| platform_cases rt].
  destruct (num_parsers opts >? 255); [| platform_cases rt].
  simpl. split; [reflexivity | discriminate].
Qed.
End OpaeFacts.

(** C9 as stated fails for the OPAE context: with an AFU ID supplied,
    [Make] accepts 300 parsers; it constructs no parser for 4 parsers; and
    without an AFU ID it refuses 256 parsers. *)
Lemma opae_Make_parser_count :
  Opae.Make Inputs.opae_runtime
    {| Opae.afu_id := "9ca43fb0-c340-4908-b79b-5c89b4ef5e12"; Opae.num_parsers := 300 |}
    None
  = (OK,
     Some {| Opae.opts_ := {| Opae.afu_id := "9ca43fb0-c340-4908-b79b-5c89b4ef5e12";
                              Opae.num_parsers := 300 |};
             Opae.num_parsers_ := 300; Opae.parsers_ := [] |},
     [])
  /\ Opae.Make Inputs.opae_runtime {| Opae.afu_id := ""; Opae.num_parsers := 4 |} None
     = (OK,
        Some {| Opae.opts_ := {| Opae.afu_id := "9ca43fb0-c340-4908-b79b-5c89b4ef5e04";
                                 Opae.num_parsers := 4 |};
                Opae.num_parsers_ := 4; Opae.parsers_ := [] |},
        [])
  /\ ok (fst (fst (Opae.Make Inputs.opae_runtime
                     {| Opae.afu_id := ""; Opae.num_parsers := 256 |} None))) = false.
Proof. repeat split. Qed.

(** C9, amended. The FPGA context: [Make] returns an error and constructs
    nothing when more than 256 parsers are asked for; with at most 256 and
    the platform, the allocations and Fletcher working it constructs one
    parser for each index below [num_parsers], and hands them out in the
    context; [BatteryParser::Init] fails for an index of 256 or more. The
    OPAE context: [Make] returns an error when no AFU ID is given and more
    than 255 parsers are asked for, accepts any number of parsers when an
    AFU ID is given and the platform works, and never constructs a parser. *)
Theorem BatteryParserContext_Make_parser_limits :
  (forall default_regs range_regs_per_inst in_addr_regs_per_inst WithMetaRequired
          raw_json_input_schema rt p opts input_size out,
      let Make := Fpga.Make default_regs range_regs_per_inst in_addr_regs_per_inst
                    WithMetaRequired raw_json_input_schema in
      (256 < Fpga.num_parsers opts ->
       ok (fst (fst (Make rt p opts input_size out))) = false
       /\ snd (fst (Make rt p opts input_size out)) = out
       /\ snd (Make rt p opts input_size out) = [])
      /\ (0 <= Fpga.num_parsers opts <= 256 ->
          Fpga.Platform_Make rt = OK -> Fpga.Platform_Init rt = OK ->
          (forall n c, fst (Fpga.AllocateBuffers rt n c) = OK) ->
          Fpga.Context_Make rt = OK ->
          (forall calls n, fst (Fpga.Allocate rt calls n) = OK) ->
          (forall b, Fpga.QueueRecordBatch rt b = OK) ->
          Fpga.Context_Enable rt = OK ->
          (forall s, fst (Fpga.WithSeqField rt s) = OK) ->
          exists ctx,
            Make rt p opts input_size out = (OK, Some ctx, Fpga.parsers_ ctx)
            /\ Z.of_nat (length (Fpga.parsers_ ctx)) = Fpga.num_parsers opts
            /\ map Fpga.idx_ (Fpga.parsers_ ctx) = Arrow.zrange (Fpga.num_parsers opts))
      /\ (forall self,
            256 <= Fpga.idx_ self ->
            ok (Fpga.Init default_regs range_regs_per_inst in_addr_regs_per_inst p self)
            = false))
  /\ (forall rt opts out,
        (Opae.afu_id opts = "" -> 255 < Opae.num_parsers opts ->
         ok (fst (fst (Opae.Make rt opts out))) = false)
        /\ (Opae.afu_id opts <> "" ->
            Opae.Platform_Make rt = OK -> Opae.Platform_Init rt = OK ->
            ok (fst (fst (Opae.Make rt opts out))) = true)
        /\ snd (Opae.Make rt opts out) = []
        /\ (ok (fst (fst (Opae.Make rt opts out))) = true ->
            exists ctx, snd (fst (Opae.Make rt opts out)) = Some ctx
                        /\ Opae.parsers_ ctx = [])).
Proof.
  split.
  - intros dr rr ia wmr rjs rt p opts input_size out Make. subst Make.
    split; [| split].
    + intros Hn. now rewrite Make_rejects.
    + intros Hn HPm HPi Hbuf HCm Hal Hq Hen Hws.
      destruct (Make_constructs dr rr ia wmr rjs rt p opts input_size out
                  Hn HPm HPi Hbuf HCm Hal Hq Hen Hws) as (ctx & Hrun & _ & Hidx & Hlen).
      eauto.
    + intros self Hidx. now rewrite Init_rejects_index.
  - intros rt opts out. split; [| split; [| split]].
    + intros Hid Hn. now rewrite Make_refuses_to_derive.
    + intros Hid HPm HPi. now rewrite Make_with_afu_id.
    + apply Make_constructs_no_parsers.
    + intros Hok. destruct (proj2 (Make_constructs_no_parsers rt opts out) Hok)
        as (ctx & Hctx & Hnone & _).
      eauto.
Qed.

Lemma BatteryParserContext_Make_parser_limits_witness :
  ok (fst (fst (Inputs.fpga_Make 257))) = false
  /\ (exists ctx,
        Inputs.fpga_Make 3 = (OK, Some ctx, Fpga.parsers_ ctx)
        /\ Z.of_nat (length (Fpga.parsers_ ctx)) = 3
        /\ map Fpga.idx_ (Fpga.parsers_ ctx) = [0; 1; 2])
  /\ ok (fst (fst (Opae.Make Inputs.opae_runtime
                     {| Opae.afu_id := ""; Opae.num_parsers := 256 |} None))) = false.
Proof.
  destruct BatteryParserContext_Make_parser_limits as [Hfpga Hopae].
  split; [| split].
  - apply (Hfpga Inputs.default_regs Inputs.range_regs_per_inst
             Inputs.in_addr_regs_per_inst Inputs.WithMetaRequired
             Inputs.raw_json_input_schema Inputs.fpga_runtime Inputs.fpga_platform
             (Inputs.fpga_options 257) 4096 None).
    reflexivity.
  - apply (Hfpga Inputs.default_regs Inputs.range_regs_per_inst
             Inputs.in_addr_regs_per_inst Inputs.WithMetaRequired
             Inputs.raw_json_input_schema Inputs.fpga_runtime Inputs.fpga_platform
             (Inputs.fpga_options 3) 4096 None);
      try reflexivity.
    vm_compute. split; discriminate.
  - apply (Hopae Inputs.opae_runtime
             {| Opae.afu_id := ""; Opae.num_parsers := 256 |} None);
      reflexivity.
Defined.

(** * Further properties *)

(** ** Serializer *)

Section SerializerMore.
Import Serializer MoreProps.
Context {RecordBatch IpcWriteOptions : Type}.
Variable SerializeRecordBatch : RecordBatch -> IpcWriteOptions -> Result Buffer.

Local Abbreviation Serialize_loop := (Serializer.Serialize_loop SerializeRecordBatch).
Local Abbreviation Serialize := (Serializer.Serialize SerializeRecordBatch).
Local Abbreviation fits := (MoreProps.fits SerializeRecordBatch).
Local Abbreviation serialized_from := (Serializer.serialized_from SerializeRecordBatch).

Lemma Serialize_loop_fits s in_ : forall result,
  Forall (fits s) in_ -> exists out, Serialize_loop s in_ result = inr out.
Proof.
  induction in_ as [| b rest IH]; intros result Hall; simpl; [eauto |].
  inversion Hall as [| ? ? (buf & Hser & Hsize) Hrest]; subst.
  rewrite Hser.
  assert ((size buf >? max_ipc_size s) = false) as ->
    by (rewrite Z.gtb_ltb; apply Z.ltb_ge; exact Hsize).
  now apply IH.
Qed.

Lemma serialized_from_fits s in_ out :
  Forall2 (serialized_from s) in_ out -> Forall (fits s) in_.
Proof.
  induction 1 as [| b sb in_ out (Hser & Hsize & _) _ IH]; constructor; [| exact IH].
  exists (message sb). auto.
Qed.

Lemma Serialize_ok_output s in_ out :
  ok (fst (Serialize s in_ out)) = true ->
  Forall2 (serialized_from s) in_ (snd (Serialize s in_ out)).
Proof.
  unfold Serializer.Serialize.
  destruct (Serialize_loop s in_ []) as [e | result] eqn:Hloop; simpl.
  - rewrite (Serialize_loop_inl_not_ok _ _ _ _ _ Hloop). discriminate.
  - intros _. apply Serialize_loop_ok in Hloop as (new & -> & Hall). exact Hall.
Qed.

(** X1. [Serialize] returns OK exactly when every batch serializes to a
    payload within [max_ipc_size]; when it does not return OK, [*out] is
    what it was before the call. *)
Theorem Serialize_ok_iff_all_fit s in_ out :
  (ok (fst (Serialize s in_ out)) = true <-> Forall (fits s) in_)
  /\ (ok (fst (Serialize s in_ out)) = false -> snd (Serialize s in_ out) = out).
Proof.
  split; [split |].
  - intros Hok.
    apply (serialized_from_fits s in_ (snd (Serialize s in_ out))).
    now apply Serialize_ok_output.
  - intros Hall. unfold Serializer.Serialize.
    destruct (Serialize_loop_fits s in_ [] Hall) as (result & ->). reflexivity.
  - apply Serialize_failure_keeps_out.
Qed.

(** *** ByteSizeOf *)

Lemma ByteSizeOf_fold (l : list SerializedBatch) : forall acc,
  fold_left (fun result b => wrap64 (result + size (message b))) l (wrap64 acc)
  = wrap64 (acc + fold_right Z.add 0 (map (fun b => size (message b)) l)).
Proof.
  induction l as [| b l IH]; intros acc; simpl.
  - now rewrite Z.add_0_r.
  - rewrite wrap64_add_l, IH. f_equal. lia.
Qed.

(** [ByteSizeOf] is the sum of the sizes, in [size_t]. *)
Lemma ByteSizeOf_sum (l : list SerializedBatch) :
  ByteSizeOf l = wrap64 (fold_right Z.add 0 (map (fun b => size (message b)) l)).
Proof.
  unfold ByteSizeOf. change 0 with (wrap64 0) at 1. now rewrite ByteSizeOf_fold.
Qed.

Lemma sizes_bounded (l : list SerializedBatch) m :
  Forall (fun sb => size (message sb) <= m) l ->
  0 <= fold_right Z.add 0 (map (fun b => size (message b)) l) <= Z.of_nat (length l) * m.
Proof.
  induction 1 as [| sb l Hsb _ IH]; simpl; [lia |].
  assert (0 <= size (message sb)) by (unfold size; lia). lia.
Qed.

(** X2. After a successful [Serialize] the bytes counted by [ByteSizeOf] are
    the exact sum of the payload sizes, and no more than the number of
    batches times [max_ipc_size], as long as that product fits a
    [size_t]. *)
Theorem ByteSizeOf_Serialize_bounded s in_ out :
  ok (fst (Serialize s in_ out)) = true ->
  Z.of_nat (length in_) * max_ipc_size s < 2 ^ 64 ->
  let out' := snd (Serialize s in_ out) in
  ByteSizeOf out' = fold_right Z.add 0 (map (fun b => size (message b)) out')
  /\ ByteSizeOf out' <= Z.of_nat (length in_) * max_ipc_size s.
Proof.
  intros Hok Hfit out'.
  pose proof (Serialize_ok_output s in_ out Hok) as Hall.
  fold out' in Hall.
  assert (Forall (fun sb => size (message sb) <= max_ipc_size s) out') as Hsizes.
  { clear -Hall. induction Hall as [| b sb ? ? (_ & Hsize & _) _ IH]; constructor; auto. }
  assert (length out' = length in_) as Hlen by (symmetry; eapply Forall2_length; eauto).
  pose proof (sizes_bounded out' (max_ipc_size s) Hsizes) as Hb. rewrite Hlen in Hb.
  rewrite ByteSizeOf_sum. unfold wrap64. rewrite Z.mod_small by lia. lia.
Qed.
End SerializerMore.

Section SerializerMockFacts.
Import Serializer MoreProps.
Context {RecordBatch : Type}.
Variable Finish : nat -> Status.

Local Abbreviation Mock_loop := (SerializerMock.Serialize_loop (RecordBatch:=RecordBatch) Finish).
Local Abbreviation Mock := (SerializerMock.Serialize (RecordBatch:=RecordBatch) Finish).

Lemma Mock_loop_appends in_ : forall calls out,
  exists k, (k <= length in_)%nat
    /\ snd (Mock_loop in_ calls out) = out ++ map mock_message (firstn k in_)
    /\ (forall j, (j < k)%nat -> ok (Finish (calls + j)) = true)
    /\ (k = length in_ -> fst (Mock_loop in_ calls out) = OK)
    /\ ((k < length in_)%nat ->
        ok (Finish (calls + k)) = false
        /\ fst (Mock_loop in_ calls out) = SerializerMock.of_arrow (Finish (calls + k))).
Proof.
  induction in_ as [| b rest IH]; intros calls out; simpl.
  - exists 0%nat. rewrite app_nil_r.
    split; [lia |]. split; [reflexivity |]. split; [lia |].
    split; [reflexivity | lia].
  - assert (ok (SerializerMock.of_arrow (Finish calls)) = ok (Finish calls)) as Hsame
      by (destruct (Finish calls); reflexivity).
    destruct (ok (SerializerMock.of_arrow (Finish calls))) eqn:Hfin; simpl.
    + destruct (IH (S calls) (out ++ [mock_message b]))
        as (k & Hk & Hout & Hbefore & Hall & Hfirst).
      exists (S k). split; [lia |]. split.
      { unfold mock_message in *. rewrite Hout, <- app_assoc. reflexivity. }
      split.
      { intros [| j] Hj.
        - rewrite Nat.add_0_r. now rewrite <- Hsame.
        - replace (calls + S j)%nat with (S calls + j)%nat by lia. apply Hbefore. lia. }
      split; [intros Hlen; apply Hall; lia |].
      intros Hlt. replace (calls + S k)%nat with (S calls + k)%nat by lia.
      apply Hfirst. lia.
    + exists 0%nat. rewrite app_nil_r, Nat.add_0_r.
      split; [lia |]. split; [reflexivity |]. split; [lia |].
      split; [discriminate |]. intros _. split; [now rewrite <- Hsame | reflexivity].
Qed.

(** X3. The mock serializer appends to [*out]: after the call [*out] is what
    it was, followed by one empty message with the sequence range of its
    batch for each of the first [k] batches, where [k] is the number of
    calls of [Finish] that worked before the first one that failed. With
    a message for every batch the status is OK; otherwise call number
    [k] of [Finish] failed, the status is its error, and the messages
    pushed before stay in [*out]. *)
Theorem SerializerMock_appends in_ out :
  exists k, (k <= length in_)%nat
    /\ snd (Mock in_ out) = out ++ map mock_message (firstn k in_)
    /\ (forall j, (j < k)%nat -> ok (Finish j) = true)
    /\ (k = length in_ -> fst (Mock in_ out) = OK)
    /\ ((k < length in_)%nat ->
        ok (Finish k) = false
        /\ fst (Mock in_ out) = SerializerMock.of_arrow (Finish k)).
Proof. apply (Mock_loop_appends in_ 0%nat out). Qed.
End SerializerMockFacts.

Section SerializedBatchFacts.
Import Serializer Props.

(** X4. [RecordSizeOf] is the number of sequence numbers in the range of the
    message, except for the range of all [2^64] numbers, for which the
    subtraction wraps around to 0. *)
Theorem RecordSizeOf_counts b :
  is_uint64 (first (sb_seq_range b)) -> is_uint64 (last (sb_seq_range b)) ->
  first (sb_seq_range b) <= last (sb_seq_range b) ->
  (last (sb_seq_range b) - first (sb_seq_range b) < UINT64_MAX ->
   RecordSizeOf b = Z.of_nat (length (range_values (sb_seq_range b))))
  /\ (last (sb_seq_range b) - first (sb_seq_range b) = UINT64_MAX ->
      RecordSizeOf b = 0).
Proof.
  unfold is_uint64, UINT64_MAX, RecordSizeOf, wrap64. intros Hf Hl Hfl. split.
  - intros Hsmall. rewrite range_values_length by exact Hfl.
    apply Z.mod_small. lia.
  - intros Hfull. rewrite Hfull. reflexivity.
Qed.

(** [operator<] on messages is a strict weak ordering, as sorting and
    priority queues need: irreflexive, transitive, and with a transitive
    "neither is less". *)
Theorem lt_SerializedBatch_strict_weak a b c :
  lt_SerializedBatch a a = false
  /\ (lt_SerializedBatch a b = true -> lt_SerializedBatch b c = true ->
      lt_SerializedBatch a c = true)
  /\ (lt_SerializedBatch a b = false -> lt_SerializedBatch b a = false ->
      lt_SerializedBatch b c = false -> lt_SerializedBatch c b = false ->
      lt_SerializedBatch a c = false /\ lt_SerializedBatch c a = false).
Proof.
  unfold lt_SerializedBatch. repeat split.
  - apply Z.ltb_irrefl.
  - rewrite !Z.ltb_lt. lia.
  - rewrite !Z.ltb_ge in *. lia.
  - rewrite !Z.ltb_ge in *. lia.
Qed.
End SerializedBatchFacts.

Lemma ByteSizeOf_Serialize_bounded_witness :
  Serializer.ByteSizeOf
    (snd (Serializer.Serialize Inputs.rows_serializer Inputs.serializer_64
            [Inputs.small_batch; Inputs.small_batch] [])) <= 2 * 64.
Proof.
  apply (ByteSizeOf_Serialize_bounded Inputs.rows_serializer Inputs.serializer_64
           [Inputs.small_batch; Inputs.small_batch] []).
  - reflexivity.
  - vm_compute. reflexivity.
Defined.

Lemma RecordSizeOf_counts_witness :
  Serializer.RecordSizeOf
    {| Serializer.message := []; Serializer.sb_seq_range := {| first := 10; last := 12 |} |}
  = 3.
Proof.
  apply (RecordSizeOf_counts
           {| Serializer.message := [];
              Serializer.sb_seq_range := {| first := 10; last := 12 |} |}).
  - vm_compute. split; discriminate.
  - vm_compute. split; discriminate.
  - simpl. lia.
  - vm_compute. reflexivity.
Defined.

(** ** main *)

Section MainMore.
Import Main.
Context {FileOptions StreamOptions : Type}.
Variable FromArguments : list string -> Status * AppOptions FileOptions StreamOptions.
Variable ProduceFromFile : FileOptions -> Status.
Variable ProduceFromStream : StreamOptions -> Status.
Variable name : string.

Local Abbreviation main := (Main.main FromArguments ProduceFromFile ProduceFromStream name).

(** X5. When the arguments are rejected, [main] runs no sub-program and logs
    the rejection; with no sub-command selected it runs nothing and logs
    nothing; with the stream sub-command it runs [ProduceFromStream] once,
    never [ProduceFromFile], and logs the status of the stream if that is
    not OK. *)
Theorem main_runs_what_is_selected argv st opts :
  FromArguments argv = (st, opts) ->
  (ok st = false -> snd (main argv) = StartLogger :: Props.error_lines name st)
  /\ (ok st = true -> sub opts = NONE -> snd (main argv) = [StartLogger])
  /\ (ok st = true -> sub opts = STREAM ->
      snd (main argv)
      = [StartLogger; RunProduceFromStream]
        ++ Props.error_lines name (ProduceFromStream (stream opts))).
Proof.
  intros Hargs. repeat split.
  - destruct st as [| e m]; [discriminate |]. intros _.
    now rewrite (main_rejected _ _ _ _ argv e m opts Hargs).
  - destruct st as [| e m]; [| discriminate]. intros _ Hsub.
    now rewrite (main_none _ _ _ _ argv opts Hargs Hsub).
  - destruct st as [| e m]; [| discriminate]. intros _ Hsub.
    now rewrite (main_stream _ _ _ _ argv opts Hargs Hsub).
Qed.
End MainMore.

Lemma main_runs_what_is_selected_witness :
  snd (Main.main Inputs.parse_stream_command Inputs.file_ok Inputs.stream_fails "bolson"
         ["bolson"; "stream"])
  = [Main.StartLogger; Main.RunProduceFromStream;
     Main.LogError "bolson exiting with errors.";
     Main.LogError "  Pulsar producer failed."].
Proof.
  apply (main_runs_what_is_selected Inputs.parse_stream_command Inputs.file_ok
           Inputs.stream_fails "bolson" ["bolson"; "stream"] OK
           {| Main.sub := Main.STREAM; Main.file := tt; Main.stream := tt |});
    reflexivity.
Defined.

(** ** ProduceFromStream *)

Section StreamMore.
Import Stream Props MoreProps.
Context {double : Type}.
Variable d_zero : double.
Variable d_add : double -> double -> double.
Variable d_div : double -> double -> double.
Variable d_of_size_t : Z -> double.
Variable show_double : double -> string.

Local Abbreviation ProduceFromStream :=
  (Stream.ProduceFromStream d_zero d_add d_div d_of_size_t show_double).
Local Abbreviation OutputStats :=
  (Stream.OutputStats d_zero d_add d_div d_of_size_t show_double).
Local Abbreviation AggrStats := (Stream.AggrStats d_zero d_add).

(** The busy wait adds loads of the counter to the trace and nothing
    else. *)
Lemma wait_published_loads (env : Env double) : forall fuel i tr tr',
  wait_published fuel env i tr = Some tr' ->
  exists loads, tr' = tr ++ loads /\ Forall (fun e => is_load e = true) loads.
Proof.
  induction fuel as [| fuel IH]; intros i tr tr'; simpl; [discriminate |].
  destruct (negb (received env =? publish_count env i)).
  - intros Hrun. apply IH in Hrun as (loads & -> & Hall).
    exists (EvLoadPublishCount (publish_count env i) :: loads).
    split; [now rewrite <- app_assoc | now constructor].
  - intros [= <-]. eexists. split; [reflexivity |]. now repeat constructor.
Qed.

(** While the counter differs from the number received, the wait goes on. *)
Lemma wait_published_stuck (env : Env double) :
  (forall i, publish_count env i <> received env) ->
  forall fuel i tr, wait_published fuel env i tr = None.
Proof.
  intros Hne. induction fuel as [| fuel IH]; intros i tr; simpl; [reflexivity |].
  assert ((received env =? publish_count env i) = false) as ->
    by (apply Z.eqb_neq; intros Heq; now apply (Hne i)).
  apply IH.
Qed.

Lemma occurrences_app kind tr1 tr2 :
  occurrences kind (tr1 ++ tr2) = (occurrences kind tr1 + occurrences kind tr2)%nat.
Proof. unfold occurrences. now rewrite List.filter_app, length_app. Qed.

Lemma occurrences_loads kind loads :
  (forall n, kind (EvLoadPublishCount n) = false) ->
  Forall (fun e => is_load e = true) loads -> occurrences kind loads = 0%nat.
Proof.
  intros Hkind. induction 1 as [| e loads He _ IH]; [reflexivity |].
  destruct e; try discriminate. unfold occurrences in *. simpl. now rewrite Hkind.
Qed.

(** X6. Whatever way [ProduceFromStream] returns, it has spawned each thread
    at most once, and it has stored the shutdown flag and joined each of
    the two threads exactly as often as it has spawned them: no run
    returns with a thread still running. *)
Theorem ProduceFromStream_joins_what_it_spawns fuel env opt st tr :
  ProduceFromStream fuel env opt = Some (st, tr) ->
  (occurrences is_spawn_converter tr <= 1)%nat
  /\ occurrences is_spawn_publish tr = occurrences is_spawn_converter tr
  /\ occurrences is_store_shutdown tr = occurrences is_spawn_converter tr
  /\ occurrences is_join_converter tr = occurrences is_spawn_converter tr
  /\ occurrences is_join_publish tr = occurrences is_spawn_converter tr.
Proof.
  unfold Stream.ProduceFromStream, SHUTDOWN_ON_ERROR.
  destruct (protocol opt) as [port | port];
    [| intros [= <- <-]; repeat split; auto].
  destruct (ok (SetupClientProducer env _ _)); simpl;
    [| intros [= <- <-]; repeat split; auto].
  destruct (ok (client_create env 0%nat)); simpl;
    [| intros [= <- <-]; repeat split; auto].
  destruct (ok (client_receive_jsons env 0%nat)); simpl;
    [| intros [= <- <-]; repeat split; auto].
  destruct (ok (client_close env 0%nat)); simpl;
    [| intros [= <- <-]; repeat split; auto].
  destruct (wait_published fuel env 0 _) as [tr' |] eqn:Hwait; [| discriminate].
  apply wait_published_loads in Hwait as (loads & -> & Hloads).
  assert (forall kind, not_a_load kind -> length (List.filter kind loads) = 0%nat)
    as Hzero by (intros kind Hkind; now apply occurrences_loads).
  destruct (ok (pub_status (pub_stats_future env)));
    [destruct (statistics opt); [destruct (succinct opt) |] |];
    simpl; intros [= <- <-]; unfold occurrences; simpl;
    rewrite !List.filter_app, !length_app, !Hzero by (intros n; reflexivity);
    simpl; repeat split; auto.
Qed.

(** X7. If the publish counter never gets equal to the number of JSONs
    received, [ProduceFromStream] never returns, however long it runs. *)
Theorem ProduceFromStream_waits_forever fuel env opt port :
  protocol opt = RawProtocol port ->
  ok (SetupClientProducer env (url (pulsar opt)) (topic (pulsar opt))) = true ->
  ok (client_create env 0%nat) = true ->
  ok (client_receive_jsons env 0%nat) = true ->
  ok (client_close env 0%nat) = true ->
  (forall i, publish_count env i <> received env) ->
  ProduceFromStream fuel env opt = None.
Proof.
  intros Hp Hs Hc Hr Hcl Hne. unfold Stream.ProduceFromStream, SHUTDOWN_ON_ERROR.
  rewrite Hp, Hs, Hc, Hr, Hcl. simpl. now rewrite wait_published_stuck.
Qed.

Lemma load_not_statistics loads e :
  Forall (fun e => is_load e = true) loads -> In e loads -> is_statistics e = false.
Proof.
  intros Hall Hin. rewrite List.Forall_forall in Hall. specialize (Hall e Hin).
  destruct e; try discriminate. reflexivity.
Qed.

(** Membership in the trace of a run that got past the busy wait:
    either the event is one of the loads or it is one of the others. *)
Ltac in_trace Hloads :=
  intros Hin; simpl in Hin; rewrite ?List.in_app_iff in Hin; simpl in Hin;
  repeat (destruct Hin as [Hin | Hin]);
  try discriminate Hin; try contradiction;
  try (apply (load_not_statistics _ _ Hloads) in Hin; discriminate Hin).

(** A run that returns before the busy wait: its trace is known, and has
    neither statistics nor the collecting of the futures in it. *)
Ltac no_such_event Hin :=
  simpl in Hin; repeat (destruct Hin as [Hin | Hin]); try discriminate Hin; contradiction.

Ltac early_exit :=
  intros [= <- <-];
  split; [intros line Hin; no_such_event Hin |];
  split; [intros Hin; no_such_event Hin |];
  split; [unfold occurrences; simpl; lia | intros Hin; no_such_event Hin].

(** X8. The statistics are put out at most once and only by a run that
    returns OK with [statistics] set: as the CSV line of [OutputStats] when
    [succinct] is set, through the log otherwise. A run that completes
    with OK and has [statistics] set puts them out. *)
Theorem ProduceFromStream_statistics fuel env opt st tr :
  ProduceFromStream fuel env opt = Some (st, tr) ->
  (forall line, In (EvOutputStats line) tr ->
     st = OK /\ statistics opt = true /\ succinct opt = true
     /\ line = OutputStats (latency_timer_seconds env) (received env)
                 (conv_stats_future env) (pub_stats_future env) "")
  /\ (In EvLogStats tr -> st = OK /\ statistics opt = true /\ succinct opt = false)
  /\ (occurrences is_statistics tr <= 1)%nat
  /\ (completed tr -> st = OK -> statistics opt = true ->
      occurrences is_statistics tr = 1%nat).
Proof.
  unfold Stream.ProduceFromStream, SHUTDOWN_ON_ERROR, completed.
  destruct (protocol opt) as [port | port]; [| early_exit].
  destruct (ok (SetupClientProducer env _ _)); simpl; [| early_exit].
  destruct (ok (client_create env 0%nat)); simpl; [| early_exit].
  destruct (ok (client_receive_jsons env 0%nat)); simpl; [| early_exit].
  destruct (ok (client_close env 0%nat)); simpl; [| early_exit].
  destruct (wait_published fuel env 0 _) as [tr' |] eqn:Hwait; [| discriminate].
  apply wait_published_loads in Hwait as (loads & -> & Hloads).
  assert (length (List.filter is_statistics loads) = 0%nat) as Hzero
    by (apply occurrences_loads; [intros n; reflexivity | exact Hloads]).
  destruct (pub_status (pub_stats_future env)) as [| e m] eqn:Hpub;
    [destruct (statistics opt); [destruct (succinct opt) |] |];
    simpl; intros [= <- <-];
    (split; [intros line; in_trace Hloads; try (injection Hin as <-); auto |]);
    (split; [in_trace Hloads; auto |]);
    unfold occurrences; simpl;
    rewrite !List.filter_app, !length_app, !Hzero; simpl;
    (split; [lia |]); intros _ Hst Hstat; try discriminate; reflexivity.
Qed.

(** X9. When a call of the Illex client fails, [ProduceFromStream] returns an
    [IllexError] without having looked at the publish counter and without
    statistics, the shutdown flag stored once; no fuel is needed. *)
Theorem ProduceFromStream_client_failure fuel env opt port :
  protocol opt = RawProtocol port ->
  ok (SetupClientProducer env (url (pulsar opt)) (topic (pulsar opt))) = true ->
  ok (client_create env 0%nat) && ok (client_receive_jsons env 0%nat)
    && ok (client_close env 0%nat) = false ->
  exists m tr,
    ProduceFromStream fuel env opt = Some (Err IllexError m, tr)
    /\ occurrences is_load tr = 0%nat
    /\ occurrences is_store_shutdown tr = 1%nat
    /\ occurrences is_statistics tr = 0%nat.
Proof.
  intros Hp Hs Hfail. unfold Stream.ProduceFromStream, SHUTDOWN_ON_ERROR.
  rewrite Hp, Hs. simpl.
  destruct (ok (client_create env 0%nat)); simpl;
    [| eexists _, _; repeat split].
  destruct (ok (client_receive_jsons env 0%nat)); simpl;
    [| eexists _, _; repeat split].
  destruct (ok (client_close env 0%nat)); simpl;
    [discriminate | eexists _, _; repeat split].
Qed.

(** *** AggrStats *)

Lemma sum_permutation (l l' : list Z) :
  Permutation l l' -> fold_right Z.add 0 l = fold_right Z.add 0 l'.
Proof. induction 1; simpl; lia. Qed.

Lemma AggrStats_status l : status (AggrStats l) = OK.
Proof.
  unfold Stream.AggrStats.
  assert (forall acc, status (fold_left (AggrStats_step d_add) l acc) = status acc) as H
    by (induction l as [| t l IH]; intros acc; simpl; [reflexivity | now rewrite IH]).
  now rewrite H.
Qed.

(** X10. The aggregated counters do not depend on the order in which the
    workers' statistics come in, and the aggregate carries the status OK
    whatever the statuses of the workers are. *)
Theorem AggrStats_counters_any_order l l' :
  Permutation l l' ->
  num_jsons (AggrStats l) = num_jsons (AggrStats l')
  /\ num_ipc (AggrStats l) = num_ipc (AggrStats l')
  /\ total_ipc_bytes (AggrStats l) = total_ipc_bytes (AggrStats l')
  /\ status (AggrStats l) = OK.
Proof.
  intros Hperm.
  rewrite !AggrStats_num_jsons, !AggrStats_num_ipc, !AggrStats_total_ipc_bytes,
    AggrStats_status.
  unfold sum_size_t.
  rewrite (sum_permutation _ _ (Permutation_map num_jsons Hperm)),
    (sum_permutation _ _ (Permutation_map num_ipc Hperm)),
    (sum_permutation _ _ (Permutation_map total_ipc_bytes Hperm)).
  auto.
Qed.
End StreamMore.

Lemma ProduceFromStream_joins_what_it_spawns_witness :
  exists st tr,
    Inputs.run_stream 4 Inputs.env_ok MoreInputs.raw_options = Some (st, tr)
    /\ MoreProps.occurrences MoreProps.is_join_publish tr
       = MoreProps.occurrences MoreProps.is_spawn_converter tr.
Proof.
  eexists _, _. split; [reflexivity |].
  apply (ProduceFromStream_joins_what_it_spawns 0 Z.add Z.div (fun z => z) to_string
           4%nat Inputs.env_ok MoreInputs.raw_options _ _ eq_refl).
Defined.

Lemma ProduceFromStream_waits_forever_witness :
  Inputs.run_stream 1000 MoreInputs.env_stuck MoreInputs.raw_options = None.
Proof.
  apply (ProduceFromStream_waits_forever 0 Z.add Z.div (fun z => z) to_string
           1000%nat MoreInputs.env_stuck MoreInputs.raw_options 10197);
    try reflexivity.
  intros i. discriminate.
Defined.

Lemma ProduceFromStream_statistics_witness :
  exists st tr,
    Inputs.run_stream 4 Inputs.env_ok MoreInputs.raw_options = Some (st, tr)
    /\ (MoreProps.occurrences MoreProps.is_statistics tr <= 1)%nat.
Proof.
  eexists _, _. split; [reflexivity |].
  apply (ProduceFromStream_statistics 0 Z.add Z.div (fun z => z) to_string
           4%nat Inputs.env_ok MoreInputs.raw_options _ _ eq_refl).
Defined.

Lemma ProduceFromStream_client_failure_witness :
  exists m tr,
    Inputs.run_stream 0 Inputs.env_receive_failed MoreInputs.raw_options
    = Some (Err IllexError m, tr)
    /\ MoreProps.occurrences MoreProps.is_load tr = 0%nat
    /\ MoreProps.occurrences MoreProps.is_store_shutdown tr = 1%nat
    /\ MoreProps.occurrences MoreProps.is_statistics tr = 0%nat.
Proof.
  apply (ProduceFromStream_client_failure 0 Z.add Z.div (fun z => z) to_string
           0%nat Inputs.env_receive_failed MoreInputs.raw_options 10197);
    reflexivity.
Defined.

Lemma AggrStats_counters_any_order_witness :
  Stream.num_jsons (Stream.AggrStats 0 Z.add
                      [Inputs.stats_of 3 1 300 OK; Inputs.stats_of 2 1 200 OK])
  = Stream.num_jsons (Stream.AggrStats 0 Z.add
                        [Inputs.stats_of 2 1 200 OK; Inputs.stats_of 3 1 300 OK]).
Proof.
  apply (AggrStats_counters_any_order 0 Z.add
           [Inputs.stats_of 3 1 300 OK; Inputs.stats_of 2 1 200 OK]
           [Inputs.stats_of 2 1 200 OK; Inputs.stats_of 3 1 300 OK]).
  apply perm_swap.
Defined.

(** ** OpaeAllocator *)

Section OpaeAllocatorMore.
Import OpaeAllocator MoreProps.

(** X11. What [Allocate] leaves alone: when it succeeds, every byte outside
    the buffer it hands out and the record of every other address; when
    [mmap] fails, the memory, the records and [*out]. *)
Theorem Allocate_frame os size out st :
  let st' := snd (Allocate os size out st) in
  (forall addr,
      mmap os opae_fixed_capacity mmap_prot mmap_flags = Some addr ->
      (forall a, a < addr \/ addr + opae_fixed_capacity <= a ->
                 memory st' a = memory st a)
      /\ (forall other, other <> addr ->
                        allocations st' !! other = allocations st !! other))
  /\ (mmap os opae_fixed_capacity mmap_prot mmap_flags = None ->
      ok (fst (fst (Allocate os size out st))) = false
      /\ snd (fst (Allocate os size out st)) = out
      /\ memory st' = memory st /\ allocations st' = allocations st
      /\ mapped st' = mapped st).
Proof.
  intros st'. subst st'. split.
  - intros addr Hmap.
    destruct (Allocate_success os size out st addr Hmap)
      as (st' & Hrun & Hmem & _ & Halloc).
    rewrite Hrun. simpl. rewrite Hmem, Halloc. split.
    + intros a Ha. now apply memset_elsewhere.
    + intros other Hne. now rewrite lookup_insert_ne.
  - intros Hmap. unfold Allocate. change fixed_capacity_ with opae_fixed_capacity.
    rewrite Hmap. simpl. auto.
Qed.

Lemma Allocate_preserves_buffer os size out st addr :
  allocated_zeroed st addr ->
  allocated_zeroed (snd (Allocate os size out st)) addr.
Proof.
  intros [Hrec Hzero]. unfold allocated_zeroed, zeroed, Allocate.
  destruct (mmap os fixed_capacity_ mmap_prot mmap_flags) as [new |]; simpl.
  - unfold memset. rewrite Z.eqb_refl. simpl. split.
    + destruct (Z.eq_dec new addr) as [-> | Hne].
      * now rewrite lookup_insert_eq.
      * now rewrite lookup_insert_ne.
    + intros a Ha. destruct ((new <=? a) && (a <? new + fixed_capacity_));
        [reflexivity | now apply Hzero].
  - split; assumption.
Qed.

(** X12. Neither an allocation nor a [Free] spoils an earlier buffer: whether
    [Allocate] succeeds or not and whatever is freed, a buffer that was
    recorded with the fixed capacity and all zero is so afterwards. *)
Theorem Allocate_Free_keep_buffers os size out buffer st addr :
  allocated_zeroed st addr ->
  allocated_zeroed (snd (Allocate os size out st)) addr
  /\ allocated_zeroed (snd (Free buffer st)) addr.
Proof.
  intros Hgood. split; [now apply Allocate_preserves_buffer |].
  destruct Hgood as [Hrec Hzero]. split; [exact Hrec | exact Hzero].
Qed.

(** [Allocate] logs a warning exactly when the size asked for is not the
    fixed capacity, and then exactly one. *)
Theorem Allocate_warns_iff os size out st :
  let st' := snd (Allocate os size out st) in
  (size = opae_fixed_capacity -> log st' = log st)
  /\ (size <> opae_fixed_capacity -> length (log st') = S (length (log st))).
Proof.
  intros st'. subst st'. unfold Allocate. change fixed_capacity_ with opae_fixed_capacity.
  split.
  - intros ->. rewrite Z.eqb_refl. simpl.
    destruct (mmap os _ _ _); simpl; [| reflexivity].
    unfold memset. now rewrite Z.eqb_refl.
  - intros Hne. apply Z.eqb_neq in Hne. rewrite Hne. simpl.
    destruct (mmap os _ _ _); simpl.
    + unfold memset. rewrite Z.eqb_refl. simpl. rewrite length_app. simpl. lia.
    + rewrite length_app. simpl. lia.
Qed.
End OpaeAllocatorMore.

Lemma Allocate_Free_keep_buffers_witness :
  MoreProps.allocated_zeroed
    (snd (OpaeAllocator.Allocate Inputs.os_huge_pages 1 None
            (snd (OpaeAllocator.Allocate Inputs.os_huge_pages 4096 None
                    Inputs.fresh_allocator))))
    70368744177664.
Proof.
  apply (proj1 (Allocate_Free_keep_buffers Inputs.os_huge_pages 1 None 70368744177664
                  (snd (OpaeAllocator.Allocate Inputs.os_huge_pages 4096 None
                          Inputs.fresh_allocator))
                  70368744177664
                  (conj eq_refl
                     (memset_zeroes (fun _ => 255) 70368744177664 1073741824)))).
Defined.

(** ** The FPGA battery parser, continued *)

Section FpgaMore.
Import Arrow Fpga Props.
Variables default_regs range_regs_per_inst : Z.
Variables in_addr_regs_per_inst out_addr_regs_per_inst : Z.
Variables ctrl_reset ctrl_start stat_done : Z.
Variable WithMetaRequired : Schema -> string -> FletcherMode -> Schema.
Variable raw_json_input_schema : Schema.

Local Abbreviation custom_regs_offset :=
  (Fpga.custom_regs_offset default_regs range_regs_per_inst in_addr_regs_per_inst
     out_addr_regs_per_inst).
Local Abbreviation status_offset := (fun idx => custom_regs_offset idx + 1).
Local Abbreviation result_rows_offset_lo := (fun idx => custom_regs_offset idx + 2).
Local Abbreviation result_rows_offset_hi := (fun idx => custom_regs_offset idx + 3).
Local Abbreviation voltage_offsets_lo :=
  (Fpga.output_voltage_offsets_lo_offset default_regs range_regs_per_inst
     in_addr_regs_per_inst).
Local Abbreviation output_schema := (Fpga.output_schema WithMetaRequired).
Local Abbreviation ParseOne :=
  (Fpga.ParseOne default_regs range_regs_per_inst in_addr_regs_per_inst
     out_addr_regs_per_inst ctrl_reset ctrl_start stat_done WithMetaRequired).
Local Abbreviation Parse :=
  (Fpga.Parse default_regs range_regs_per_inst in_addr_regs_per_inst
     out_addr_regs_per_inst ctrl_reset ctrl_start stat_done WithMetaRequired).
Local Abbreviation Init :=
  (Fpga.Init default_regs range_regs_per_inst in_addr_regs_per_inst).
Local Abbreviation Make :=
  (Fpga.Make default_regs range_regs_per_inst in_addr_regs_per_inst WithMetaRequired
     raw_json_input_schema).

(** *** Register windows *)

Lemma land_window x : Z.land (wrap64 x) 1048575 = x mod 2 ^ 20.
Proof.
  change 1048575 with (Z.ones 20). rewrite Z.land_ones by lia. unfold wrap64.
  apply Z.mod_mod_divide. exists (2 ^ 44). reflexivity.
Qed.

(** X13. Each of the 256 parser instances has a window of 1024 registers of
    its own, starting at [1024 * idx]; an index 256 higher falls onto the
    same window again. *)
Theorem base_offset_windows idx :
  (0 <= idx < 256 -> base_offset idx = 1024 * idx)
  /\ base_offset (idx + 256) = base_offset idx.
Proof.
  unfold base_offset. rewrite !land_window. split.
  - intros H. rewrite Z.mod_small by lia.
    replace (idx * 4096) with (1024 * idx * 4) by lia. apply Z.div_mul. lia.
  - f_equal. replace ((idx + 256) * 4096) with (idx * 4096 + 1 * 2 ^ 20) by lia.
    apply Z.mod_add. lia.
Qed.

(** *** Init *)

(** [Init] returns OK exactly when the index is below 256 and all four
    writes of the output addresses work: the low and high halves of the
    offsets buffer and of the values buffer, to four consecutive
    registers. *)
Theorem Init_ok_iff p self :
  ok (Init p self) = true
  <-> idx_ self < 256
      /\ ok (WriteMMIO p (voltage_offsets_lo (idx_ self))
               (dau_lo (raw_out_offsets self))) = true
      /\ ok (WriteMMIO p (voltage_offsets_lo (idx_ self) + 1)
               (dau_hi (raw_out_offsets self))) = true
      /\ ok (WriteMMIO p (voltage_offsets_lo (idx_ self) + 2)
               (dau_lo (raw_out_values self))) = true
      /\ ok (WriteMMIO p (voltage_offsets_lo (idx_ self) + 3)
               (dau_hi (raw_out_values self))) = true.
Proof.
  unfold Fpga.Init, Fpga.output_voltage_offsets_hi_offset,
    Fpga.output_voltage_values_lo_offset, Fpga.output_voltage_values_hi_offset.
  destruct (idx_ self >=? 256) eqn:Hidx.
  - apply Z.geb_le in Hidx. simpl. split; [discriminate | lia].
  - rewrite Z.geb_leb in Hidx. apply Z.leb_gt in Hidx.
    destruct (ok (WriteMMIO p (voltage_offsets_lo (idx_ self)) _)) eqn:H1; simpl;
      [| rewrite H1; split; [discriminate | intros (_ & H & _); discriminate H]].
    destruct (ok (WriteMMIO p (voltage_offsets_lo (idx_ self) + 1) _)) eqn:H2; simpl;
      [| rewrite H2; split; [discriminate | intros (_ & _ & H & _); discriminate H]].
    destruct (ok (WriteMMIO p (voltage_offsets_lo (idx_ self) + 2) _)) eqn:H3; simpl;
      [| rewrite H3; split; [discriminate | intros (_ & _ & _ & H & _); discriminate H]].
    destruct (ok (WriteMMIO p (voltage_offsets_lo (idx_ self) + 3) _)) eqn:H4; simpl;
      [| rewrite H4; split; [discriminate | intros (_ & _ & _ & _ & H); discriminate H]].
    split; [intros _; repeat split; lia | reflexivity].
Qed.

(** *** WrapOutput *)

(** X14. For a number of rows from 0 up to the largest for which
    [num_rows + 1] is still an [int32_t], [WrapOutput] hands out a batch
    with the schema given, that number of rows, and one column, which is
    as long as the batch; for -1 rows the offsets array is empty,
    [FromArrays] refuses it and [ValueOrDie] ends the process. *)
Theorem WrapOutput_in_range p num_rows offsets values schema_ :
  (0 <= num_rows < 2147483647 ->
   exists b column,
     WrapOutput p num_rows offsets values schema_ = Some b
     /\ schema b = schema_ /\ Arrow.num_rows b = num_rows
     /\ columns b = [column] /\ array_length column = num_rows)
  /\ (num_rows = -1 -> WrapOutput p num_rows offsets values schema_ = None).
Proof.
  unfold WrapOutput, FromArrays. rewrite length_map. split.
  - intros Hrange. rewrite zrange_succ by lia. simpl.
    eexists _, _. split; [reflexivity |]. simpl.
    split; [reflexivity |]. split; [reflexivity |]. split; [reflexivity |].
    simpl. rewrite ?length_map. pose proof (zrange_length num_rows).
    pose proof (zrange_length (num_rows + 1)). lia.
  - intros ->. reflexivity.
Qed.

(** *** ParseOne and Parse *)

Lemma prepare_seq_status_not_ok fuel bld self in_ e :
  prepare_seq fuel bld self in_ = Some (inl e) -> ok e = false.
Proof.
  unfold prepare_seq, roe. destruct (p_seq_column self); [| discriminate].
  destruct (ok (of_arrow (Reserve bld _))) eqn:Hres; simpl;
    [| now intros [= <-]].
  destruct (append_seq _ _ _ _); [| discriminate].
  destruct (ok (of_arrow (Finish bld))) eqn:Hfin; simpl; [discriminate |].
  now intros [= <-].
Qed.

(** [ParseOne] never reports OK without handing out a batch: a status
    that it returns instead of a batch is an error, and a batch that it
    hands out has the sequence range of the buffer. *)
Lemma ParseOne_status_or_batch fuel p bld self in_ :
  (forall e, ParseOne fuel p bld self in_ = Some (inl e) -> ok e = false)
  /\ (forall pb, ParseOne fuel p bld self in_ = Some (inr pb) ->
                 seq_range pb = range in_).
Proof.
  unfold Fpga.ParseOne, roe.
  repeat match goal with
         | |- context [negb (ok (WriteMMIO p ?o ?v))] =>
             let H := fresh "Hw" in
             destruct (ok (WriteMMIO p o v)) eqn:H; simpl;
               [| split; [now intros e [= <-] | discriminate]]
         end.
  destruct (prepare_seq fuel bld self in_) as [[e0 | seq] |] eqn:Hseq;
    [ split; [intros e [= <-]; now apply prepare_seq_status_not_ok in Hseq
             | discriminate]
    | | split; discriminate ].
  destruct (Fpga.poll_until_done _ _ _ _ _ _ _ _ _); [| split; discriminate].
  destruct (WrapOutput _ _ _ _ _) as [out_batch |]; [| split; discriminate].
  destruct (p_seq_column self).
  - destruct seq as [seq |]; [| split; discriminate].
    destruct (AddColumn out_batch 0 "bolson_seq" seq);
      split; try discriminate; [now intros pb [= <-] | now intros e [= <-]].
  - split; [discriminate | now intros pb [= <-]].
Qed.


(** X16. [Parse] appends to [*out]: however it returns, [*out] is what it
    was, followed by the batches that [ParseOne] hands out for the
    buffers before the first one for which it fails, in the order of the
    buffers and each with the sequence range of its buffer. With OK
    every buffer has its batch; with an error the next buffer is the one
    on which [ParseOne] failed, with the same status. *)
Theorem Parse_appends_in_order fuel p bld self : forall in_ out st out',
  Parse fuel p bld self in_ out = Some (st, out') ->
  exists new,
    out' = out ++ new
    /\ List.Forall2 (fun buf b => ParseOne fuel p bld self buf = Some (inr b))
         (firstn (length new) in_) new
    /\ map seq_range new = map range (firstn (length new) in_)
    /\ (ok st = true -> st = OK /\ length new = length in_)
    /\ (ok st = false ->
        exists buf, nth_error in_ (length new) = Some buf
                    /\ ParseOne fuel p bld self buf = Some (inl st)).
Proof.
  induction in_ as [| buf rest IH]; intros out st out'; simpl.
  - intros [= <- <-]. exists []. rewrite app_nil_r.
    split; [reflexivity |]. split; [constructor |]. split; [reflexivity |].
    split; [intros _; split; reflexivity | discriminate].
  - destruct (ParseOne fuel p bld self buf) as [[e | b] |] eqn:Hone; [| | discriminate].
    + intros [= <- <-].
      pose proof (proj1 (ParseOne_status_or_batch fuel p bld self buf) e Hone) as He.
      exists []. rewrite app_nil_r.
      split; [reflexivity |]. split; [constructor |]. split; [reflexivity |].
      split; [intros Hok; rewrite He in Hok; discriminate Hok |].
      intros _. exists buf. split; [reflexivity | exact Hone].
    + intros Hrest.
      apply IH in Hrest as (new & -> & Hfrom & Hranges & Hok & Herr).
      pose proof (proj2 (ParseOne_status_or_batch fuel p bld self buf) b Hone) as Hb.
      exists (b :: new). rewrite <- app_assoc. simpl.
      split; [reflexivity |]. split; [constructor; [exact Hone | exact Hfrom] |].
      split; [now rewrite Hb, Hranges |].
      split.
      * intros Hs. destruct (Hok Hs) as [-> Hlen]. split; [reflexivity | now rewrite Hlen].
      * intros Hs. exact (Herr Hs).
Qed.

(** *** Make *)

Local Abbreviation parser_at := (fun n seq_col raw_offsets raw_values (i : nat) =>
  {| idx_ := Z.of_nat i; p_num_parsers := n;
     raw_out_offsets := nth i raw_offsets 0;
     raw_out_values := nth i raw_values 0;
     p_seq_column := seq_col |}).

(** The output buffers that a successful [PrepareOutputBatches] hands
    out: for the [j]-th parser of the loop the results of two allocations
    in a row. *)
Lemma PrepareOutputBatches_loop_buffers rt offsets_cap values_cap :
  forall is_ calls raw_offsets raw_values batches raw_offsets' raw_values' batches' s,
    Fpga.PrepareOutputBatches_loop WithMetaRequired rt offsets_cap values_cap is_ calls
      (raw_offsets, raw_values, batches) = (s, (raw_offsets', raw_values', batches')) ->
    ok s = true ->
    raw_offsets'
    = raw_offsets
      ++ map (fun j => snd (Allocate rt (calls + 2 * j)%nat offsets_cap))
             (seq 0 (length is_))
    /\ raw_values'
       = raw_values
         ++ map (fun j => snd (Allocate rt (calls + 2 * j + 1)%nat values_cap))
                (seq 0 (length is_)).
Proof.
  induction is_ as [| i is_ IH];
    intros calls raw_offsets raw_values batches raw_offsets' raw_values' batches' s;
    simpl.
  - intros [= <- <- <- <-] _. now rewrite !app_nil_r.
  - destruct (Allocate rt calls offsets_cap) as [s1 offsets] eqn:H1.
    destruct (ok s1) eqn:Hs1; simpl; [| intros [= <- _ _ _] Hok; congruence].
    destruct (Allocate rt (S calls) values_cap) as [s2 values] eqn:H2.
    destruct (ok s2) eqn:Hs2; simpl; [| intros [= <- _ _ _] Hok; congruence].
    intros Hrest Hok. apply IH in Hrest as [-> ->]; [| exact Hok].
    rewrite <- !app_assoc. simpl. rewrite <- !seq_shift, !map_map.
    replace (calls + 0 + 1)%nat with (S calls) by lia. rewrite H2.
    replace (calls + 0)%nat with calls by lia. rewrite H1. simpl.
    split; do 2 f_equal; apply map_ext; intros j; do 2 f_equal; lia.
Qed.


(** How [Make] ends: with an error and [*out] untouched, or with OK, not
    more than 256 parsers asked for, and [*out] a context whose parsers
    are made, index by index, from the buffers of [PrepareOutputBatches]. *)
Lemma Make_outcome rt p opts input_size out :
  (ok (fst (fst (Make rt p opts input_size out))) = false ->
   snd (fst (Make rt p opts input_size out)) = out)
  /\ (ok (fst (fst (Make rt p opts input_size out))) = true ->
      num_parsers opts <= 256
      /\ exists ctx s raw_offsets raw_values batches,
           Make rt p opts input_size out = (OK, Some ctx, parsers_ ctx)
           /\ Fpga.PrepareOutputBatches WithMetaRequired rt (num_parsers opts)
                (out_offset_buffer_capacity opts) (out_values_buffer_capacity opts)
              = (s, (raw_offsets, raw_values, batches))
           /\ ok s = true
           /\ num_parsers_ ctx = num_parsers opts
           /\ ctx_seq_column ctx = seq_column opts
           /\ parsers_ ctx
              = map (parser_at (num_parsers opts) (seq_column opts) raw_offsets raw_values)
                    (seq 0 (Z.to_nat (num_parsers opts)))).
Proof.
  unfold Fpga.Make.
  destruct (num_parsers opts >? 256) eqn:Hn; [split; [reflexivity | discriminate] |].
  rewrite Z.gtb_ltb in Hn. apply Z.ltb_ge in Hn.
  destruct (ok (of_fletcher (Platform_Make rt))) eqn:H1; simpl;
    [| split; [reflexivity | now rewrite H1]].
  destruct (ok (of_fletcher (Platform_Init rt))) eqn:H2; simpl;
    [| split; [reflexivity | now rewrite H2]].
  destruct (AllocateBuffers rt _ _) as [s3 buffers].
  destruct (ok s3) eqn:H3; simpl; [| split; [reflexivity | now rewrite H3]].
  destruct (ok (of_fletcher (Context_Make rt))) eqn:H4; simpl;
    [| split; [reflexivity | now rewrite H4]].
  destruct (Fpga.PrepareOutputBatches _ _ _ _ _)
    as [s5 [[raw_offsets raw_values] b_out]] eqn:Hout.
  destruct (ok s5) eqn:H5; simpl; [| split; [reflexivity | now rewrite H5]].
  destruct (ok (Fpga.QueueRecordBatches rt _)) eqn:H6; simpl;
    [| split; [reflexivity | now rewrite H6]].
  destruct (ok (Fpga.QueueRecordBatches rt b_out)) eqn:H7; simpl;
    [| split; [reflexivity | now rewrite H7]].
  destruct (ok (of_fletcher (Context_Enable rt))) eqn:H8; simpl;
    [| split; [reflexivity | now rewrite H8]].
  unfold Fpga.PrepareParsers. rewrite PrepareParsers_loop_spec. simpl.
  destruct (seq_column opts) eqn:Hcol.
  - destruct (WithSeqField rt _) as [s9 with_seq].
    destruct (ok s9) eqn:H9; simpl; [| split; [reflexivity | now rewrite H9]].
    split; [discriminate |]. intros _. split; [exact Hn |].
    match goal with
    | |- context [Some ?c] => exists c, s5, raw_offsets, raw_values, b_out
    end.
    repeat split; auto.
  - simpl. split; [discriminate |]. intros _. split; [exact Hn |].
    match goal with
    | |- context [Some ?c] => exists c, s5, raw_offsets, raw_values, b_out
    end.
    repeat split; auto.
Qed.

(** X17. [Make] writes [*out] only when it succeeds: with an error [*out] is
    what it was; with OK it is a new context for the number of parsers
    asked for, which is at most 256, holding exactly the parsers that were
    constructed. *)
Theorem Make_writes_out_on_success_only rt p opts input_size out :
  (ok (fst (fst (Make rt p opts input_size out))) = false ->
   snd (fst (Make rt p opts input_size out)) = out)
  /\ (ok (fst (fst (Make rt p opts input_size out))) = true ->
      num_parsers opts <= 256
      /\ exists ctx,
           Make rt p opts input_size out = (OK, Some ctx, parsers_ ctx)
           /\ num_parsers_ ctx = num_parsers opts
           /\ length (parsers_ ctx) = Z.to_nat (num_parsers opts)).
Proof.
  destruct (Make_outcome rt p opts input_size out) as [Hfail Hok].
  split; [exact Hfail |]. intros H.
  destruct (Hok H) as (Hn & ctx & s & ro & rv & b & Hrun & _ & _ & Hnum & _ & Hparsers).
  split; [exact Hn |]. exists ctx. repeat split; auto.
  now rewrite Hparsers, length_map, length_seq.
Qed.

(** X18. In the context of a successful [Make], parser number [i] has index
    [i] and works on output buffers of its own: the buffers handed out by
    allocations number [2i] and [2i + 1] of the allocator. *)
Theorem Make_gives_each_parser_its_buffers rt p opts input_size out ctx i d :
  ok (fst (fst (Make rt p opts input_size out))) = true ->
  snd (fst (Make rt p opts input_size out)) = Some ctx ->
  (i < Z.to_nat (num_parsers opts))%nat ->
  idx_ (nth i (parsers_ ctx) d) = Z.of_nat i
  /\ raw_out_offsets (nth i (parsers_ ctx) d)
     = snd (Allocate rt (2 * i)%nat (out_offset_buffer_capacity opts))
  /\ raw_out_values (nth i (parsers_ ctx) d)
     = snd (Allocate rt (2 * i + 1)%nat (out_values_buffer_capacity opts))
  /\ p_seq_column (nth i (parsers_ ctx) d) = seq_column opts.
Proof.
  intros Hok Hctx Hi.
  destruct (proj2 (Make_outcome rt p opts input_size out) Hok)
    as (_ & ctx' & s & ro & rv & b & Hrun & Hout & Hs & _ & _ & Hparsers).
  rewrite Hrun in Hctx. simpl in Hctx. injection Hctx as <-.
  unfold Fpga.PrepareOutputBatches in Hout.
  apply PrepareOutputBatches_loop_buffers in Hout as [-> ->]; [| exact Hs].
  rewrite length_seq in Hparsers. simpl in Hparsers.
  rewrite Hparsers.
  rewrite (nth_indep _ d
             (parser_at (num_parsers opts) (seq_column opts)
                (map (fun j => snd (Allocate rt (0 + 2 * j)%nat
                                      (out_offset_buffer_capacity opts)))
                     (seq 0 (Z.to_nat (num_parsers opts))))
                (map (fun j => snd (Allocate rt (0 + 2 * j + 1)%nat
                                      (out_values_buffer_capacity opts)))
                     (seq 0 (Z.to_nat (num_parsers opts))))
                0%nat))
    by (rewrite length_map, length_seq; exact Hi).
  rewrite (map_nth (parser_at _ _ _ _)), seq_nth by exact Hi. simpl.
  rewrite (nth_indep _ 0 (snd (Allocate rt (0 + 2 * 0)%nat
                                   (out_offset_buffer_capacity opts))))
    by (rewrite length_map, length_seq; exact Hi).
  rewrite (map_nth (fun j => snd (Allocate rt (0 + 2 * j)%nat _))), seq_nth by exact Hi.
  rewrite (nth_indep _ 0 (snd (Allocate rt (0 + 2 * 0 + 1)%nat
                                   (out_values_buffer_capacity opts))))
    by (rewrite length_map, length_seq; exact Hi).
  rewrite (map_nth (fun j => snd (Allocate rt (0 + 2 * j + 1)%nat _))), seq_nth
    by exact Hi.
  simpl. repeat split; do 2 f_equal; lia.
Qed.

(** X19. After a successful [Make], [CheckThreadCount] and [CheckBufferCount]
    answer with the number of parsers, whatever number of threads or
    buffers is asked about. *)
Theorem CheckCounts_after_Make rt p opts input_size out ctx num_threads num_buffers :
  ok (fst (fst (Make rt p opts input_size out))) = true ->
  snd (fst (Make rt p opts input_size out)) = Some ctx ->
  0 <= num_parsers opts ->
  CheckThreadCount ctx num_threads = num_parsers opts
  /\ CheckBufferCount ctx num_buffers = num_parsers opts.
Proof.
  intros Hok Hctx Hn.
  destruct (proj2 (Make_outcome rt p opts input_size out) Hok)
    as (_ & ctx' & s & ro & rv & b & Hrun & _ & _ & _ & _ & Hparsers).
  rewrite Hrun in Hctx. simpl in Hctx. injection Hctx as <-.
  unfold CheckThreadCount, CheckBufferCount.
  rewrite Hparsers, length_map, length_seq. lia.
Qed.
End FpgaMore.


Lemma Parse_appends_in_order_witness :
  exists st out',
    Fpga.Parse Inputs.default_regs Inputs.range_regs_per_inst
      Inputs.in_addr_regs_per_inst Inputs.out_addr_regs_per_inst Inputs.ctrl_reset
      Inputs.ctrl_start Inputs.stat_done Inputs.WithMetaRequired 10
      Inputs.fpga_platform Inputs.builder_ok (Inputs.fpga_parser true)
      [Inputs.json_buffer; MoreInputs.short_buffer] []
    = Some (st, out')
    /\ exists new,
         out' = [] ++ new
         /\ List.Forall2
              (fun buf b => Inputs.fpga_ParseOne 10 true buf = Some (inr b))
              (firstn (length new) [Inputs.json_buffer; MoreInputs.short_buffer]) new
         /\ map seq_range new
            = map range (firstn (length new) [Inputs.json_buffer; MoreInputs.short_buffer])
         /\ (ok st = true -> st = OK /\ length new = 2%nat)
         /\ (ok st = false ->
             exists buf,
               nth_error [Inputs.json_buffer; MoreInputs.short_buffer] (length new)
               = Some buf
               /\ Inputs.fpga_ParseOne 10 true buf = Some (inl st)).
Proof.
  eexists _, _. split; [reflexivity |].
  exact (Parse_appends_in_order Inputs.default_regs Inputs.range_regs_per_inst
           Inputs.in_addr_regs_per_inst Inputs.out_addr_regs_per_inst Inputs.ctrl_reset
           Inputs.ctrl_start Inputs.stat_done Inputs.WithMetaRequired 10
           Inputs.fpga_platform Inputs.builder_ok (Inputs.fpga_parser true)
           [Inputs.json_buffer; MoreInputs.short_buffer] [] _ _ eq_refl).
Defined.

Lemma Make_gives_each_parser_its_buffers_witness :
  exists ctx,
    snd (fst (Inputs.fpga_Make 2)) = Some ctx
    /\ Fpga.idx_ (nth 1 (Fpga.parsers_ ctx) (Inputs.fpga_parser false)) = 1
    /\ Fpga.raw_out_offsets (nth 1 (Fpga.parsers_ ctx) (Inputs.fpga_parser false))
       = 1056768
    /\ Fpga.raw_out_values (nth 1 (Fpga.parsers_ ctx) (Inputs.fpga_parser false))
       = 1060864
    /\ Fpga.p_seq_column (nth 1 (Fpga.parsers_ ctx) (Inputs.fpga_parser false)) = false.
Proof.
  eexists. split; [reflexivity |].
  exact (Make_gives_each_parser_its_buffers Inputs.default_regs
           Inputs.range_regs_per_inst Inputs.in_addr_regs_per_inst
           Inputs.WithMetaRequired Inputs.raw_json_input_schema Inputs.fpga_runtime
           Inputs.fpga_platform (Inputs.fpga_options 2) 4096 None _ 1%nat
           (Inputs.fpga_parser false) eq_refl eq_refl (le_n 2)).
Defined.

Lemma CheckCounts_after_Make_witness :
  exists ctx,
    snd (fst (Inputs.fpga_Make 2)) = Some ctx
    /\ Fpga.CheckThreadCount ctx 8 = 2 /\ Fpga.CheckBufferCount ctx 1 = 2.
Proof.
  eexists. split; [reflexivity |].
  refine (CheckCounts_after_Make Inputs.default_regs
            Inputs.range_regs_per_inst Inputs.in_addr_regs_per_inst
            Inputs.WithMetaRequired Inputs.raw_json_input_schema Inputs.fpga_runtime
            Inputs.fpga_platform (Inputs.fpga_options 2) 4096 None _ 8 1
            eq_refl eq_refl _).
  simpl. lia.
Defined.

(** ** The OPAE host to device address map *)

Section OpaeAddrMore.
Import OpaeAddr.

Lemma ExtractAddrMap_loop_app pre : forall post result,
  ExtractAddrMap_loop (pre ++ post) result
  = ExtractAddrMap_loop post (ExtractAddrMap_loop pre result).
Proof.
  induction pre as [| b pre IH]; intros post result; simpl; [reflexivity | apply IH].
Qed.

Lemma ExtractAddrMap_loop_absent buffers ha : forall result,
  (forall b, In b buffers -> host_address b <> ha) ->
  ExtractAddrMap_loop buffers result !! ha = result !! ha.
Proof.
  induction buffers as [| b rest IH]; intros result Habs; simpl; [reflexivity |].
  rewrite IH by (intros b' Hin; apply Habs; now right).
  apply lookup_insert_ne. apply Habs. now left.
Qed.

(** X20. The map of [ExtractAddrMap] holds nothing for a host address that no
    device buffer has, and for the host address of a buffer the device
    address of the last buffer with that host address: a later buffer
    with the same host address replaces an earlier one. *)
Theorem ExtractAddrMap_last_buffer_wins context :
  (forall ha,
      (forall b, In b context -> host_address b <> ha) ->
      ExtractAddrMap context !! ha = None)
  /\ (forall pre b post,
        context = pre ++ b :: post ->
        (forall b', In b' post -> host_address b' <> host_address b) ->
        ExtractAddrMap context !! host_address b = Some (device_address b)).
Proof.
  unfold ExtractAddrMap. split.
  - intros ha Habs. now rewrite ExtractAddrMap_loop_absent.
  - intros pre b post -> Hlast. rewrite ExtractAddrMap_loop_app. simpl.
    rewrite ExtractAddrMap_loop_absent by exact Hlast.
    apply lookup_insert_eq.
Qed.
End OpaeAddrMore.

(** ** The OPAE context: the derived AFU ID *)

Section OpaeMakeMore.
Import Opae.

Lemma string_length_app (a b : string) :
  String.length (a ++ b)%string = (String.length a + String.length b)%nat.
Proof.
  induction a as [| ch a IH]; [reflexivity |].
  change (S (String.length (a ++ b)%string) = S (String.length a + String.length b)).
  now rewrite IH.
Qed.

Lemma hex_width2_length n : 0 <= n <= 255 -> String.length (hex_width2 n) = 2%nat.
Proof.
  intros Hn.
  assert (forallb (fun k => (String.length (hex_width2 (Z.of_nat k)) =? 2)%nat)
            (seq 0 256) = true) as Hall by (vm_compute; reflexivity).
  rewrite forallb_forall in Hall.
  specialize (Hall (Z.to_nat n)). rewrite Z2Nat.id in Hall by lia.
  apply Nat.eqb_eq, Hall, in_seq. lia.
Qed.

Lemma hex_width2_injective n m :
  0 <= n <= 255 -> 0 <= m <= 255 -> hex_width2 n = hex_width2 m -> n = m.
Proof.
  intros Hn Hm Heq.
  assert (forallb (fun i =>
            forallb (fun j =>
                       implb (String.eqb (hex_width2 (Z.of_nat i))
                                (hex_width2 (Z.of_nat j)))
                             (i =? j)%nat)
                    (seq 0 256))
            (seq 0 256) = true) as Hall by (vm_compute; reflexivity).
  rewrite forallb_forall in Hall.
  specialize (Hall (Z.to_nat n) ltac:(apply in_seq; lia)).
  rewrite forallb_forall in Hall.
  specialize (Hall (Z.to_nat m) ltac:(apply in_seq; lia)).
  rewrite !Z2Nat.id, Heq, String.eqb_refl in Hall by lia. simpl in Hall.
  apply Nat.eqb_eq in Hall. lia.
Qed.

Lemma Make_derived rt opts out :
  afu_id opts = "" -> num_parsers opts <= 255 ->
  ok (fst (fst (Make rt opts out))) = true ->
  snd (fst (Make rt opts out))
  = Some {| opts_ := {| afu_id := ("9ca43fb0-c340-4908-b79b-5c89b4ef5e"
                                   ++ hex_width2 (num_parsers opts))%string;
                        num_parsers := num_parsers opts |};
            num_parsers_ := num_parsers opts; parsers_ := [] |}.
Proof.
  intros Hid Hn. unfold Make. rewrite Hid. simpl.
  assert ((num_parsers opts >? 255) = false) as ->
    by (rewrite Z.gtb_ltb; apply Z.ltb_ge; lia).
  destruct (ok (of_fletcher (Platform_Make rt))) eqn:H1; simpl;
    [| rewrite H1; discriminate].
  destruct (ok (of_fletcher (Platform_Init rt))) eqn:H2; simpl;
    [| rewrite H2; discriminate].
  reflexivity.
Qed.

(** X21. Without an AFU ID in the options and with at most 255 parsers, the
    context of a successful [Make] has an AFU ID of 36 characters: the
    ID of the hardware design script, ending in the number of parsers as
    two hexadecimal digits. *)
Theorem Make_derives_afu_id rt opts out :
  afu_id opts = "" -> 0 <= num_parsers opts <= 255 ->
  ok (fst (fst (Make rt opts out))) = true ->
  exists ctx,
    snd (fst (Make rt opts out)) = Some ctx
    /\ afu_id (opts_ ctx)
       = ("9ca43fb0-c340-4908-b79b-5c89b4ef5e" ++ hex_width2 (num_parsers opts))%string
    /\ String.length (hex_width2 (num_parsers opts)) = 2%nat
    /\ String.length (afu_id (opts_ ctx)) = 36%nat.
Proof.
  intros Hid Hn Hok. eexists. split; [apply Make_derived; auto; lia |]. simpl.
  split; [reflexivity |]. split; [now apply hex_width2_length |].
  rewrite string_length_app, hex_width2_length by exact Hn. reflexivity.
Qed.

(** X22. AFU IDs derived for different numbers of parsers differ. *)
Theorem Make_derived_afu_ids_differ rt rt' opts opts' out out' ctx ctx' :
  afu_id opts = "" -> afu_id opts' = "" ->
  0 <= num_parsers opts <= 255 -> 0 <= num_parsers opts' <= 255 ->
  ok (fst (fst (Make rt opts out))) = true ->
  ok (fst (fst (Make rt' opts' out'))) = true ->
  snd (fst (Make rt opts out)) = Some ctx ->
  snd (fst (Make rt' opts' out')) = Some ctx' ->
  num_parsers opts <> num_parsers opts' ->
  afu_id (opts_ ctx) <> afu_id (opts_ ctx').
Proof.
  intros Hid Hid' Hn Hn' Hok Hok' Hctx Hctx' Hne.
  rewrite Make_derived in Hctx by (auto; lia).
  rewrite Make_derived in Hctx' by (auto; lia).
  injection Hctx as <-. injection Hctx' as <-. simpl. intros Heq.
  apply Hne, hex_width2_injective; [exact Hn | exact Hn' |].
  remember (hex_width2 (num_parsers opts)) as a.
  remember (hex_width2 (num_parsers opts')) as b.
  clear - Heq.
  repeat match type of Heq with
         | (String ?c ?x ++ a)%string = _ =>
             change (String c (x ++ a)%string = String c (x ++ b)%string) in Heq;
             injection Heq as Heq
         end.
  exact Heq.
Qed.
End OpaeMakeMore.

Lemma Make_derives_afu_id_witness :
  exists ctx,
    snd (fst (Opae.Make Inputs.opae_runtime (MoreInputs.opae_options 18) None)) = Some ctx
    /\ Opae.afu_id (Opae.opts_ ctx)
       = ("9ca43fb0-c340-4908-b79b-5c89b4ef5e" ++ Opae.hex_width2 18)%string
    /\ String.length (Opae.hex_width2 18) = 2%nat
    /\ String.length (Opae.afu_id (Opae.opts_ ctx)) = 36%nat.
Proof.
  apply (Make_derives_afu_id Inputs.opae_runtime (MoreInputs.opae_options 18) None
           eq_refl);
    [simpl; lia | reflexivity].
Defined.

Lemma Make_derived_afu_ids_differ_witness :
  exists ctx ctx',
    snd (fst (Opae.Make Inputs.opae_runtime (MoreInputs.opae_options 1) None)) = Some ctx
    /\ snd (fst (Opae.Make Inputs.opae_runtime (MoreInputs.opae_options 16) None))
       = Some ctx'
    /\ Opae.afu_id (Opae.opts_ ctx) <> Opae.afu_id (Opae.opts_ ctx').
Proof.
  eexists _, _. split; [reflexivity |]. split; [reflexivity |].
  apply (Make_derived_afu_ids_differ Inputs.opae_runtime Inputs.opae_runtime
           (MoreInputs.opae_options 1) (MoreInputs.opae_options 16) None None _ _
           eq_refl eq_refl);
    try reflexivity; simpl; lia.
Defined.

(** ** The OPAE context: Init *)

Section OpaeBatteryMore.
Import Arrow OpaeBattery MoreProps.
Variable WithMetaRequired : Schema -> string -> FletcherMode -> Schema.

Local Abbreviation PrepareOutputBatches_loop :=
  (OpaeBattery.PrepareOutputBatches_loop WithMetaRequired).
Local Abbreviation PrepareOutputBatches :=
  (OpaeBattery.PrepareOutputBatches WithMetaRequired).
Local Abbreviation Init := (OpaeBattery.Init WithMetaRequired).

(** The output buffers of a context are in good order. *)
Local Abbreviation buffers_zeroed := (fun c =>
  List.Forall (allocated_zeroed (allocator c)) (raw_out_offsets c ++ raw_out_values c)).

(** A successful [Allocate] hands out a buffer in good order. *)
Lemma Allocate_ok_buffer os size out st s ptr st' :
  OpaeAllocator.Allocate os size out st = (s, ptr, st') -> ok s = true ->
  exists addr, ptr = Some addr /\ allocated_zeroed st' addr.
Proof.
  unfold OpaeAllocator.Allocate.
  destruct (OpaeAllocator.mmap os _ _ _) as [addr |] eqn:Hmap;
    [| intros [= <- _ _]; discriminate].
  unfold OpaeAllocator.memset. rewrite Z.eqb_refl. simpl.
  intros [= <- <- <-] _. exists addr. split; [reflexivity |]. split; simpl.
  - apply lookup_insert_eq.
  - intros a Ha. simpl.
    exact (memset_zeroes (OpaeAllocator.memory st) addr
             OpaeAllocator.opae_fixed_capacity a Ha).
Qed.

(** What the loop of [PrepareOutputBatches] keeps, and what it adds when
    it succeeds. *)
Lemma opae_PrepareOutputBatches_loop_spec rt : forall is_ calls c s c',
  PrepareOutputBatches_loop rt is_ calls c = (s, c') ->
  parsers_ c' = parsers_ c /\ num_parsers_ c' = num_parsers_ c
  /\ batches_in c' = batches_in c /\ h2d_addr_map c' = h2d_addr_map c
  /\ (ok s = true ->
      length (raw_out_offsets c') = (length (raw_out_offsets c) + length is_)%nat
      /\ length (raw_out_values c') = (length (raw_out_values c) + length is_)%nat
      /\ length (batches_out c') = (length (batches_out c) + length is_)%nat
      /\ (buffers_zeroed c -> buffers_zeroed c')).
Proof.
  induction is_ as [| i is_ IH]; intros calls c s c'; simpl.
  - intros [= <- <-]. repeat split; auto.
  - destruct (OpaeAllocator.Allocate (os rt calls) _ None (allocator c))
      as [[s1 offsets] st1] eqn:H1.
    destruct (ok s1) eqn:Hs1; simpl;
      [| intros [= <- <-]; simpl; repeat split; auto; congruence].
    destruct (OpaeAllocator.Allocate (os rt (S calls)) _ None st1)
      as [[s2 values] st2] eqn:H2.
    destruct (ok s2) eqn:Hs2; simpl;
      [| intros [= <- <-]; simpl; repeat split; auto; congruence].
    intros Hrest. apply IH in Hrest as (Hp & Hn & Hin & Hmap & Hok). simpl in *.
    split; [exact Hp |]. split; [exact Hn |]. split; [exact Hin |].
    split; [exact Hmap |]. intros Hs. destruct (Hok Hs) as (Hlo & Hlv & Hlb & Hz).
    split; [| split; [| split]].
    1-3: rewrite ?Hlo, ?Hlv, ?Hlb, length_app; simpl; lia.
    intros Hgood. apply Hz.
    destruct (Allocate_ok_buffer _ _ _ _ _ _ _ H1 Hs1) as (a1 & -> & Ha1).
    destruct (Allocate_ok_buffer _ _ _ _ _ _ _ H2 Hs2) as (a2 & -> & Ha2).
    assert (forall addr, allocated_zeroed (allocator c) addr -> allocated_zeroed st2 addr)
      as Hkeep.
    { intros addr Haddr.
      replace st2 with (snd (OpaeAllocator.Allocate (os rt (S calls))
                               OpaeAllocator.fixed_capacity_ None st1))
        by now rewrite H2.
      apply Allocate_preserves_buffer.
      replace st1 with (snd (OpaeAllocator.Allocate (os rt calls)
                               OpaeAllocator.fixed_capacity_ None (allocator c)))
        by now rewrite H1.
      now apply Allocate_preserves_buffer. }
    assert (allocated_zeroed st2 a1) as Ha1'.
    { replace st2 with (snd (OpaeAllocator.Allocate (os rt (S calls))
                               OpaeAllocator.fixed_capacity_ None st1))
        by now rewrite H2.
      now apply Allocate_preserves_buffer. }
    apply List.Forall_app in Hgood as [Hgo Hgv]. simpl.
    rewrite !List.Forall_app. split; split.
    + eapply List.Forall_impl; [exact Hkeep | exact Hgo].
    + apply List.Forall_cons; [exact Ha1' | apply List.Forall_nil].
    + eapply List.Forall_impl; [exact Hkeep | exact Hgv].
    + apply List.Forall_cons; [exact Ha2 | apply List.Forall_nil].
Qed.

(** X23. When [PrepareOutputBatches] succeeds, the context has two more output
    buffers and one more output batch for each of its [num_parsers_]
    parsers, and all its output buffers are in good order, the new ones
    and those it had: recorded by the allocator with the fixed capacity,
    and all zero. *)
Theorem opae_PrepareOutputBatches_buffers rt c s c' :
  PrepareOutputBatches rt c = (s, c') -> ok s = true ->
  List.Forall (allocated_zeroed (allocator c)) (raw_out_offsets c ++ raw_out_values c) ->
  length (raw_out_offsets c')
  = (length (raw_out_offsets c) + Z.to_nat (num_parsers_ c))%nat
  /\ length (raw_out_values c')
     = (length (raw_out_values c) + Z.to_nat (num_parsers_ c))%nat
  /\ length (batches_out c') = (length (batches_out c) + Z.to_nat (num_parsers_ c))%nat
  /\ List.Forall (allocated_zeroed (allocator c'))
       (raw_out_offsets c' ++ raw_out_values c').
Proof.
  intros Hrun Hs Hgood. unfold OpaeBattery.PrepareOutputBatches in Hrun.
  apply opae_PrepareOutputBatches_loop_spec in Hrun as (_ & _ & _ & _ & Hok).
  destruct (Hok Hs) as (Hlo & Hlv & Hlb & Hz). rewrite length_seq in *.
  repeat split; auto.
Qed.

(** X24. [Init] of the context that [Make] has just handed out refuses every
    list of buffers that is not empty: [Make] constructs no parsers, and
    [Init] wants as many buffers as there are parsers. The context stays
    as it was. *)
Theorem opae_Init_after_Make_wants_no_buffers rt_make rt opts out ctx alloc buffers :
  ok (fst (fst (Opae.Make rt_make opts out))) = true ->
  snd (fst (Opae.Make rt_make opts out)) = Some ctx ->
  buffers <> [] ->
  Init rt (of_Make ctx alloc) buffers
  = (Err OpaeError
       "BatteryParser implementation requires number of buffers and parsers to be equal.",
     of_Make ctx alloc).
Proof.
  intros Hok Hctx Hne.
  destruct (proj2 (Make_constructs_no_parsers rt_make opts out) Hok)
    as (ctx' & Hctx' & Hnone & _).
  rewrite Hctx in Hctx'. injection Hctx' as <-.
  unfold OpaeBattery.Init. simpl. rewrite Hnone.
  destruct buffers as [| b rest]; [contradiction | reflexivity].
Qed.

(** X25. When [Init] succeeds on a context whose output buffers are in good
    order, it has added one parser for each of [num_parsers_] indices to
    the parsers that were there, as many as there are buffers; the new
    parser number [i] has index [i], and its two output buffers are in
    good order in the allocator of the context. *)
Theorem opae_Init_parsers_have_zeroed_buffers rt c buffers s c' :
  Init rt c buffers = (s, c') -> ok s = true ->
  List.Forall (allocated_zeroed (allocator c)) (raw_out_offsets c ++ raw_out_values c) ->
  length (parsers_ c') = (length buffers + Z.to_nat (num_parsers_ c))%nat
  /\ forall i d,
       (i < Z.to_nat (num_parsers_ c))%nat ->
       Opae.idx_ (nth (length buffers + i) (parsers_ c') d) = Z.of_nat i
       /\ allocated_zeroed (allocator c')
            (Opae.raw_out_offsets (nth (length buffers + i) (parsers_ c') d))
       /\ allocated_zeroed (allocator c')
            (Opae.raw_out_values (nth (length buffers + i) (parsers_ c') d)).
Proof.
  unfold OpaeBattery.Init.
  destruct (length (parsers_ c) =? length buffers)%nat eqn:Hlen; simpl;
    [| intros [= <- <-]; discriminate].
  apply Nat.eqb_eq in Hlen.
  destruct (ok (Opae.of_fletcher (Context_Make rt))) eqn:H1; simpl;
    [| intros [= <- <-] Hs; rewrite H1 in Hs; discriminate].
  destruct (OpaeBattery.PrepareOutputBatches _ _ _) as [s2 c2] eqn:Hout.
  destruct (ok s2) eqn:H2; simpl;
    [| intros [= <- <-] Hs; rewrite H2 in Hs; discriminate].
  destruct (ok (QueueRecordBatches rt (batches_in c2))) eqn:H3; simpl;
    [| intros [= <- <-] Hs; rewrite H3 in Hs; discriminate].
  destruct (ok (QueueRecordBatches rt (batches_out c2))) eqn:H4; simpl;
    [| intros [= <- <-] Hs; rewrite H4 in Hs; discriminate].
  destruct (ok (Opae.of_fletcher (Context_Enable rt))) eqn:H5; simpl;
    [| intros [= <- <-] Hs; rewrite H5 in Hs; discriminate].
  destruct (ok (Opae.of_fletcher (WriteMetaData rt))) eqn:H6; simpl;
    [| intros [= <- <-] Hs; rewrite H6 in Hs; discriminate].
  intros [= <- <-] _ Hgood. simpl.
  unfold OpaeBattery.PrepareOutputBatches in Hout.
  apply opae_PrepareOutputBatches_loop_spec in Hout as (Hp & Hn & _ & _ & Hok).
  destruct (Hok H2) as (Hlo & Hlv & _ & Hz). simpl in *.
  specialize (Hz Hgood). apply List.Forall_app in Hz as [Hzo Hzv].
  rewrite length_seq in *. rewrite Hp, Hn, length_app, length_map, length_seq, Hlen.
  split; [reflexivity |]. intros i d Hi.
  rewrite <- Hlen, app_nth2_plus.
  rewrite (nth_indep _ d
             ((fun i => {| Opae.idx_ := Z.of_nat i;
                           Opae.p_num_parsers := num_parsers_ c;
                           Opae.raw_out_offsets := nth i (raw_out_offsets c2) 0;
                           Opae.raw_out_values := nth i (raw_out_values c2) 0 |})
                0%nat))
    by (rewrite length_map, length_seq; exact Hi).
  rewrite (map_nth (fun i => {| Opae.idx_ := Z.of_nat i;
                                Opae.p_num_parsers := num_parsers_ c;
                                Opae.raw_out_offsets := nth i (raw_out_offsets c2) 0;
                                Opae.raw_out_values := nth i (raw_out_values c2) 0 |})),
    seq_nth by exact Hi.
  simpl. split; [reflexivity |]. rewrite List.Forall_forall in Hzo, Hzv.
  split; [apply Hzo | apply Hzv]; apply nth_In; lia.
Qed.
End OpaeBatteryMore.

Lemma opae_PrepareOutputBatches_buffers_witness :
  let r := OpaeBattery.PrepareOutputBatches Inputs.WithMetaRequired
             MoreInputs.opae_battery_runtime MoreInputs.opae_context in
  length (OpaeBattery.raw_out_offsets (snd r)) = 2%nat
  /\ length (OpaeBattery.raw_out_values (snd r)) = 2%nat
  /\ length (OpaeBattery.batches_out (snd r)) = 2%nat
  /\ List.Forall (MoreProps.allocated_zeroed (OpaeBattery.allocator (snd r)))
       (OpaeBattery.raw_out_offsets (snd r) ++ OpaeBattery.raw_out_values (snd r)).
Proof.
  intros r.
  exact (opae_PrepareOutputBatches_buffers Inputs.WithMetaRequired
           MoreInputs.opae_battery_runtime MoreInputs.opae_context (fst r) (snd r)
           (surjective_pairing r) eq_refl (List.Forall_nil _)).
Defined.

Lemma opae_Init_after_Make_wants_no_buffers_witness :
  exists ctx,
    snd (fst (Opae.Make Inputs.opae_runtime (MoreInputs.opae_options 2) None)) = Some ctx
    /\ OpaeBattery.Init Inputs.WithMetaRequired MoreInputs.opae_battery_runtime
         (OpaeBattery.of_Make ctx Inputs.fresh_allocator) [Inputs.json_buffer]
       = (Err OpaeError
            "BatteryParser implementation requires number of buffers and parsers to be equal.",
          OpaeBattery.of_Make ctx Inputs.fresh_allocator).
Proof.
  eexists. split; [reflexivity |].
  apply (opae_Init_after_Make_wants_no_buffers Inputs.WithMetaRequired
           Inputs.opae_runtime MoreInputs.opae_battery_runtime
           (MoreInputs.opae_options 2) None _ Inputs.fresh_allocator
           [Inputs.json_buffer] eq_refl eq_refl).
  discriminate.
Defined.

Lemma opae_Init_parsers_have_zeroed_buffers_witness :
  let r := OpaeBattery.Init Inputs.WithMetaRequired MoreInputs.opae_battery_runtime
             MoreInputs.opae_context [] in
  length (OpaeBattery.parsers_ (snd r)) = 2%nat
  /\ forall i d,
       (i < 2)%nat ->
       Opae.idx_ (nth (0 + i) (OpaeBattery.parsers_ (snd r)) d) = Z.of_nat i
       /\ MoreProps.allocated_zeroed (OpaeBattery.allocator (snd r))
            (Opae.raw_out_offsets (nth (0 + i) (OpaeBattery.parsers_ (snd r)) d))
       /\ MoreProps.allocated_zeroed (OpaeBattery.allocator (snd r))
            (Opae.raw_out_values (nth (0 + i) (OpaeBattery.parsers_ (snd r)) d)).
Proof.
  intros r.
  exact (opae_Init_parsers_have_zeroed_buffers Inputs.WithMetaRequired
           MoreInputs.opae_battery_runtime MoreInputs.opae_context [] (fst r) (snd r)
           (surjective_pairing r) eq_refl (List.Forall_nil _)).
Defined.

(** ** The single-instance OPAE parser *)

Section OpaeBatteryParserMore.
Import Arrow OpaeBatteryParser.
Variable WithMetaRequired : Schema -> string -> FletcherMode -> Schema.

Local Abbreviation Make := (OpaeBatteryParser.Make WithMetaRequired).

(** X28. [Make] drops the status of [PrepareOutputBatch]: whether it returns
    OK depends on the platform only, an error leaves [*out] as it was,
    and when the first allocation fails and the platform works, [Make]
    returns OK with a parser that has no output buffers and no output
    batch. *)
Theorem OpaeBatteryParser_Make_drops_allocation_status rt alloc opts out :
  ok (fst (Make rt alloc opts out))
  = ok (Platform_Make rt) && ok (Platform_Init rt)
  /\ (ok (fst (Make rt alloc opts out)) = false -> snd (Make rt alloc opts out) = out)
  /\ (OpaeAllocator.mmap (os rt 0%nat) OpaeAllocator.fixed_capacity_
        OpaeAllocator.mmap_prot OpaeAllocator.mmap_flags = None ->
      ok (fst (Make rt alloc opts out)) = true ->
      exists parser,
        snd (Make rt alloc opts out) = Some parser
        /\ out_offsets parser = None /\ out_values parser = None
        /\ batch_out parser = None).
Proof.
  unfold OpaeBatteryParser.Make.
  destruct (PrepareOutputBatch _ _ _ _ _) as [s0 result] eqn:Hprep.
  destruct (Platform_Make rt) as [| e1 m1]; simpl;
    [| split; [reflexivity | split; [reflexivity | intros _ H; discriminate H]]].
  destruct (Platform_Init rt) as [| e2 m2]; simpl;
    [| split; [reflexivity | split; [reflexivity | intros _ H; discriminate H]]].
  split; [reflexivity | split; [discriminate |]]. intros Hmap _. exists result.
  split; [reflexivity |].
  unfold PrepareOutputBatch, OpaeAllocator.Allocate in Hprep. simpl in Hprep.
  rewrite Hmap in Hprep. simpl in Hprep. injection Hprep as <- <-. auto.
Qed.
End OpaeBatteryParserMore.

Lemma OpaeBatteryParser_Make_drops_allocation_status_witness :
  exists parser,
    snd (OpaeBatteryParser.Make Inputs.WithMetaRequired MoreInputs.opae_parser_runtime
           Inputs.fresh_allocator MoreInputs.opae_parser_options None) = Some parser
    /\ OpaeBatteryParser.out_offsets parser = None
    /\ OpaeBatteryParser.out_values parser = None
    /\ OpaeBatteryParser.batch_out parser = None.
Proof.
  exact (proj2 (proj2 (OpaeBatteryParser_Make_drops_allocation_status
                         Inputs.WithMetaRequired MoreInputs.opae_parser_runtime
                         Inputs.fresh_allocator MoreInputs.opae_parser_options None))
           eq_refl eq_refl).
Defined.

(** ** The command line *)

Section CliMore.
Import Cli.
Variables SubCommand Bench : Type.
Variables STREAM BENCH : SubCommand.
Variables CLIENT CONVERT PULSAR QUEUE : Bench.
Variable Bound : Type.

Local Abbreviation FromArguments :=
  (Cli.FromArguments STREAM BENCH CLIENT CONVERT PULSAR QUEUE (Bound:=Bound)).

(** X29. [FromArguments] fails in two cases only: CLI11 throws an error
    other than the call for help, or "bench convert" was parsed and its
    [ParseInput] fails. The status of [ParseInput] of "stream" is not
    looked at. When CLI11 throws, [FromArguments] assigns neither [sub]
    nor [bench.bench], and the members bound to options are as CLI11 has
    left them. *)
Theorem FromArguments_fails_iff cli argv out :
  (ok (fst (fst (FromArguments cli argv out))) = false
   <-> (exists name what, fst (parse cli argv (bound out)) = CLI_Error name what)
       \/ (fst (parse cli argv (bound out)) = Returned /\ stream_parsed cli = false
           /\ bench_parsed cli = true /\ bench_client_parsed cli = false
           /\ bench_convert_parsed cli = true
           /\ ok (fst (bench_convert_ParseInput cli
                         (snd (parse cli argv (bound out))))) = false))
  /\ (fst (parse cli argv (bound out)) <> Returned ->
      sub (snd (fst (FromArguments cli argv out))) = sub out
      /\ bench (snd (fst (FromArguments cli argv out))) = bench out
      /\ bound (snd (fst (FromArguments cli argv out)))
         = snd (parse cli argv (bound out))).
Proof.
  unfold Cli.FromArguments.
  destruct (parse cli argv (bound out)) as [outcome b]. simpl. split.
  - destruct outcome as [| name what |]; simpl.
    + split; [discriminate |].
      intros [(name & what & H) | (H & _)]; discriminate H.
    + split; [eauto | reflexivity].
    + destruct (stream_parsed cli); simpl.
      { destruct (stream_converter_ParseInput cli b) as [s0 b0]. simpl.
        split; [discriminate |].
        intros [(name & what & H) | (_ & H & _)]; discriminate H. }
      destruct (bench_parsed cli); simpl;
        [| split; [discriminate |];
           intros [(name & what & H) | (_ & _ & H & _)]; discriminate H].
      destruct (bench_client_parsed cli); simpl;
        [split; [discriminate |];
         intros [(name & what & H) | (_ & _ & _ & H & _)]; discriminate H |].
      destruct (bench_convert_parsed cli); simpl.
      * destruct (bench_convert_ParseInput cli b) as [s0 b0]. simpl.
        destruct (ok s0) eqn:Hin; simpl.
        -- split; [discriminate |].
           intros [(name & what & H) | (_ & _ & _ & _ & _ & H)]; discriminate H.
        -- rewrite Hin. split; [intros _; right; repeat split | reflexivity].
      * destruct (bench_pulsar_parsed cli); simpl;
          [split; [discriminate |];
           intros [(name & what & H) | (_ & _ & _ & _ & H & _)]; discriminate H |].
        destruct (bench_queue_parsed cli); simpl;
          (split; [discriminate |];
           intros [(name & what & H) | (_ & _ & _ & _ & H & _)]; discriminate H).
  - destruct outcome; simpl; [auto | auto | congruence].
Qed.
End CliMore.

(** ** The tweet generator's stream server *)

Section TweetgenMore.
Import Tweetgen.
Variable GenerateOptions : Type.
Variable GenerateTweets : GenerateOptions -> nat -> string.

Lemma StreamServer_loop_spec (opts : StreamOptions GenerateOptions) :
  forall remaining m tr,
    StreamServer_loop GenerateTweets opts remaining m tr
    = tr ++ map (fun k => Send (GenerateTweets (gen opts) k)) (seq m remaining).
Proof.
  induction remaining as [| remaining IH]; intros m tr; simpl.
  - now rewrite app_nil_r.
  - rewrite IH, <- app_assoc. reflexivity.
Qed.

(** X30. [StreamServer] binds the socket to the port of the options on every
    interface, sends the messages generated one after the other,
    [num_messages] of them, then the end-of-stream marker, and returns
    0. *)
Theorem StreamServer_sends (opts : StreamOptions GenerateOptions) :
  StreamServer GenerateTweets opts
  = (0,
     [Bind ("tcp://*:" ++ to_string (port (protocol opts)))%string]
     ++ map (fun k => Send (GenerateTweets (gen opts) k))
            (seq 0 (Z.to_nat (num_messages opts)))
     ++ [Send (eos_marker (protocol opts))]).
Proof.
  unfold StreamServer. rewrite StreamServer_loop_spec, <- app_assoc. reflexivity.
Qed.
End TweetgenMore.

(** ** The OPAE parser and the platform mutex *)

Section OpaeParseMore.
Import Arrow OpaeParse MoreProps.
Variables ctrl_offset input_lastidx_offset : Z -> Z.
Variables input_values_lo_offset input_values_hi_offset : Z -> Z.
Variables status_offset result_rows_offset_lo result_rows_offset_hi : Z -> Z.
Variables ctrl_reset ctrl_start stat_done : Z.
Variable WithMetaRequired : Schema -> string -> FletcherMode -> Schema.

Local Abbreviation poll_until_done := (OpaeParse.poll_until_done status_offset stat_done).
Local Abbreviation ParseOne :=
  (OpaeParse.ParseOne ctrl_offset input_lastidx_offset input_values_lo_offset
     input_values_hi_offset status_offset result_rows_offset_lo result_rows_offset_hi
     ctrl_reset ctrl_start stat_done WithMetaRequired).
Local Abbreviation Parse :=
  (OpaeParse.Parse ctrl_offset input_lastidx_offset input_values_lo_offset
     input_values_hi_offset status_offset result_rows_offset_lo result_rows_offset_hi
     ctrl_reset ctrl_start stat_done WithMetaRequired).

Lemma mutex_after_app a : forall held b,
  mutex_after held (a ++ b)
  = match mutex_after held a with
    | Some held' => mutex_after held' b
    | None => None
    end.
Proof.
  induction a as [| [|] a IH]; intros held b; simpl; [reflexivity | |];
    destruct held; auto.
Qed.

(** The busy wait gives the mutex away and takes it back. *)
Lemma poll_until_done_mutex p idx : forall fuel reads tr reads' tr',
  poll_until_done fuel p idx reads tr = Some (reads', tr') ->
  mutex_after false tr = Some true -> mutex_after false tr' = Some true.
Proof.
  induction fuel as [| fuel IH]; intros reads tr reads' tr'; simpl; [discriminate |].
  intros Hrun Hheld.
  assert (mutex_after false (tr ++ [Unlock; Lock]) = Some true) as Hround
    by (rewrite mutex_after_app, Hheld; reflexivity).
  destruct (negb _).
  - exact (IH _ _ _ _ Hrun Hround).
  - injection Hrun as _ <-. exact Hround.
Qed.

(** How [ParseOne] ends, and with the mutex held or not. *)
Lemma opae_ParseOne_outcome fuel p h2d_addr_map self in_ outcome tr :
  ParseOne fuel p h2d_addr_map self in_ = Some (outcome, tr) ->
  mutex_after false tr = Some (negb (hands_out_batch outcome))
  /\ (forall e, outcome = Returns (inl e) -> ok e = false)
  /\ (forall pb, outcome = Returns (inr pb) ->
                 seq_range pb = range in_
                 /\ exists da, h2d_addr_map !! data in_ = Some da).
Proof.
  unfold OpaeParse.ParseOne, roe.
  repeat match goal with
         | |- context [negb (ok (Fpga.WriteMMIO p ?o ?v))] =>
             let H := fresh "Hw" in
             destruct (ok (Fpga.WriteMMIO p o v)) eqn:H; simpl;
               [| intros [= <- <-];
                  split; [reflexivity | split; [now intros e [= <-] | discriminate]]]
         end.
  destruct (h2d_addr_map !! data in_) as [da |] eqn:Hda;
    [| intros [= <- <-]; split; [reflexivity | split; discriminate]].
  repeat match goal with
         | |- context [negb (ok (Fpga.WriteMMIO p ?o ?v))] =>
             let H := fresh "Hw" in
             destruct (ok (Fpga.WriteMMIO p o v)) eqn:H; simpl;
               [| intros [= <- <-];
                  split; [reflexivity | split; [now intros e [= <-] | discriminate]]]
         end.
  destruct (OpaeParse.poll_until_done _ _ _ _ _ _ _) as [[reads tr1] |] eqn:Hpoll;
    [| discriminate].
  destruct (Fpga.WrapOutput _ _ _ _ _) as [out_batch |]; [| discriminate].
  intros [= <- <-]. apply poll_until_done_mutex in Hpoll; [| reflexivity].
  split; [rewrite mutex_after_app, Hpoll; reflexivity |].
  split; [discriminate |]. intros pb [= <-]. simpl. eauto.
Qed.

(** X26. [ParseOne] never locks the mutex while it holds it and never unlocks
    it while it does not, and releases it only when it hands out a batch:
    when it returns an error instead, or when the buffer has no device
    address and [at] throws, the mutex is still locked. A batch handed
    out has the sequence range of the buffer, which then has a device
    address. *)
Theorem opae_ParseOne_mutex fuel p h2d_addr_map self in_ outcome tr :
  ParseOne fuel p h2d_addr_map self in_ = Some (outcome, tr) ->
  mutex_after false tr = Some (negb (hands_out_batch outcome))
  /\ (forall e, outcome = Returns (inl e) -> ok e = false)
  /\ (forall pb, outcome = Returns (inr pb) ->
                 seq_range pb = range in_
                 /\ exists da, h2d_addr_map !! data in_ = Some da).
Proof. apply opae_ParseOne_outcome. Qed.

(** X27. [Parse], started with the mutex free, appends to [*out] the
    batches that [ParseOne] hands out for the buffers before the first
    one for which it hands out none, in the order of the buffers. When
    it returns OK every buffer has its batch and the mutex is free.
    Otherwise the next buffer is the one on which [ParseOne] returned
    the error that [Parse] returns, or threw, and the mutex is left
    locked. *)
Theorem opae_Parse_mutex fuel p h2d_addr_map self :
  forall in_ out tr0 status out' tr,
    Parse fuel p h2d_addr_map self in_ out tr0 = Some (status, out', tr) ->
    mutex_after false tr0 = Some false ->
    exists new,
      out' = out ++ new
      /\ List.Forall2
           (fun buf b => exists tr1,
              ParseOne fuel p h2d_addr_map self buf = Some (Returns (inr b), tr1))
           (firstn (length new) in_) new
      /\ map seq_range new = map range (firstn (length new) in_)
      /\ (status = Some OK ->
          length new = length in_ /\ mutex_after false tr = Some false)
      /\ (status <> Some OK ->
          mutex_after false tr = Some true
          /\ exists buf tr1,
               nth_error in_ (length new) = Some buf
               /\ ParseOne fuel p h2d_addr_map self buf
                  = Some (match status with
                          | Some e => Returns (inl e)
                          | None => Throws_out_of_range
                          end, tr1)).
Proof.
  induction in_ as [| buf rest IH]; intros out tr0 status out' tr; simpl.
  - intros [= <- <- <-] Hfree. exists []. rewrite app_nil_r.
    split; [reflexivity |]. split; [constructor |]. split; [reflexivity |].
    split; [intros _; split; [reflexivity | exact Hfree] | congruence].
  - destruct (ParseOne fuel p h2d_addr_map self buf) as [[outcome tr1] |] eqn:Hone;
      [| discriminate].
    destruct (opae_ParseOne_outcome fuel p h2d_addr_map self buf outcome tr1 Hone)
      as (Hmutex & Herr & Hbatch).
    destruct outcome as [[e | b] |]; simpl in Hmutex.
    + intros [= <- <- <-] Hfree. exists []. rewrite app_nil_r.
      specialize (Herr e eq_refl).
      split; [reflexivity |]. split; [constructor |]. split; [reflexivity |]. split.
      * intros [= ->]. discriminate Herr.
      * intros _. split; [rewrite mutex_after_app, Hfree; exact Hmutex |].
        exists buf, tr1. split; [reflexivity | exact Hone].
    + intros Hrest Hfree.
      apply IH in Hrest as (new & -> & Hfrom & Hranges & Hok & Hfail);
        [| rewrite mutex_after_app, Hfree; exact Hmutex].
      destruct (Hbatch b eq_refl) as [Hrange _].
      exists (b :: new). rewrite <- app_assoc. simpl.
      split; [reflexivity |].
      split; [constructor; [exists tr1; exact Hone | exact Hfrom] |].
      split; [now rewrite Hrange, Hranges |]. split.
      * intros Hs. destruct (Hok Hs) as [Hlen Hm]. split; [now rewrite Hlen | exact Hm].
      * intros Hs. exact (Hfail Hs).
    + intros [= <- <- <-] Hfree. exists []. rewrite app_nil_r.
      split; [reflexivity |]. split; [constructor |]. split; [reflexivity |]. split.
      * discriminate.
      * intros _. split; [rewrite mutex_after_app, Hfree; exact Hmutex |].
        exists buf, tr1. split; [reflexivity | exact Hone].
Qed.
End OpaeParseMore.

Lemma opae_ParseOne_mutex_witness :
  exists outcome tr,
    MoreInputs.opae_ParseOne 10 MoreInputs.fpga_platform_no_start Inputs.json_buffer
    = Some (outcome, tr)
    /\ MoreProps.mutex_after false tr
       = Some (negb (MoreProps.hands_out_batch outcome))
    /\ (forall e, outcome = OpaeParse.Returns (inl e) -> ok e = false)
    /\ (forall pb, outcome = OpaeParse.Returns (inr pb) ->
                   seq_range pb = range Inputs.json_buffer
                   /\ exists da,
                        (<[65536 := 0]> ∅ : gmap Z Z) !! data Inputs.json_buffer
                        = Some da).
Proof.
  eexists _, _. split; [reflexivity |].
  exact (opae_ParseOne_mutex
           (Fpga.ctrl_offset Inputs.default_regs Inputs.range_regs_per_inst
              Inputs.in_addr_regs_per_inst Inputs.out_addr_regs_per_inst)
           (Fpga.input_lastidx_offset Inputs.default_regs)
           (Fpga.input_values_lo_offset Inputs.default_regs Inputs.range_regs_per_inst)
           (Fpga.input_values_hi_offset Inputs.default_regs Inputs.range_regs_per_inst)
           (Fpga.status_offset Inputs.default_regs Inputs.range_regs_per_inst
              Inputs.in_addr_regs_per_inst Inputs.out_addr_regs_per_inst)
           (Fpga.result_rows_offset_lo Inputs.default_regs Inputs.range_regs_per_inst
              Inputs.in_addr_regs_per_inst Inputs.out_addr_regs_per_inst)
           (Fpga.result_rows_offset_hi Inputs.default_regs Inputs.range_regs_per_inst
              Inputs.in_addr_regs_per_inst Inputs.out_addr_regs_per_inst)
           Inputs.ctrl_reset Inputs.ctrl_start Inputs.stat_done Inputs.WithMetaRequired
           10%nat
           MoreInputs.fpga_platform_no_start (<[65536 := 0]> ∅) MoreInputs.opae_parser
           Inputs.json_buffer _ _ eq_refl).
Defined.

Lemma opae_Parse_mutex_witness :
  exists status out' tr,
    MoreInputs.opae_Parse 10 Inputs.fpga_platform
      [Inputs.json_buffer; MoreInputs.short_buffer]
    = Some (status, out', tr)
    /\ exists new,
         out' = [] ++ new
         /\ List.Forall2
              (fun buf b => exists tr1,
                 MoreInputs.opae_ParseOne 10 Inputs.fpga_platform buf
                 = Some (OpaeParse.Returns (inr b), tr1))
              (firstn (length new) [Inputs.json_buffer; MoreInputs.short_buffer]) new
         /\ map seq_range new
            = map range (firstn (length new) [Inputs.json_buffer; MoreInputs.short_buffer])
         /\ (status = Some OK ->
             length new = 2%nat /\ MoreProps.mutex_after false tr = Some false)
         /\ (status <> Some OK ->
             MoreProps.mutex_after false tr = Some true
             /\ exists buf tr1,
                  nth_error [Inputs.json_buffer; MoreInputs.short_buffer] (length new)
                  = Some buf
                  /\ MoreInputs.opae_ParseOne 10 Inputs.fpga_platform buf
                     = Some (match status with
                             | Some e => OpaeParse.Returns (inl e)
                             | None => OpaeParse.Throws_out_of_range
                             end, tr1)).
Proof.
  eexists _, _, _. split; [reflexivity |].
  exact (opae_Parse_mutex
           (Fpga.ctrl_offset Inputs.default_regs Inputs.range_regs_per_inst
              Inputs.in_addr_regs_per_inst Inputs.out_addr_regs_per_inst)
           (Fpga.input_lastidx_offset Inputs.default_regs)
           (Fpga.input_values_lo_offset Inputs.default_regs Inputs.range_regs_per_inst)
           (Fpga.input_values_hi_offset Inputs.default_regs Inputs.range_regs_per_inst)
           (Fpga.status_offset Inputs.default_regs Inputs.range_regs_per_inst
              Inputs.in_addr_regs_per_inst Inputs.out_addr_regs_per_inst)
           (Fpga.result_rows_offset_lo Inputs.default_regs Inputs.range_regs_per_inst
              Inputs.in_addr_regs_per_inst Inputs.out_addr_regs_per_inst)
           (Fpga.result_rows_offset_hi Inputs.default_regs Inputs.range_regs_per_inst
              Inputs.in_addr_regs_per_inst Inputs.out_addr_regs_per_inst)
           Inputs.ctrl_reset Inputs.ctrl_start Inputs.stat_done Inputs.WithMetaRequired
           10%nat Inputs.fpga_platform
           (<[65536 := 0]> ∅) MoreInputs.opae_parser
           [Inputs.json_buffer; MoreInputs.short_buffer] [] [] _ _ _ eq_refl eq_refl).
Defined.

(** ** More runs on concrete inputs *)

Lemma Serialize_ok_iff_all_fit_witness :
  snd (Serializer.Serialize Inputs.rows_serializer Inputs.serializer_64
         [Inputs.small_batch; Inputs.big_batch]
         [{| Serializer.message := [];
             Serializer.sb_seq_range := {| first := 1; last := 9 |} |}])
  = [{| Serializer.message := [];
        Serializer.sb_seq_range := {| first := 1; last := 9 |} |}].
Proof.
  apply (proj2 (Serialize_ok_iff_all_fit Inputs.rows_serializer Inputs.serializer_64
                  [Inputs.small_batch; Inputs.big_batch]
                  [{| Serializer.message := [];
                      Serializer.sb_seq_range := {| first := 1; last := 9 |} |}])).
  reflexivity.
Defined.

Lemma Allocate_frame_witness :
  OpaeAllocator.memory
    (snd (OpaeAllocator.Allocate Inputs.os_huge_pages 4096 None Inputs.fresh_allocator))
    4096
  = OpaeAllocator.memory Inputs.fresh_allocator 4096.
Proof.
  exact (proj1 (proj1 (Allocate_frame Inputs.os_huge_pages 4096 None
                         Inputs.fresh_allocator)
                  70368744177664 eq_refl)
           4096 (or_introl eq_refl)).
Defined.

Lemma base_offset_windows_witness : Fpga.base_offset 3 = 1024 * 3.
Proof.
  apply (proj1 (base_offset_windows 3)). lia.
Defined.

Lemma WrapOutput_in_range_witness :
  exists b column,
    Fpga.WrapOutput Inputs.fpga_platform 4 4096 8192
      (Fpga.output_schema Inputs.WithMetaRequired) = Some b
    /\ Arrow.schema b = Fpga.output_schema Inputs.WithMetaRequired
    /\ Arrow.num_rows b = 4
    /\ Arrow.columns b = [column] /\ Arrow.array_length column = 4.
Proof.
  apply (proj1 (WrapOutput_in_range Inputs.fpga_platform 4 4096 8192
                  (Fpga.output_schema Inputs.WithMetaRequired))).
  lia.
Defined.

Lemma Make_writes_out_on_success_only_witness :
  snd (fst (Fpga.Make Inputs.default_regs Inputs.range_regs_per_inst
              Inputs.in_addr_regs_per_inst Inputs.WithMetaRequired
              Inputs.raw_json_input_schema Inputs.fpga_runtime Inputs.fpga_platform
              (Inputs.fpga_options 300) 4096 None))
  = None.
Proof.
  apply (proj1 (Make_writes_out_on_success_only Inputs.default_regs
                  Inputs.range_regs_per_inst Inputs.in_addr_regs_per_inst
                  Inputs.WithMetaRequired Inputs.raw_json_input_schema
                  Inputs.fpga_runtime Inputs.fpga_platform (Inputs.fpga_options 300)
                  4096 None)).
  reflexivity.
Defined.

Lemma ExtractAddrMap_last_buffer_wins_witness :
  OpaeAddr.ExtractAddrMap
    ([{| OpaeAddr.host_address := 4096; OpaeAddr.device_address := 1 |};
      {| OpaeAddr.host_address := 8192; OpaeAddr.device_address := 2 |}]
     ++ {| OpaeAddr.host_address := 4096; OpaeAddr.device_address := 3 |} :: [])
    !! OpaeAddr.host_address
         {| OpaeAddr.host_address := 4096; OpaeAddr.device_address := 3 |}
  = Some (OpaeAddr.device_address
            {| OpaeAddr.host_address := 4096; OpaeAddr.device_address := 3 |}).
Proof.
  apply (proj2 (ExtractAddrMap_last_buffer_wins _) _ _ [] eq_refl).
  intros b' [].
Defined.

Lemma FromArguments_fails_iff_witness :
  ok (fst (fst (Cli.FromArguments MoreInputs.STREAM MoreInputs.BENCH MoreInputs.CLIENT
                  MoreInputs.CONVERT MoreInputs.PULSAR MoreInputs.QUEUE
                  (MoreInputs.cli_bench_convert
                     (Err GenericError "Parser implementation not available."))
                  ["bolson"; "bench"; "convert"; "--input"; "battery.json"]
                  {| Cli.sub := MoreInputs.NONE; Cli.bench := MoreInputs.CLIENT;
                     Cli.bound := "" |})))
  = false
  /\ (let out' :=
        snd (fst (Cli.FromArguments MoreInputs.STREAM MoreInputs.BENCH
                    MoreInputs.CLIENT MoreInputs.CONVERT MoreInputs.PULSAR
                    MoreInputs.QUEUE MoreInputs.cli_extras_error
                    ["bolson"; "stream"; "--input"; "battery.json"; "--nonsense"]
                    {| Cli.sub := MoreInputs.NONE; Cli.bench := MoreInputs.CLIENT;
                       Cli.bound := "" |})) in
      Cli.sub out' = MoreInputs.NONE /\ Cli.bench out' = MoreInputs.CLIENT
      /\ Cli.bound out' = "battery.json").
Proof.
  split.
  - apply (proj2 (proj1 (FromArguments_fails_iff MoreInputs.SubCommand MoreInputs.Bench
                           MoreInputs.STREAM MoreInputs.BENCH MoreInputs.CLIENT
                           MoreInputs.CONVERT MoreInputs.PULSAR MoreInputs.QUEUE string
                           (MoreInputs.cli_bench_convert
                              (Err GenericError "Parser implementation not available."))
                           ["bolson"; "bench"; "convert"; "--input"; "battery.json"]
                           {| Cli.sub := MoreInputs.NONE; Cli.bench := MoreInputs.CLIENT;
                              Cli.bound := "" |}))).
    right. repeat split.
  - apply (proj2 (FromArguments_fails_iff MoreInputs.SubCommand MoreInputs.Bench
                    MoreInputs.STREAM MoreInputs.BENCH MoreInputs.CLIENT
                    MoreInputs.CONVERT MoreInputs.PULSAR MoreInputs.QUEUE string
                    MoreInputs.cli_extras_error
                    ["bolson"; "stream"; "--input"; "battery.json"; "--nonsense"]
                    {| Cli.sub := MoreInputs.NONE; Cli.bench := MoreInputs.CLIENT;
                       Cli.bound := "" |})).
    discriminate.
Defined.

Lemma SerializerMock_appends_witness :
  exists k,
    (k <= 3)%nat
    /\ snd (SerializerMock.Serialize MoreInputs.finish_fails_second
              [Inputs.small_batch; Inputs.big_batch; Inputs.small_batch]
              [{| Serializer.message := [];
                  Serializer.sb_seq_range := {| first := 1; last := 9 |} |}])
       = [{| Serializer.message := [];
             Serializer.sb_seq_range := {| first := 1; last := 9 |} |}]
         ++ map MoreProps.mock_message
              (firstn k [Inputs.small_batch; Inputs.big_batch; Inputs.small_batch])
    /\ (forall j, (j < k)%nat -> ok (MoreInputs.finish_fails_second j) = true)
    /\ (k = 3%nat ->
        fst (SerializerMock.Serialize MoreInputs.finish_fails_second
               [Inputs.small_batch; Inputs.big_batch; Inputs.small_batch]
               [{| Serializer.message := [];
                   Serializer.sb_seq_range := {| first := 1; last := 9 |} |}])
        = OK)
    /\ ((k < 3)%nat ->
        ok (MoreInputs.finish_fails_second k) = false
        /\ fst (SerializerMock.Serialize MoreInputs.finish_fails_second
                  [Inputs.small_batch; Inputs.big_batch; Inputs.small_batch]
                  [{| Serializer.message := [];
                      Serializer.sb_seq_range := {| first := 1; last := 9 |} |}])
           = SerializerMock.of_arrow (MoreInputs.finish_fails_second k)).
Proof.
  exact (SerializerMock_appends MoreInputs.finish_fails_second
           [Inputs.small_batch; Inputs.big_batch; Inputs.small_batch]
           [{| Serializer.message := [];
               Serializer.sb_seq_range := {| first := 1; last := 9 |} |}]).
Defined.
